(** * ivande_combiner: fit/transform preprocessing components

    A shallow embedding of [ivande_combiner/utils.py] and
    [ivande_combiner/transformers.py].

    - A pandas DataFrame is a mutable object: it lives in a [heap] and is
      passed around by reference ([loc]).  [X.copy()] allocates, [X_[c] = s]
      and [drop(..., inplace=True)] write through the reference.
    - A transformer instance ([self]) is mutable too; its attributes are the
      second component of the state.
    - Exceptions are the left summand of the result; the state reached when
      the exception is raised is kept, as in Python.
    - Numbers are exact rationals ([Q]); a null cell (None / NaN / NaT) is
      [VNull].  The sklearn estimators are an interface ([Sklearn]). *)

From Stdlib Require Import ZArith QArith Qround String Ascii List Bool Lia.
From stdpp Require Import base tactics option list strings.

Open Scope string_scope.
Open Scope Z_scope.
Open Scope list_scope.

(* ===================================================================== *)
(** ** Values, series, tables *)
(* ===================================================================== *)

Inductive value :=
| VNull
| VNum (q : Q)
| VStr (s : string)
| VDate (y m d : Z).

Inductive dtype := Plain | Category.

Record Series := mkSeries { dtype_of : dtype; cells : list value }.

(** Columns in order, each with its name. *)
Definition table := list (string * Series).

Definition is_null (v : value) : bool :=
  match v with VNull => true | _ => false end.

(** [==] on cells; numbers compare as rationals. *)
Definition value_eqb (a b : value) : bool :=
  match a, b with
  | VNull, VNull => true
  | VNum p, VNum q => Qeq_bool p q
  | VStr s, VStr t => String.eqb s t
  | VDate y m d, VDate y' m' d' => (y =? y') && (m =? m') && (d =? d')
  | _, _ => false
  end.

Definition columns (t : table) : list string := map fst t.

(** [col in X.columns] *)
Definition has_col (c : string) (t : table) : bool :=
  existsb (String.eqb c) (columns t).

(** [c in l] for a Python list of strings. *)
Definition mem (c : string) (l : list string) : bool :=
  existsb (String.eqb c) l.

Fixpoint lookup_col (c : string) (t : table) : option Series :=
  match t with
  | [] => None
  | (n, s) :: t' => if String.eqb c n then Some s else lookup_col c t'
  end.

(** [X[c] = s]: replaces the column in place, or appends a new one. *)
Fixpoint set_col (c : string) (s : Series) (t : table) : table :=
  match t with
  | [] => [(c, s)]
  | (n, s0) :: t' =>
      if String.eqb c n then (n, s) :: t' else (n, s0) :: set_col c s t'
  end.

Definition drop_cols (cs : list string) (t : table) : table :=
  filter (fun p => negb (mem (fst p) cs)) t.

(* ===================================================================== *)
(** ** Python dictionaries (insertion ordered) *)
(* ===================================================================== *)

Abbreviation dict K V := (list (K * V)).

Section Dict.
Context {K V : Type} `{EqDecision K}.

Fixpoint dict_get (k : K) (d : dict K V) : option V :=
  match d with
  | [] => None
  | (k', v) :: d' => if bool_decide (k = k') then Some v else dict_get k d'
  end.

(** [d[k] = v] *)
Fixpoint dict_set (k : K) (v : V) (d : dict K V) : dict K V :=
  match d with
  | [] => [(k, v)]
  | (k', v') :: d' =>
      if bool_decide (k = k') then (k', v) :: d' else (k', v') :: dict_set k v d'
  end.

Definition dict_keys (d : dict K V) : list K := map fst d.
End Dict.

(* ===================================================================== *)
(** ** Exceptions, heap and the monad of methods *)
(* ===================================================================== *)

Inductive exn :=
| ValueError (msg : string)
| NotFittedError (msg : string)
| KeyError (key : string)
| TypeError (msg : string)
| AttributeError (msg : string)
| SklearnError (msg : string)     (* raised inside an sklearn estimator *)
| ReferenceError (msg : string).  (* a reference to no object *)

(** Pure code that may raise. *)
#[global] Instance exn_ret : MRet (sum exn) := fun A a => inr a.
#[global] Instance exn_bind : MBind (sum exn) := fun A B f r =>
  match r with inl e => inl e | inr a => f a end.

Abbreviation loc := nat.
Abbreviation heap := (list table).

(** What a caller may pass as [X]. *)
Inductive pyval :=
| PyDataFrame (x : loc)
| PyStr (s : string)
| PyNone.

(** A method of an instance with attributes [S]. *)
Definition M (S A : Type) : Type := S -> heap -> (exn + A) * S * heap.

#[global] Instance M_ret S : MRet (M S) := fun A a s h => (inr a, s, h).
#[global] Instance M_bind S : MBind (M S) := fun A B f m s h =>
  match m s h with
  | (inr a, s', h') => f a s' h'
  | (inl e, s', h') => (inl e, s', h')
  end.

Definition raise {S A} (e : exn) : M S A := fun s h => (inl e, s, h).
Definition get_self {S} : M S S := fun s h => (inr s, s, h).
Definition set_self {S} (s' : S) : M S unit := fun _ h => (inr tt, s', h).
Definition lift {S A} (r : exn + A) : M S A := fun s h => (r, s, h).

(** [for a in l: body a] *)
Fixpoint for_ {S A} (l : list A) (body : A -> M S unit) : M S unit :=
  match l with
  | [] => mret tt
  | a :: l' => body a ;; for_ l' body
  end.

(** A loop that threads a local variable. *)
Fixpoint for_acc {S A B} (l : list A) (acc : B) (body : B -> A -> M S B) : M S B :=
  match l with
  | [] => mret acc
  | a :: l' => acc' ← body acc a; for_acc l' acc' body
  end.

Section DataFrame.
Context {S : Type}.

Definition df_read (x : loc) : M S table := fun s h =>
  match h !! x with
  | Some t => (inr t, s, h)
  | None => (inl (ReferenceError "no such object"), s, h)
  end.

Definition df_write (x : loc) (t : table) : M S unit := fun s h =>
  (inr tt, s, <[x := t]> h).

Definition df_alloc (t : table) : M S loc := fun s h =>
  (inr (length h), s, h ++ [t]).

(** [X.copy()] *)
Definition df_copy (x : loc) : M S loc := t ← df_read x; df_alloc t.

(** [X.columns] *)
Definition df_columns (x : loc) : M S (list string) :=
  t ← df_read x; mret (columns t).

(** [X[c]] *)
Definition df_getitem (x : loc) (c : string) : M S Series :=
  t ← df_read x;
  match lookup_col c t with
  | Some s => mret s
  | None => raise (KeyError c)
  end.

(** [X[c] = s] *)
Definition df_setitem (x : loc) (c : string) (s : Series) : M S unit :=
  t ← df_read x; df_write x (set_col c s t).

(** The first of [cs] that is not a column of [t]. *)
Definition missing_col (cs : list string) (t : table) : option string :=
  find (fun c => negb (has_col c t)) cs.

(** The columns [X[cs]] is made of: for each name of [cs] in turn, every
    column of that name (one, when the names of the frame are distinct). *)
Definition select_cols (cs : list string) (t : table) : table :=
  flat_map (fun c => filter (fun p => String.eqb (fst p) c) t) cs.

(** [X[cs]] for a list of names: a new frame, [KeyError] on a missing name. *)
Definition df_select (x : loc) (cs : list string) : M S table :=
  t ← df_read x;
  match missing_col cs t with
  | Some c => raise (KeyError c)
  | None => mret (select_cols cs t)
  end.

(** [c] occurs more than once in [cs]. *)
Definition repeated (c : string) (cs : list string) : bool :=
  (1 <? count_occ String.string_dec cs c)%nat.

(** [X[cs] = frame] for a frame that carries the names [cs], as the frames
    assigned in this code do: pandas checks the lengths and then assigns
    [X[c] = frame[c]] name by name, in order; for a name that occurs more
    than once [frame[c]] is not one column but a frame, and the assignment
    raises. *)
Definition df_setitem_frame (x : loc) (cs : list string) (fr : table) : M S unit :=
  if negb (length cs =? length fr)%nat
  then raise (ValueError "Columns must be same length as key")
  else for_ (zip cs (map snd fr)) (fun p =>
         if repeated (fst p) cs
         then raise (ValueError "Columns must be same length as key")
         else df_setitem x (fst p) (snd p)).

(** [X.drop(cs, axis=1)]: a new frame. *)
Definition df_drop (x : loc) (cs : list string) : M S loc :=
  t ← df_read x;
  match missing_col cs t with
  | Some c => raise (KeyError c)
  | None => df_alloc (drop_cols cs t)
  end.

(** [X.drop(c, axis=1, inplace=True)] *)
Definition df_drop_inplace (x : loc) (c : string) : M S unit :=
  t ← df_read x;
  match missing_col [c] t with
  | Some c => raise (KeyError c)
  | None => df_write x (drop_cols [c] t)
  end.

(** [pd.concat([X, *series], axis=1)]: a new frame. *)
Definition pd_concat (x : loc) (series : list (string * Series)) : M S loc :=
  t ← df_read x; df_alloc (t ++ series).
End DataFrame.

(* ===================================================================== *)
(** ** utils.py *)
(* ===================================================================== *)

(** Python truth value of the objects used as [fitted_item]. *)
Class Truthy (A : Type) := truthy : A -> bool.

#[global] Instance truthy_unit : Truthy unit := fun _ => true.
#[global] Instance truthy_list A : Truthy (list A) := fun l =>
  match l with [] => false | _ => true end.
#[global] Instance truthy_option A `{Truthy A} : Truthy (option A) := fun o =>
  match o with None => false | Some a => truthy a end.

Section Utils.
Context {S : Type}.

(** Passing the [isinstance] test gives access to the frame. *)
Definition check_fill (X : pyval) : M S loc :=
  match X with
  | PyDataFrame x => mret x
  | _ => raise (ValueError "X is not pandas DataFrame")
  end.

Definition check_transform {A} `{Truthy A} (X : pyval) (fitted_item : A)
    (transformer_name : string) (is_check_fill : bool) : M S loc :=
  x ← check_fill X;
  if is_check_fill && negb (truthy fitted_item)
  then raise (NotFittedError (transformer_name +:+ " transformer was not fitted"))
  else mret x.
End Utils.

(* ===================================================================== *)
(** ** pandas: dates *)
(* ===================================================================== *)

Module Calendar.
Definition is_leap (y : Z) : bool :=
  ((y mod 4 =? 0) && negb (y mod 100 =? 0)) || (y mod 400 =? 0).

Definition days_in_month (y m : Z) : Z :=
  if m =? 2 then (if is_leap y then 29 else 28)
  else if (m =? 4) || (m =? 6) || (m =? 9) || (m =? 11) then 30
  else 31.

Definition digit_of (a : ascii) : option Z :=
  let n := Z.of_nat (nat_of_ascii a) in
  if (48 <=? n) && (n <=? 57) then Some (n - 48) else None.

Fixpoint number_of (acc : Z) (l : list ascii) : option Z :=
  match l with
  | [] => Some acc
  | a :: l' => d ← digit_of a; number_of (10 * acc + d) l'
  end.

(** [pd.to_datetime] of one string, for the ISO form [YYYY-MM-DD]. *)
Definition parse_date (s : string) : option value :=
  match list_ascii_of_string s with
  | [y1; y2; y3; y4; s1; m1; m2; s2; d1; d2] =>
      if Ascii.eqb s1 "-" && Ascii.eqb s2 "-" then
        y ← number_of 0 [y1; y2; y3; y4];
        m ← number_of 0 [m1; m2];
        d ← number_of 0 [d1; d2];
        if (1 <=? m) && (m <=? 12) && (1 <=? d) && (d <=? days_in_month y m)
        then Some (VDate y m d) else None
      else None
  | _ => None
  end.

(** Days since 1970-01-01 in the proleptic Gregorian calendar. *)
Definition days_from_civil (y m d : Z) : Z :=
  let y' := if m <=? 2 then y - 1 else y in
  let era := y' / 400 in
  let yoe := y' - era * 400 in
  let doy := (153 * (if 2 <? m then m - 3 else m + 9) + 2) / 5 + d - 1 in
  let doe := yoe * 365 + yoe / 4 - yoe / 100 + doy in
  era * 146097 + doe - 719468.

(** Monday = 0. *)
Definition dayofweek (y m d : Z) : Z := (days_from_civil y m d + 3) mod 7.

Definition dayofyear (y m d : Z) : Z :=
  days_from_civil y m d - days_from_civil y 1 1 + 1.

Definition weeks_in_year (y : Z) : Z :=
  let p := fun y => (y + y / 4 - y / 100 + y / 400) mod 7 in
  if (p y =? 4) || (p (y - 1) =? 3) then 53 else 52.

(** ISO 8601 week number. *)
Definition weekofyear (y m d : Z) : Z :=
  let w := (dayofyear y m d - (dayofweek y m d + 1) + 10) / 7 in
  if w <? 1 then weeks_in_year (y - 1)
  else if weeks_in_year y <? w then 1
  else w.
End Calendar.

Fixpoint mapE {A B} (f : A -> exn + B) (l : list A) : exn + list B :=
  match l with
  | [] => inr []
  | a :: l' =>
      match f a with
      | inl e => inl e
      | inr b => match mapE f l' with inl e => inl e | inr bs => inr (b :: bs) end
      end
  end.

(** [pd.to_datetime(series)]: ISO strings, dates and nulls. *)
Definition to_datetime (s : Series) : exn + Series :=
  match mapE (fun v =>
           match v with
           | VNull => inr VNull
           | VDate y m d => inr (VDate y m d)
           | VStr str =>
               match Calendar.parse_date str with
               | Some d => inr d
               | None => inl (ValueError ("Unknown datetime string format: " +:+ str))
               end
           | VNum _ => inl (TypeError "epoch numbers are outside this model")
           end) (cells s) with
  | inl e => inl e
  | inr cs => inr (mkSeries Plain cs)
  end.

(** [series.dt.<field>] *)
Definition dt_field (f : Z -> Z -> Z -> Z) (s : Series) : exn + Series :=
  match mapE (fun v =>
           match v with
           | VNull => inr VNull
           | VDate y m d => inr (VNum (inject_Z (f y m d)))
           | _ => inl (AttributeError "Can only use .dt accessor with datetimelike values")
           end) (cells s) with
  | inl e => inl e
  | inr cs => inr (mkSeries Plain cs)
  end.

(** [l[:k]] *)
Definition slice_to {A} (k : Z) (l : list A) : list A :=
  if 0 <=? k then take (Z.to_nat k) l
  else take (Z.to_nat (Z.of_nat (length l) + k)) l.

(* ===================================================================== *)
(** ** transformers.py *)
(* ===================================================================== *)

Module CalendarExtractor.
Record t := mk { date_col : string; calendar_level : option Z }.

Definition __init__ (date_col : string) (calendar_level : option Z) : t :=
  mk date_col calendar_level.

Definition fit (X : pyval) : M t unit := mret tt.

(** One round of the [if/elif] chain over [what]. *)
Definition generate (X_ : loc) (date_col : string)
    (cols_to_add : list (string * Series)) (what : string)
    : M t (list (string * Series)) :=
  if String.eqb what "year" then
    d ← df_getitem X_ date_col;
    year_col ← lift (dt_field (fun y _ _ => y) d);
    mret (cols_to_add ++ [("year", year_col)])
  else if String.eqb what "month" then
    d ← df_getitem X_ date_col;
    month_col ← lift (dt_field (fun _ m _ => m) d);
    mret (cols_to_add ++ [("month", month_col)])
  else if String.eqb what "day" then
    d ← df_getitem X_ date_col;
    day_col ← lift (dt_field (fun _ _ d => d) d);
    mret (cols_to_add ++ [("day", day_col)])
  else if String.eqb what "dayofweek" then
    d ← df_getitem X_ date_col;
    dayofweek_col ← lift (dt_field Calendar.dayofweek d);
    mret (cols_to_add ++ [("dayofweek", dayofweek_col)])
  else if String.eqb what "dayofyear" then
    d ← df_getitem X_ date_col;
    dayofyear_cl ← lift (dt_field Calendar.dayofyear d);
    mret (cols_to_add ++ [("dayofyear", dayofyear_cl)])
  else if String.eqb what "weekofyear" then
    d ← df_getitem X_ date_col;
    weekofyear_col ← lift (dt_field Calendar.weekofyear d);
    (* the series is named "weekofyear" and then dropped: no append *)
    mret cols_to_add
  else
    raise (ValueError ("Unknown parameter " +:+ what +:+ " in what_to_generate")).

Definition transform (X : pyval) : M t loc :=
  x ← check_transform X (None : option unit) "" false;
  self ← get_self;
  X_ ← df_copy x;
  d ← df_getitem X_ (date_col self);
  d' ← lift (to_datetime d);
  df_setitem X_ (date_col self) d';;
  let what_to_generate :=
    ["year"; "month"; "day"; "dayofweek"; "dayofyear"; "weekofyear"] in
  let what_to_generate :=
    match calendar_level self with
    | Some k => slice_to k what_to_generate
    | None => what_to_generate
    end in
  cols_to_add ← for_acc what_to_generate [] (generate X_ (date_col self));
  df_drop_inplace X_ (date_col self);;
  X_ ← pd_concat X_ cols_to_add;
  mret X_.
End CalendarExtractor.

(** [series.nunique()]: the number of distinct non-null values. *)
Fixpoint distinct (seen : list value) (l : list value) : list value :=
  match l with
  | [] => seen
  | v :: l' =>
      if is_null v || existsb (value_eqb v) seen
      then distinct seen l' else distinct (seen ++ [v]) l'
  end.

Definition nunique (s : Series) : Z := Z.of_nat (length (distinct [] (cells s))).

Module NoInfoFeatureRemover.
Record t := mk {
  cols_to_remove : option (list string);
  cols_to_except : list string;
  verbose : bool }.

Definition __init__ (cols_to_except : option (list string)) (verbose : bool) : t :=
  mk None (default [] cols_to_except) verbose.

Definition set_cols_to_remove (v : option (list string)) (self : t) : t :=
  mk v (cols_to_except self) (verbose self).

(** [self.cols_to_remove.append(col)] *)
Definition append_col (col : string) : M t unit :=
  self ← get_self;
  match cols_to_remove self with
  | Some l => set_self (set_cols_to_remove (Some (l ++ [col])) self)
  | None => raise (AttributeError "'NoneType' object has no attribute 'append'")
  end.

Definition fit (X : pyval) : M t unit :=
  x ← check_fill X;
  self ← get_self;
  set_self (set_cols_to_remove (Some []) self);;
  cols ← df_columns x;
  for_ cols (fun col =>
    s ← df_getitem x col;
    self ← get_self;
    if (nunique s <=? 1) && negb (mem col (cols_to_except self))
    then append_col col else mret tt);;
  (* verbose: a line on stdout, no other effect *)
  mret tt.

Definition transform (X : pyval) : M t loc :=
  self ← get_self;
  x ← check_transform X (cols_to_remove self) "NoInfoFeatureRemover" true;
  match cols_to_remove self with
  | Some cols => X_ ← df_drop x cols; mret X_
  | None => raise (TypeError "'NoneType' object is not iterable")
  end.
End NoInfoFeatureRemover.

(* ===================================================================== *)
(** ** pandas: statistics of a numeric series *)
(* ===================================================================== *)

(** The non-null numbers of a series; other cells are a [TypeError]. *)
Fixpoint numbers (l : list value) : exn + list Q :=
  match l with
  | [] => inr []
  | VNull :: l' => numbers l'
  | VNum q :: l' => match numbers l' with inl e => inl e | inr qs => inr (q :: qs) end
  | _ :: _ => inl (TypeError "unsupported operand for a non-numeric column")
  end.

Fixpoint insert_sorted (x : Q) (l : list Q) : list Q :=
  match l with
  | [] => [x]
  | y :: l' => if Qle_bool x y then x :: l else y :: insert_sorted x l'
  end.

Definition sort (l : list Q) : list Q := foldr insert_sorted [] l.

Definition Qmin_list (l : list Q) : option Q :=
  match l with
  | [] => None
  | x :: l' => Some (foldl (fun m y => if Qle_bool m y then m else y) x l')
  end.

Definition Qmax_list (l : list Q) : option Q :=
  match l with
  | [] => None
  | x :: l' => Some (foldl (fun m y => if Qle_bool y m then m else y) x l')
  end.

Definition of_opt (o : option Q) : value :=
  match o with Some q => VNum q | None => VNull end.

(** [series.min()], [series.max()]: nulls are skipped, NaN when nothing is left. *)
Definition s_min (s : Series) : exn + value :=
  match numbers (cells s) with inl e => inl e | inr qs => inr (of_opt (Qmin_list qs)) end.
Definition s_max (s : Series) : exn + value :=
  match numbers (cells s) with inl e => inl e | inr qs => inr (of_opt (Qmax_list qs)) end.

Definition Qsum (l : list Q) : Q := foldr Qplus 0%Q l.

(** The mean in exact arithmetic. *)
Definition mean_of (qs : list Q) : option Q :=
  match qs with
  | [] => None
  | _ => Some (Qsum qs / inject_Z (Z.of_nat (length qs)))%Q
  end.

(** Double precision arithmetic and the floating point reductions of a
    numeric series.  What [quantile], [mean], [std] and the operators
    [+ - *] return depends on the rounding of float64 and on how numpy and
    pandas order their operations, so they form an interface and the
    properties of the code are proved for every implementation of it:
    the numbers are the float64 values as rationals; [series_quantile p qs]
    is [series.quantile(p)] for the non-null values [qs] of the series, [p]
    being the decimal written in the source; [None] stands for NaN.
    Results are taken to be finite: overflow to infinity is outside this
    model.  [Reference.float64] implements the interface with IEEE 754
    rounding. *)
Class Float64 := {
  f64_add : Q -> Q -> Q;
  f64_sub : Q -> Q -> Q;
  f64_mul : Q -> Q -> Q;
  series_quantile : Q -> list Q -> option Q;
  series_mean : list Q -> option Q;
  series_std : list Q -> option Q }.

(** A clip bound: NaN or a number. *)
Inductive bound :=
| BNaN
| BNum (q : Q).

(** [b <= x] *)
Definition bound_le (b : bound) (x : Q) : bool :=
  match b with
  | BNaN => false
  | BNum q => Qle_bool q x
  end.

(** [x <= b] *)
Definition le_bound (x : Q) (b : bound) : bool :=
  match b with
  | BNaN => false
  | BNum q => Qle_bool x q
  end.

(** [series[(series >= left) & (series <= right)]] *)
Definition within (left_bound right_bound : bound) (qs : list Q) : list Q :=
  filter (fun x => bound_le left_bound x && le_bound x right_bound) qs.

(** [series.clip(lower, upper)]; a NaN threshold does not clip. *)
Definition clip_value (lower upper : value) (v : value) : exn + value :=
  match v with
  | VNull => inr VNull
  | VNum x =>
      match lower with
      | VNum l =>
          if negb (Qle_bool l x) then inr lower else
          match upper with
          | VNum u => if negb (Qle_bool x u) then inr upper else inr v
          | _ => inr v
          end
      | _ =>
          match upper with
          | VNum u => if negb (Qle_bool x u) then inr upper else inr v
          | _ => inr v
          end
      end
  | _ => inl (TypeError "'<' not supported for a non-numeric column")
  end.

Definition s_clip (th : value * value) (s : Series) : exn + Series :=
  match mapE (clip_value (fst th) (snd th)) (cells s) with
  | inl e => inl e
  | inr cs => inr (mkSeries (dtype_of s) cs)
  end.

Module OutlierRemover.
Record t := mk {
  cols_to_transform : list string;
  method : string;
  col_thresholds : option (dict string (value * value)) }.

Definition __init__ (cols_to_transform : option (list string)) (method : string)
    : exn + t :=
  match cols_to_transform with
  | None => inl (ValueError "cols_to_transform parameter is should be filled")
  | Some cols => inr (mk cols method None)
  end.

Definition set_cols_to_transform (v : list string) (self : t) : t :=
  mk v (method self) (col_thresholds self).
Definition set_col_thresholds (v : option (dict string (value * value))) (self : t) : t :=
  mk (cols_to_transform self) (method self) v.

Section WithFloat64.
Context `{Float64}.

(** The [if/elif] chain on [self.method]: the two bounds for one column. *)
Definition bounds (method : string) (c : Series) : exn + bound * bound :=
  if String.eqb method "iqr" then
    qs ← numbers (cells c);
    match series_quantile (1 # 4) qs, series_quantile (3 # 4) qs with
    | Some q1, Some q3 =>
        let iqr := f64_sub q3 q1 in
        let left_bound := f64_sub q1 (f64_mul (3 # 2) iqr) in
        let right_bound := f64_add q3 (f64_mul (3 # 2) iqr) in
        mret (BNum left_bound, BNum right_bound)
    | _, _ => mret (BNaN, BNaN)
    end
  else if String.eqb method "std" then
    qs ← numbers (cells c);
    match series_mean qs, series_std qs with
    | Some mean, Some std =>
        let left_bound := f64_sub mean (f64_mul 3 std) in
        let right_bound := f64_add mean (f64_mul 3 std) in
        mret (BNum left_bound, BNum right_bound)
    | _, _ => mret (BNaN, BNaN)
    end
  else if String.eqb method "quantile" then
    qs ← numbers (cells c);
    match series_quantile (1 # 100) qs, series_quantile (99 # 100) qs with
    | Some left_bound, Some right_bound => mret (BNum left_bound, BNum right_bound)
    | _, _ => mret (BNaN, BNaN)
    end
  else if String.eqb method "skip" then
    qs ← numbers (cells c);
    match Qmin_list qs, Qmax_list qs with
    | Some left_bound, Some right_bound => mret (BNum left_bound, BNum right_bound)
    | _, _ => mret (BNaN, BNaN)
    end
  else inl (ValueError ("unknown method " +:+ method +:+ " for outlier remover")).
End WithFloat64.

(** The pair stored for one column: [(s.min(), s.max())]. *)
Definition thresholds (left_bound right_bound : bound) (qs : list Q) : value * value :=
  let s := within left_bound right_bound qs in
  (of_opt (Qmin_list s), of_opt (Qmax_list s)).

Section WithFloat64.
Context `{Float64}.

Definition fit_col (x : loc) (col : string) : M t unit :=
  self ← get_self;
  c ← df_getitem x col;
  b ← lift (bounds (method self) c);
  qs ← lift (numbers (cells c));
  match col_thresholds self with
  | Some d =>
      set_self (set_col_thresholds
                  (Some (dict_set col (thresholds (fst b) (snd b) qs) d)) self)
  | None => raise (TypeError "'NoneType' object does not support item assignment")
  end.

Definition fit (X : pyval) : M t unit :=
  x ← check_fill X;
  cols ← df_columns x;
  self ← get_self;
  set_self (set_cols_to_transform
              (filter (fun col => mem col cols) (cols_to_transform self)) self);;
  self ← get_self;
  set_self (set_col_thresholds (Some []) self);;
  self ← get_self;
  for_ (cols_to_transform self) (fit_col x).
End WithFloat64.

Definition transform (X : pyval) : M t loc :=
  self ← get_self;
  x ← check_transform X (col_thresholds self) "OutlierRemover" true;
  X_ ← df_copy x;
  for_ (cols_to_transform self) (fun col =>
    c ← df_getitem X_ col;
    match col_thresholds self ≫= dict_get col with
    | Some th => c' ← lift (s_clip th c); df_setitem X_ col c'
    | None => raise (KeyError col)
    end);;
  mret X_.
End OutlierRemover.

(** [target.fillna(source)]: a null cell takes the cell of the same row. *)
Fixpoint fill_cells (target source : list value) : list value :=
  match target, source with
  | v :: target', w :: source' =>
      (if is_null v then w else v) :: fill_cells target' source'
  | _, _ => target
  end.

Definition fillna (target source : Series) : Series :=
  mkSeries (dtype_of target) (fill_cells (cells target) (cells source)).

Module WithAnotherColumnImputer.
Record t := mk { cols_to_impute : dict string string }.

Definition __init__ (cols_to_impute : option (dict string string)) : exn + t :=
  match cols_to_impute with
  | None => inl (ValueError "cols_to_impute parameter is should be filled")
  | Some d => inr (mk d)
  end.

Definition fit (X : pyval) : M t unit :=
  x ← check_fill X;
  cols ← df_columns x;
  self ← get_self;
  set_self (mk (filter (fun p => mem (fst p) cols) (cols_to_impute self))).

Definition transform (X : pyval) : M t loc :=
  self ← get_self;
  x ← check_transform X (cols_to_impute self) "WithAnotherColumnImputer" true;
  X_ ← df_copy x;
  for_ (dict_keys (cols_to_impute self)) (fun col =>
    target ← df_getitem X_ col;
    match dict_get col (cols_to_impute self) with
    | Some other => source ← df_getitem X_ other;
                    df_setitem X_ col (fillna target source)
    | None => raise (KeyError col)
    end);;
  mret X_.
End WithAnotherColumnImputer.

(** [frame.astype("category")] *)
Definition astype_category (fr : table) : table :=
  map (fun p => (fst p, mkSeries Category (cells (snd p)))) fr.

Module CatCaster.
Record t := mk { cols_to_cast : list string }.

Definition __init__ (cols_to_cast : list string) : t := mk cols_to_cast.

Definition fit (X : pyval) : M t unit :=
  x ← check_fill X;
  cols ← df_columns x;
  self ← get_self;
  set_self (mk (filter (fun col => mem col cols) (cols_to_cast self))).

Definition transform (X : pyval) : M t loc :=
  x ← check_transform X (None : option unit) "" false;
  X_ ← df_copy x;
  self ← get_self;
  fr ← df_select x (cols_to_cast self);
  df_setitem_frame X_ (cols_to_cast self) (astype_category fr);;
  mret X_.
End CatCaster.

Module FeaturesOrder.
Record t := mk {
  features_order : list string;
  features_order_ : option (list string) }.

Definition __init__ (features_order : list string) : t := mk features_order None.

Definition fit (X : pyval) : M t unit :=
  x ← check_fill X;
  cols ← df_columns x;
  self ← get_self;
  let order := filter (fun col => mem col cols) (features_order self) in
  set_self (mk (features_order self) (Some order));;
  self ← get_self;
  match features_order_ self with
  | Some order =>
      set_self (mk (features_order self)
                   (Some (order ++ filter (fun col => negb (mem col order)) cols)))
  | None => raise (TypeError "unsupported operand type(s) for +=")
  end.

Definition transform (X : pyval) : M t loc :=
  self ← get_self;
  x ← check_transform X (features_order_ self) "OrderFeatures" true;
  match features_order_ self with
  | Some order => fr ← df_select x order; X_ ← df_alloc fr; mret X_
  | None => raise (TypeError "'NoneType' object is not iterable")
  end.
End FeaturesOrder.

(* ===================================================================== *)
(** ** sklearn *)
(* ===================================================================== *)

Inductive scaler_class := StandardScaler | MinMaxScaler | RobustScaler | PowerTransformer.

(** The estimators the library delegates to.  A fitted estimator is an
    opaque object; [fit] and [transform] work on frames (the estimators are
    set to pandas output) and raise with a message. *)
Class Sklearn := {
  sk_scaler : Type;
  sk_scaler_fit : scaler_class -> table -> string + sk_scaler;
  sk_scaler_transform : sk_scaler -> table -> string + table;
  sk_imputer : Type;
  (** [SimpleImputer(strategy, fill_value, keep_empty_features=True).fit] *)
  sk_imputer_fit : string -> option value -> table -> string + sk_imputer;
  sk_imputer_transform : sk_imputer -> table -> string + table }.

Definition sk {S A} (r : string + A) : M S A :=
  match r with
  | inl msg => raise (SklearnError msg)
  | inr a => mret a
  end.

Module ScalerPicker.
Section WithSklearn.
Context `{Sklearn}.

(** [self.scaler] once set: the string "skip" or a fitted scaler. *)
Inductive scaler_attr := Skip | Fitted (s : sk_scaler).

#[global] Instance truthy_scaler_attr : Truthy scaler_attr := fun _ => true.

Record t := mk {
cols_to_scale : list string;
scaler_type : string;
scaler : option scaler_attr }.

Definition __init__ (cols_to_scale : list string) (scaler_type : string) : t :=
mk cols_to_scale scaler_type None.

Definition set_cols_to_scale (v : list string) (self : t) : t :=
mk v (scaler_type self) (scaler self).
Definition set_scaler (v : option scaler_attr) (self : t) : t :=
mk (cols_to_scale self) (scaler_type self) v.

Definition _get_scaler_class : M t (option scaler_class) :=
self ← get_self;
if String.eqb (scaler_type self) "standard" then mret (Some StandardScaler)
else if String.eqb (scaler_type self) "minmax" then mret (Some MinMaxScaler)
else if String.eqb (scaler_type self) "robust" then mret (Some RobustScaler)
else if String.eqb (scaler_type self) "power" then mret (Some PowerTransformer)
else if String.eqb (scaler_type self) "skip" then mret None
else raise (ValueError ("unknown scaler type " +:+ scaler_type self
                        +:+ " should be standard or minmax")).

Definition fit (X : pyval) : M t unit :=
x ← check_fill X;
cols ← df_columns x;
self ← get_self;
set_self (set_cols_to_scale
            (filter (fun col => mem col cols) (cols_to_scale self)) self);;
scaler ← _get_scaler_class;
match scaler with
| Some cls =>
    self ← get_self;
    sub ← df_select x (cols_to_scale self);
    fitted ← sk (sk_scaler_fit cls sub);
    set_self (set_scaler (Some (Fitted fitted)) self);;
    self ← get_self;
    sub ← df_select x (cols_to_scale self);
    fitted ← sk (sk_scaler_fit cls sub);
    set_self (set_scaler (Some (Fitted fitted)) self)
| None =>
    self ← get_self;
    set_self (set_scaler (Some Skip) self)
end.

Definition transform (X : pyval) : M t loc :=
self ← get_self;
x ← check_transform X (scaler self) "CustomScaler" true;
X_ ← df_copy x;
match scaler self with
| Some Skip => mret X_
| Some (Fitted s) =>
    sub ← df_select X_ (cols_to_scale self);
    out ← sk (sk_scaler_transform s sub);
    df_setitem_frame X_ (cols_to_scale self) out;;
    mret X_
| None => raise (AttributeError "'NoneType' object has no attribute 'transform'")
end.
End WithSklearn.
End ScalerPicker.

(** Modelled from the spec: [check_key_tuple_empty_intersection], which
    transformers.py imports from utils.py and utils.py does not define.
    The spec: the constructor validates that the column-name tuples used
    as keys are pairwise disjoint, fatal if any two keys share a column. *)
Fixpoint check_key_tuple_empty_intersection {V} (d : dict (list string) V)
    : exn + unit :=
  match d with
  | [] => inr tt
  | (key, _) :: d' =>
      if existsb (fun other => existsb (fun col => mem col other) key) (dict_keys d')
      then inl (ValueError "keys of cols_to_impute share a column")
      else check_key_tuple_empty_intersection d'
  end.

(** "Pairwise disjoint": no column occurs in two keys at different places. *)
Definition keys_pairwise_disjoint (keys : list (list string)) : Prop :=
  forall (i j : nat) (k1 k2 : list string) (c : string),
    i <> j -> keys !! i = Some k1 -> keys !! j = Some k2 ->
    c ∈ k1 -> c ∈ k2 -> False.

(** [X.isnull().all().any()] *)
Definition any_all_null (t : table) : bool :=
  existsb (fun p => forallb is_null (cells (snd p))) t.

Module SimpleImputerPicker.
Section WithSklearn.
Context `{Sklearn}.

(** [cols_to_impute]: a dict from tuples of names to fill values, or a
  list of names (also what [X.columns] stands for). *)
Inductive config :=
| OfDict (d : dict (list string) value)
| OfList (l : list string).

(** A key of the dict kept in [self.imputer]: a tuple or one name. *)
Inductive key := KTuple (cols : list string) | KStr (col : string).

#[global] Instance key_eq_dec : EqDecision key.
Proof. solve_decision. Defined.

Inductive imputer_attr :=
| Imputers (d : dict key sk_imputer)
| OneImputer (i : sk_imputer).

#[global] Instance truthy_imputer_attr : Truthy imputer_attr := fun a =>
match a with Imputers d => truthy d | OneImputer _ => true end.

Record t := mk {
cols_to_impute : option config;
strategy : string;
imputer : option imputer_attr }.

Definition __init__ (strategy : string) (cols_to_impute : option config) : exn + t :=
match cols_to_impute with
| Some (OfDict d) => check_key_tuple_empty_intersection d
| _ => mret tt
end;;
mret (mk cols_to_impute strategy None).

Definition set_cols_to_impute (v : option config) (self : t) : t :=
mk v (strategy self) (imputer self).
Definition set_imputer (v : option imputer_attr) (self : t) : t :=
mk (cols_to_impute self) (strategy self) v.

(** [self.imputer[k] = imp] *)
Definition imputer_setitem (k : key) (imp : sk_imputer) : M t unit :=
self ← get_self;
match imputer self with
| Some (Imputers d) => set_self (set_imputer (Some (Imputers (dict_set k imp d))) self)
| _ => raise (TypeError "object does not support item assignment")
end.

(** [[col for col in self.cols_to_impute if col in X.columns]]: iterating
  a dict yields its tuple keys, none of which is a column name. *)
Definition present_cols (cfg : option config) (cols : list string) : M t (list string) :=
match cfg with
| Some (OfList l) => mret (filter (fun col => mem col cols) l)
| Some (OfDict _) => mret []
| None => raise (TypeError "'NoneType' object is not iterable")
end.

(** The strategy dispatch of [fit], after the guards. *)
Definition fit_strategy (x : loc) : M t unit :=
cols ← df_columns x;
self ← get_self;
if String.eqb (strategy self) "constant" then
  set_self (set_imputer (Some (Imputers [])) self);;
  match cols_to_impute self with
  | Some (OfDict d) =>
      for_ d (fun item =>
        let cols_to_impute := filter (fun col => mem col cols) (fst item) in
        if negb (length cols_to_impute =? 0)%nat then
          sub ← df_select x cols_to_impute;
          imp ← sk (sk_imputer_fit "constant" (Some (snd item)) sub);
          imputer_setitem (KTuple cols_to_impute) imp
        else mret tt)
  | _ => raise (AttributeError "object has no attribute 'items'")
  end
else if String.eqb (strategy self) "mean" || String.eqb (strategy self) "median"
        || String.eqb (strategy self) "most_frequent" then
  cols_to_impute ← present_cols (cols_to_impute self) cols;
  sub ← df_select x cols_to_impute;
  imp ← sk (sk_imputer_fit (strategy self) None sub);
  set_self (set_imputer (Some (OneImputer imp)) self)
else if String.eqb (strategy self) "max" then
  cols_to_impute ← present_cols (cols_to_impute self) cols;
  self ← get_self;
  set_self (set_imputer (Some (Imputers [])) self);;
  for_ cols_to_impute (fun col =>
    c ← df_getitem x col;
    fill_value ← lift (s_max c);
    sub ← df_select x [col];
    imp ← sk (sk_imputer_fit "constant" (Some fill_value) sub);
    imputer_setitem (KStr col) imp)
else
  raise (ValueError ("unknown strategy " +:+ strategy self
                     +:+ " should be constant, mean, median or most_frequent")).

Definition fit (X : pyval) : M t unit :=
x ← check_fill X;
fr ← df_read x;
if any_all_null fr
then raise (ValueError "there are columns with all missing values")
else
  self ← get_self;
  match cols_to_impute self with
  | None => set_self (set_cols_to_impute (Some (OfList (columns fr))) self)
  | Some _ => mret tt
  end;;
  fit_strategy x.

(** [list(cols)] of a key. *)
Definition py_list (k : key) : list string :=
match k with
| KTuple cols => cols
| KStr col => map (fun a => String a EmptyString) (list_ascii_of_string col)
end.

Definition transform (X : pyval) : M t loc :=
self ← get_self;
x ← check_transform X (imputer self) "ConstantImputer" true;
X_ ← df_copy x;
if String.eqb (strategy self) "constant" then
  match imputer self with
  | Some (Imputers d) =>
      for_ d (fun item =>
        let cols := py_list (fst item) in
        sub ← df_select X_ cols;
        out ← sk (sk_imputer_transform (snd item) sub);
        df_setitem_frame X_ cols out);;
      mret X_
  | _ => raise (AttributeError "object has no attribute 'items'")
  end
else if String.eqb (strategy self) "max" then
  match imputer self with
  | Some (Imputers d) =>
      for_ d (fun item =>
        match fst item with
        | KStr col =>
            sub ← df_select X_ [col];
            out ← sk (sk_imputer_transform (snd item) sub);
            match out with
            | [(_, c)] => df_setitem X_ col c
            | _ => raise (ValueError "Cannot set a DataFrame with multiple columns to a single column")
            end
        | KTuple _ => raise (KeyError "tuple")
        end);;
      mret X_
  | _ => raise (AttributeError "object has no attribute 'items'")
  end
else
  match imputer self with
  | Some (OneImputer imp) =>
      fr ← df_read X_;
      out ← sk (sk_imputer_transform imp fr);
      X_ ← df_alloc out;
      mret X_
  | _ => raise (AttributeError "object has no attribute 'transform'")
  end.
End WithSklearn.
End SimpleImputerPicker.

(** The column that [series.dt.<field>] gives for a datetime series. *)
Definition calendar_column (f : Z -> Z -> Z -> Z) (d : Series) : Series :=
  mkSeries Plain
    (map (fun v => match v with
                   | VDate y m dd => VNum (inject_Z (f y m dd))
                   | _ => VNull
                   end) (cells d)).

(** The interval [[Q1 - 1.5 IQR, Q3 + 1.5 IQR]] of the values [qs], as
    float64 arithmetic gives it from the two quartiles of pandas; there is
    none when the quartiles are NaN. *)
Definition iqr_interval `{Float64} (qs : list Q) : option (Q * Q) :=
  match series_quantile (1 # 4) qs, series_quantile (3 # 4) qs with
  | Some q1, Some q3 =>
      let iqr := f64_sub q3 q1 in
      Some (f64_sub q1 (f64_mul (3 # 2) iqr), f64_add q3 (f64_mul (3 # 2) iqr))
  | _, _ => None
  end.

(** [th] holds the least and the greatest of the values of [qs] that are
    [inside]: two NaN when no value is inside, otherwise two values of [qs]
    that are inside, with every inside value of [qs] between them. *)
Definition extremes (inside : Q -> Prop) (qs : list Q) (th : value * value) : Prop :=
  ((forall v, v ∈ qs -> ~ inside v) /\ th = (VNull, VNull)) \/
  exists a b, th = (VNum a, VNum b) /\ a ∈ qs /\ b ∈ qs /\ inside a /\ inside b /\
              forall v, v ∈ qs -> inside v -> (a <= v <= b)%Q.

(** [v] lies between the two bounds; nothing lies between NaN bounds. *)
Definition between (left_bound right_bound : bound) (v : Q) : Prop :=
  bound_le left_bound v = true /\ le_bound v right_bound = true.

(** The pair that fit stores with method "iqr" for a column with the
    numbers [qs]. *)
Definition iqr_targets `{Float64} (qs : list Q) : value * value :=
  match iqr_interval qs with
  | Some (lo, hi) => OutlierRemover.thresholds (BNum lo) (BNum hi) qs
  | None => (VNull, VNull)
  end.

(** The pair that fit stores for a column with the numbers [qs], for one of
    the four methods. *)
Definition method_targets `{Float64} (method : string) (qs : list Q) : value * value :=
  match OutlierRemover.bounds method (mkSeries Plain (map VNum qs)) with
  | inr b => OutlierRemover.thresholds (fst b) (snd b) qs
  | inl _ => (VNull, VNull)
  end.

(** The clip targets of the "skip" method: the least and the greatest
    observed value. *)
Definition skip_targets (qs : list Q) : value * value :=
  (of_opt (Qmin_list qs), of_opt (Qmax_list qs)).

(** The pair stored for column [c]. *)
Definition threshold_of (s : OutlierRemover.t) (c : string) : option (value * value) :=
  OutlierRemover.col_thresholds s ≫= dict_get c.

(* ===================================================================== *)
(** ** IEEE 754 double precision on rationals *)
(* ===================================================================== *)

Module Binary64.
(** [floor (log2 (a / d))] for positive [a] and [d]. *)
Definition ilog2 (a d : Z) : Z :=
  let e := Z.log2 a - Z.log2 d in
  if a * 2 ^ Z.max 0 (- e) <? d * 2 ^ Z.max 0 e then e - 1 else e.

(** The nearest multiple of [2 ^ u], a tie going to the even multiple. *)
Definition round_at (u : Z) (x : Q) : Q :=
  let a := Z.abs (Qnum x) in
  let n := a * 2 ^ Z.max 0 (- u) in
  let d := Zpos (Qden x) * 2 ^ Z.max 0 u in
  let q := n / d in
  let r := n mod d in
  let m := if 2 * r <? d then q
           else if d <? 2 * r then q + 1
           else if Z.even q then q else q + 1 in
  let s := Z.sgn (Qnum x) * m in
  if 0 <=? u then inject_Z (s * 2 ^ u) else Qmake s (Z.to_pos (2 ^ (- u))).

(** The float64 nearest to [x]: 53 significant bits, subnormal below
    [2 ^ -1022]; overflow is not modelled. *)
Definition round (x : Q) : Q :=
  if Qnum x =? 0 then 0%Q
  else round_at (Z.max (ilog2 (Z.abs (Qnum x)) (Zpos (Qden x)) - 52) (-1074)) x.

Definition add (x y : Q) : Q := round (x + y).
Definition sub (x y : Q) : Q := round (x - y).
Definition mul (x y : Q) : Q := round (x * y).
Definition div (x y : Q) : Q := round (x / y).

(** The float64 nearest to the square root of [x]: the integer root of
    [x] scaled to more than 53 bits, with a last bit that says whether the
    root is inexact, then rounded. *)
Definition sqrt (x : Q) : Q :=
  if Qnum x <=? 0 then 0%Q
  else
    let e := ilog2 (Qnum x) (Zpos (Qden x)) in
    let k := Z.max 0 (60 - e / 2) in
    let n := Qnum x * 4 ^ k in
    let t := n / Zpos (Qden x) in
    let r := Z.sqrt t in
    let exact := (r * r =? t) && (n mod Zpos (Qden x) =? 0) in
    round (Qmake (2 * r + (if exact then 0 else 1)) (Z.to_pos (2 ^ (k + 1)))).
End Binary64.

(* ===================================================================== *)
(** ** Instances of the interfaces for examples *)
(* ===================================================================== *)

Module Reference.
(** [np.percentile] with linear interpolation, as [series.quantile] calls
    it: the virtual index [(n - 1) * p], its floor and fraction [g], and
    the interpolation between the two neighbours [a] and [b], taken from
    [b] when [g] is at least one half. *)
Definition quantile (p : Q) (qs : list Q) : option Q :=
  match sort qs with
  | [] => None
  | (v0 :: _) as v =>
      let n := Z.of_nat (length v) in
      let index := Binary64.mul (inject_Z (n - 1)) (Binary64.round p) in
      let lo := Qfloor index in
      let g := Binary64.sub index (inject_Z lo) in
      let a := nth (Z.to_nat lo) v v0 in
      let b := nth (Z.to_nat (Z.min (lo + 1) (n - 1))) v a in
      let diff := Binary64.sub b a in
      Some (if Qle_bool (1 # 2) g
            then Binary64.sub b (Binary64.mul diff (Binary64.sub 1 g))
            else Binary64.add a (Binary64.mul diff g))
  end.

(** The sum taken from left to right. *)
Definition sum (qs : list Q) : Q := foldl Binary64.add 0%Q qs.

Definition mean (qs : list Q) : option Q :=
  match qs with
  | [] => None
  | _ => Some (Binary64.div (sum qs) (inject_Z (Z.of_nat (length qs))))
  end.

(** The sample standard deviation (ddof = 1) by the two passes of pandas. *)
Definition std (qs : list Q) : option Q :=
  match mean qs with
  | Some avg =>
      if (length qs <=? 1)%nat then None
      else
        let sqr := map (fun x => let d := Binary64.sub avg x in Binary64.mul d d) qs in
        Some (Binary64.sqrt
                (Binary64.div (sum sqr) (inject_Z (Z.of_nat (length qs) - 1))))
  | None => None
  end.

Definition float64 : Float64 := {|
  f64_add := Binary64.add;
  f64_sub := Binary64.sub;
  f64_mul := Binary64.mul;
  series_quantile := quantile;
  series_mean := mean;
  series_std := std |}.

(** MinMaxScaler learns the minimum and the range of every column. *)
Definition minmax_fit (fr : table) : exn + list (string * (Q * Q)) :=
  mapE (fun p =>
          qs ← numbers (cells (snd p));
          match Qmin_list qs, Qmax_list qs with
          | Some lo, Some hi => mret (fst p, (lo, if Qeq_bool lo hi then 1%Q else (hi - lo)%Q))
          | _, _ => inl (ValueError "Found array with 0 sample(s)")
          end) fr.

Definition rescale (lo range : Q) (v : value) : value :=
  match v with
  | VNum x => VNum ((x - lo) / range)
  | _ => v
  end.

Definition minmax_transform (sc : list (string * (Q * Q))) (fr : table) : string + table :=
  if bool_decide (map fst sc = columns fr)
  then inr (zip_with (fun p c =>
              (fst c, mkSeries (dtype_of (snd c))
                               (map (rescale (fst (snd p)) (snd (snd p))) (cells (snd c)))))
              sc fr)
  else inl "The feature names should match those that were passed during fit".

Definition message (e : exn) : string :=
  match e with
  | ValueError m | NotFittedError m | KeyError m | TypeError m
  | AttributeError m | SklearnError m | ReferenceError m => m
  end.

Definition scaler_fit (cls : scaler_class) (fr : table) : string + list (string * (Q * Q)) :=
  match cls with
  | MinMaxScaler =>
      match minmax_fit fr with inl e => inl (message e) | inr sc => inr sc end
  | _ => inl "estimator not available in this instance"
  end.

(** SimpleImputer learns one fill value per column. *)
Definition imputer_fit (strategy : string) (fill_value : option value) (fr : table)
    : string + list (string * value) :=
  if String.eqb strategy "constant"
  then inr (map (fun p => (fst p, default (VNum 0) fill_value)) fr)
  else if String.eqb strategy "mean"
  then match mapE (fun p => qs ← numbers (cells (snd p));
                            mret (fst p, of_opt (mean_of qs))) fr with
       | inl e => inl (message e)
       | inr st => inr st
       end
  else inl "strategy not available in this instance".

Definition imputer_transform (st : list (string * value)) (fr : table) : string + table :=
  if bool_decide (map fst st = columns fr)
  then inr (zip_with (fun p c =>
              (fst c, mkSeries (dtype_of (snd c))
                               (map (fun v => if is_null v then snd p else v) (cells (snd c)))))
              st fr)
  else inl "The feature names should match those that were passed during fit".

#[global] Instance sklearn : Sklearn := {|
  sk_scaler := list (string * (Q * Q));
  sk_scaler_fit := scaler_fit;
  sk_scaler_transform := minmax_transform;
  sk_imputer := list (string * value);
  sk_imputer_fit := imputer_fit;
  sk_imputer_transform := imputer_transform |}.
End Reference.

(* ===================================================================== *)
(** ** Running a method; example data *)
(* ===================================================================== *)

Definition run {S A} (m : M S A) (s : S) (h : heap) : (exn + A) * S * heap := m s h.

(** The outcome, the instance afterwards, the heap afterwards. *)
Definition outcome {S A} (r : (exn + A) * S * heap) : exn + A := fst (fst r).
Definition self_after {S A} (r : (exn + A) * S * heap) : S := snd (fst r).
Definition heap_after {S A} (r : (exn + A) * S * heap) : heap := snd r.

(** [outcome] is the Not-Fitted error. *)
Definition not_fitted {A} (r : exn + A) : Prop :=
  exists msg, r = inl (NotFittedError msg).

(** A frame of plain columns, and a column of integers. *)
Definition frame (l : list (string * list value)) : table :=
  map (fun p => (fst p, mkSeries Plain (snd p))) l.
Definition ints (l : list Z) : list value := map (fun z => VNum (inject_Z z)) l.

(** A column of float64 numbers written as decimals. *)
Definition decimals (l : list Q) : list value := map (fun q => VNum (Binary64.round q)) l.

(** [range(a, b)] *)
Definition range (a b : Z) : list Z :=
  map (fun i => a + Z.of_nat i) (seq 0 (Z.to_nat (b - a))).

(* ===================================================================== *)
(** ** A frame rule for methods *)
(* ===================================================================== *)

(** Exceptions that pandas, sklearn and the interpreter raise on their own,
    as opposed to the two kinds the library raises itself. *)
Definition ordinary (e : exn) : Prop :=
  match e with
  | ValueError _ | NotFittedError _ => False
  | _ => True
  end.

(** [frames n m P E]: run on a heap with at least [n] objects, [m] leaves
    the first [n] as they are; a result satisfies [P], an exception [E]. *)
Definition frames {S A} (n : nat) (m : M S A) (P : A -> Prop) (E : exn -> Prop) : Prop :=
  forall s h, (n <= length h)%nat ->
    match m s h with
    | (r, _, h') =>
        take n h' = take n h /\ (n <= length h')%nat /\
        match r with inr a => P a | inl e => E e end
    end.

(** After the run [r], the object at [x] is still [T], and a frame that is
    returned is another object. *)
Definition input_kept {S} (x : loc) (T : table) (r : (exn + loc) * S * heap) : Prop :=
  heap_after r !! x = Some T /\ forall l, outcome r = inr l -> l <> x.

(** Any exception but the Not-Fitted one. *)
Definition benign (e : exn) : Prop :=
  match e with NotFittedError _ => False | _ => True end.

(** A computation that changes neither the instance nor the heap. *)
Definition readonly {S A} (m : M S A) : Prop :=
  forall s h, exists r, m s h = (r, s, h).

(** The validation error of [SimpleImputerPicker.fit]. *)
Definition all_missing : exn := ValueError "there are columns with all missing values".

(** What every check of the input type raises. *)
Definition not_a_frame : exn := ValueError "X is not pandas DataFrame".

(** [m] raises [e] and changes neither the instance nor the heap. *)
Definition rejects {S A} (m : M S A) (e : exn) : Prop :=
  forall s h, run m s h = (inl e, s, h).

(** [m] keeps the property [I] of the heap. *)
Definition keeps {S A} (I : heap -> Prop) (m : M S A) : Prop :=
  forall s h, I h -> I (heap_after (run m s h)).

(** NoInfoFeatureRemover's test on the column named [c] of [T]. *)
Definition no_info (cols_to_except : list string) (T : table) (c : string) : bool :=
  match lookup_col c T with
  | Some col => (nunique col <=? 1) && negb (mem c cols_to_except)
  | None => false
  end.

(** The order FeaturesOrder learns from the requested names and the
    columns of the frame. *)
Definition final_order (requested cols : list string) : list string :=
  let present := filter (fun col => mem col cols) requested in
  present ++ filter (fun col => negb (mem col present)) cols.


(* ===================================================================== *)
(** ** ts/ts_utils.py *)
(* ===================================================================== *)

Module TsUtils.
(** A [datetime.date]. *)
Record date := mkdate { year : Z; month : Z; day : Z }.

(** What the date arithmetic raises: ValueError from [replace], OverflowError
    from adding a [timedelta]. *)
Inductive error := Value_Error (msg : string) | Overflow_Error (msg : string).

(** The dates there are: the year from 1 to 9999, a day of the month. *)
Definition valid (d : date) : bool :=
  (1 <=? year d) && (year d <=? 9999) && (1 <=? month d) && (month d <=? 12)
  && (1 <=? day d) && (day d <=? Calendar.days_in_month (year d) (month d)).

(** [date.weekday()]: Monday is 0. *)
Definition weekday (d : date) : Z := Calendar.dayofweek (year d) (month d) (day d).

(** [date.toordinal()]: 0001-01-01 is day 1. *)
Definition toordinal (d : date) : Z :=
  Calendar.days_from_civil (year d) (month d) (day d) + 719163.

(** [date + relativedelta(years=1)]: the same month and day of the next
    year, the day cut to the length of the month. *)
Definition add_one_year (d : date) : error + date :=
  let y := year d + 1 in
  if 9999 <? y then inl (Value_Error "year 10000 is out of range")
  else inr (mkdate y (month d) (Z.min (day d) (Calendar.days_in_month y (month d)))).

(** [date + timedelta(days=1)] *)
Definition tomorrow (d : date) : error + date :=
  if day d <? Calendar.days_in_month (year d) (month d)
  then inr (mkdate (year d) (month d) (day d + 1))
  else if month d <? 12 then inr (mkdate (year d) (month d + 1) 1)
  else if year d <? 9999 then inr (mkdate (year d + 1) 1 1)
  else inl (Overflow_Error "date value out of range").

(** [date + timedelta(days=k)] for a [k] from 0 on. *)
Fixpoint add_days (k : nat) (d : date) : error + date :=
  match k with
  | O => inr d
  | S k' => match tomorrow d with inl e => inl e | inr d' => add_days k' d' end
  end.

Definition get_closest_same_day_of_week (d : date) : error + date :=
  match add_one_year d with
  | inl e => inl e
  | inr shifted_date =>
      let days_difference := (weekday d - weekday shifted_date) mod 7 in
      add_days (Z.to_nat days_difference) shifted_date
  end.
End TsUtils.

(** One for a leap year. *)
Definition leap_day (y : Z) : Z := if Calendar.is_leap y then 1 else 0.

(** The class [ScalerPicker._get_scaler_class] returns for a scaler type
    that names an estimator. *)
Definition scaler_class_of (scaler_type : string) : option scaler_class :=
  if String.eqb scaler_type "standard" then Some StandardScaler
  else if String.eqb scaler_type "minmax" then Some MinMaxScaler
  else if String.eqb scaler_type "robust" then Some RobustScaler
  else if String.eqb scaler_type "power" then Some PowerTransformer
  else None.

(** The names [SimpleImputerPicker.transform] assigns to with strategy
    "constant" or "max": those in the keys of the dict of imputers. *)
Definition imputed_columns `{Sklearn} (self : SimpleImputerPicker.t) : list string :=
  match SimpleImputerPicker.imputer self with
  | Some (SimpleImputerPicker.Imputers d) =>
      if String.eqb (SimpleImputerPicker.strategy self) "constant"
      then concat (map (fun item => SimpleImputerPicker.py_list (fst item)) d)
      else omap (fun item => match fst item with
                             | SimpleImputerPicker.KStr col => Some col
                             | SimpleImputerPicker.KTuple _ => None
                             end) d
  | _ => []
  end.

(** The heap differs from [h0] at most in the frame [X_], which has the
    columns of [T0] and agrees with it outside [touched]. *)
Definition agrees (X_ : loc) (h0 : heap) (T0 : table) (touched : list string)
    (h : heap) : Prop :=
  exists T', h = <[X_ := T']> h0 /\ columns T' = columns T0 /\
             forall c, c ∉ touched -> lookup_col c T' = lookup_col c T0.

(** [X[col].max()] for a column of numbers and nulls with a number. *)
Definition column_max (T : table) (col : string) : option Q :=
  match lookup_col col T with
  | Some c => match numbers (cells c) with inr qs => Qmax_list qs | inl _ => None end
  | None => None
  end.

(** [item] is what fit with strategy "max" stores for the column [col]:
    under the name of the column, the constant imputer with the maximum of
    the column as fill value, fitted on [X[[col]]]. *)
Definition learned_max `{Sklearn} (T : table) (col : string)
    (item : SimpleImputerPicker.key * sk_imputer) : Prop :=
  fst item = SimpleImputerPicker.KStr col /\
  exists m, column_max T col = Some m /\
            sk_imputer_fit "constant" (Some (VNum m)) (select_cols [col] T) = inr (snd item).

(** The stored estimator of a column, given that column of [T'], returns
    the one column [o]. *)
Definition imputed_column `{Sklearn} (T' : table)
    (item : SimpleImputerPicker.key * sk_imputer) (o : string * Series) : Prop :=
  match fst item with
  | SimpleImputerPicker.KStr col =>
      sk_imputer_transform (snd item) (select_cols [col] T') = inr [o]
  | SimpleImputerPicker.KTuple _ => False
  end.

(** The stored estimator of a tuple of columns, given these columns of
    [T'], returns the frame [out] with as many columns. *)
Definition imputed_frame `{Sklearn} (T' : table)
    (item : SimpleImputerPicker.key * sk_imputer) (out : table) : Prop :=
  sk_imputer_transform (snd item) (select_cols (SimpleImputerPicker.py_list (fst item)) T')
    = inr out /\
  length out = length (SimpleImputerPicker.py_list (fst item)).

(** The tuples of present columns, with their fill values, for which fit
    with strategy "constant" fits an estimator. *)
Definition constant_work (T : table) (d : dict (list string) value)
    : list (list string * value) :=
  filter (fun w => negb (length (fst w) =? 0)%nat)
         (map (fun item => (filter (fun col => mem col (columns T)) (fst item), snd item)) d).

(** [item] is what fit with strategy "constant" stores for [w]. *)
Definition learned_constant `{Sklearn} (T : table) (w : list string * value)
    (item : SimpleImputerPicker.key * sk_imputer) : Prop :=
  fst item = SimpleImputerPicker.KTuple (fst w) /\
  sk_imputer_fit "constant" (Some (snd w)) (select_cols (fst w) T) = inr (snd item).

(** The five calendar columns CalendarExtractor can append, in order. *)
Definition calendar_columns (d : Series) : list (string * Series) :=
  [("year", calendar_column (fun y _ _ => y) d);
   ("month", calendar_column (fun _ m _ => m) d);
   ("day", calendar_column (fun _ _ dd => dd) d);
   ("dayofweek", calendar_column Calendar.dayofweek d);
   ("dayofyear", calendar_column Calendar.dayofyear d)].

(** How many of the six fields the slice [what_to_generate[:k]] keeps. *)
Definition fields_kept (k : Z) : nat :=
  if 0 <=? k then Z.to_nat k else Z.to_nat (6 + k).

Section Frames.
Context {S : Type} (n : nat) (E : exn -> Prop).
Hypothesis HE : forall e, ordinary e -> E e.

Lemma frames_ret {A} (a : A) (P : A -> Prop) : P a -> frames (S:=S) n (mret a) P E.
Proof. intros Ha s h Hn. cbn. auto. Qed.

Lemma frames_raise {A} (e : exn) (P : A -> Prop) : E e -> frames (S:=S) n (raise e) P E.
Proof. intros He s h Hn. cbn. auto. Qed.

Lemma frames_bind {A B} (m : M S A) (f : A -> M S B) (P : A -> Prop) (Q : B -> Prop) :
  frames n m P E -> (forall a, P a -> frames n (f a) Q E) -> frames n (m ≫= f) Q E.
Proof.
  intros Hm Hf s h Hn. specialize (Hm s h Hn).
  unfold mbind, M_bind. destruct (m s h) as [[[e|a] s'] h'].
  - exact Hm.
  - destruct Hm as (Ht & Hl & Ha). specialize (Hf a Ha s' h' Hl).
    destruct (f a s' h') as [[r s''] h'']. rewrite <- Ht. tauto.
Qed.

Lemma frames_conseq {A} (m : M S A) (P Q : A -> Prop) :
  frames n m P E -> (forall a, P a -> Q a) -> frames n m Q E.
Proof.
  intros Hm HPQ s h Hn. specialize (Hm s h Hn).
  destruct (m s h) as [[[e|a] s'] h']; [exact Hm|].
  destruct Hm as (Ht & Hl & Ha). auto.
Qed.

Lemma frames_lift {A} (r : exn + A) :
  (forall e, r = inl e -> E e) -> frames (S:=S) n (lift r) (fun _ => True) E.
Proof. intros He s h Hn. cbn. destruct r; auto. Qed.

Lemma frames_sk {A} (r : string + A) : frames (S:=S) n (sk r) (fun _ => True) E.
Proof. intros s h Hn. destruct r; cbn; auto. split; [done|]. split; [done|]. by apply HE. Qed.

Lemma frames_get_self : frames (S:=S) n get_self (fun _ => True) E.
Proof. intros s h Hn. cbn. auto. Qed.

Lemma frames_set_self (s' : S) : frames n (set_self s') (fun _ => True) E.
Proof. intros s h Hn. cbn. auto. Qed.

Lemma frames_for {A} (l : list A) (body : A -> M S unit) :
  (forall a, frames n (body a) (fun _ => True) E) ->
  frames n (for_ l body) (fun _ => True) E.
Proof.
  intros Hb. induction l as [|a l IH]; cbn [for_].
  - by apply frames_ret.
  - eapply frames_bind; [apply Hb|]. intros _ _. exact IH.
Qed.

Lemma frames_for_acc {A B} (l : list A) (acc : B) (body : B -> A -> M S B) :
  (forall b a, frames n (body b a) (fun _ => True) E) ->
  frames n (for_acc l acc body) (fun _ => True) E.
Proof.
  intros Hb. revert acc. induction l as [|a l IH]; intros acc; cbn [for_acc].
  - by apply frames_ret.
  - eapply frames_bind; [apply Hb|]. intros b _. apply IH.
Qed.

Lemma frames_df_read (x : loc) : frames (S:=S) n (df_read x) (fun _ => True) E.
Proof.
  intros s h Hn. unfold df_read. destruct (h !! x); cbn; auto.
  split; [done|]. split; [done|]. by apply HE.
Qed.

Lemma frames_df_write (x : loc) (t : table) :
  (n <= x)%nat -> frames (S:=S) n (df_write x t) (fun _ => True) E.
Proof.
  intros Hx s h Hn. unfold df_write.
  rewrite take_insert_ge by done. rewrite length_insert. auto.
Qed.

Lemma frames_df_alloc (t : table) :
  frames (S:=S) n (df_alloc t) (fun l => (n <= l)%nat) E.
Proof.
  intros s h Hn. unfold df_alloc.
  rewrite take_app_le by done. rewrite length_app. split; [done|]. split; [lia|done].
Qed.

Lemma frames_df_copy (x : loc) : frames (S:=S) n (df_copy x) (fun l => (n <= l)%nat) E.
Proof.
  unfold df_copy. eapply frames_bind; [apply frames_df_read|].
  intros t _. apply frames_df_alloc.
Qed.

Lemma frames_df_columns (x : loc) : frames (S:=S) n (df_columns x) (fun _ => True) E.
Proof.
  unfold df_columns. eapply frames_bind; [apply frames_df_read|].
  intros t _. by apply frames_ret.
Qed.

Lemma frames_df_getitem (x : loc) (c : string) :
  frames (S:=S) n (df_getitem x c) (fun _ => True) E.
Proof.
  unfold df_getitem. eapply frames_bind; [apply frames_df_read|].
  intros t _. destruct (lookup_col c t).
  - by apply frames_ret.
  - apply frames_raise. by apply HE.
Qed.

Lemma frames_df_setitem (x : loc) (c : string) (s : Series) :
  (n <= x)%nat -> frames (S:=S) n (df_setitem x c s) (fun _ => True) E.
Proof.
  intros Hx. unfold df_setitem. eapply frames_bind; [apply frames_df_read|].
  intros t _. by apply frames_df_write.
Qed.

Lemma frames_df_select (x : loc) (cs : list string) :
  frames (S:=S) n (df_select x cs) (fun _ => True) E.
Proof.
  unfold df_select. eapply frames_bind; [apply frames_df_read|].
  intros t _. destruct (missing_col cs t).
  - apply frames_raise. by apply HE.
  - by apply frames_ret.
Qed.

Lemma frames_df_setitem_frame (x : loc) (cs : list string) (fr : table) :
  (n <= x)%nat -> E (ValueError "Columns must be same length as key") ->
  frames (S:=S) n (df_setitem_frame x cs fr) (fun _ => True) E.
Proof.
  intros Hx HV. unfold df_setitem_frame. destruct (negb _).
  - by apply frames_raise.
  - apply frames_for. intros p. destruct (repeated _ _).
    + by apply frames_raise.
    + by apply frames_df_setitem.
Qed.

Lemma frames_df_drop (x : loc) (cs : list string) :
  frames (S:=S) n (df_drop x cs) (fun l => (n <= l)%nat) E.
Proof.
  unfold df_drop. eapply frames_bind; [apply frames_df_read|].
  intros t _. destruct (missing_col cs t).
  - apply frames_raise. by apply HE.
  - apply frames_df_alloc.
Qed.

Lemma frames_df_drop_inplace (x : loc) (c : string) :
  (n <= x)%nat -> frames (S:=S) n (df_drop_inplace x c) (fun _ => True) E.
Proof.
  intros Hx. unfold df_drop_inplace. eapply frames_bind; [apply frames_df_read|].
  intros t _. destruct (missing_col [c] t).
  - apply frames_raise. by apply HE.
  - by apply frames_df_write.
Qed.

Lemma frames_pd_concat (x : loc) (series : list (string * Series)) :
  frames (S:=S) n (pd_concat x series) (fun l => (n <= l)%nat) E.
Proof.
  unfold pd_concat. eapply frames_bind; [apply frames_df_read|].
  intros t _. apply frames_df_alloc.
Qed.

Lemma frames_check_fill (X : pyval) :
  E (ValueError "X is not pandas DataFrame") ->
  frames (S:=S) n (check_fill X) (fun _ => True) E.
Proof.
  intros HV. destruct X; cbn [check_fill];
    [by apply frames_ret | by apply frames_raise ..].
Qed.

Lemma frames_check_transform {A} `{Truthy A} (X : pyval) (item : A)
    (name : string) (is_check_fill : bool) :
  E (ValueError "X is not pandas DataFrame") ->
  (is_check_fill = true -> forall msg, E (NotFittedError msg)) ->
  frames (S:=S) n (check_transform X item name is_check_fill) (fun _ => True) E.
Proof.
  intros HV HN. unfold check_transform.
  eapply frames_bind; [by apply frames_check_fill|]. intros x _.
  destruct is_check_fill; cbn [andb].
  - destruct (negb _); [apply frames_raise; by apply HN | by apply frames_ret].
  - by apply frames_ret.
Qed.
End Frames.

#[local] Hint Extern 1 (ordinary _) => exact I : core.

Ltac frames_op :=
  first
    [ apply frames_get_self | apply frames_set_self | apply frames_sk
    | apply frames_df_copy | apply frames_df_columns | apply frames_df_getitem
    | apply frames_df_select | apply frames_df_read | apply frames_df_alloc
    | apply frames_df_drop | apply frames_pd_concat
    | apply frames_df_setitem | apply frames_df_write
    | apply frames_df_drop_inplace | apply frames_df_setitem_frame
    | apply frames_check_fill | apply frames_check_transform
    | apply frames_lift ];
  auto.

Ltac frames_go :=
  repeat match goal with
    | |- frames _ (mret _) _ _ => apply frames_ret; auto
    | |- frames _ (raise _) _ _ => apply frames_raise; auto
    | |- frames _ (_ ≫= _) _ _ => eapply frames_bind; [ frames_go | intros ]
    | |- frames _ (for_ _ _) _ _ => apply frames_for; auto; intros
    | |- frames _ (for_acc _ _ _) _ _ => apply frames_for_acc; auto; intros
    | |- frames _ (match ?x with _ => _ end) _ _ => destruct x
    | |- frames _ _ _ _ => solve [frames_op]
    end.

(** What [to_datetime] and the [.dt] accessor raise. *)
Lemma mapE_raises {A B} (f : A -> exn + B) (P : exn -> Prop) (l : list A) e :
  (forall a e, f a = inl e -> P e) -> mapE f l = inl e -> P e.
Proof.
  intros Hf. induction l as [|a l IH]; cbn; [done|].
  destruct (f a) as [e'|b] eqn:Ha.
  - intros [= <-]. eauto.
  - destruct (mapE f l); [|done]. intros [= <-]. auto.
Qed.

Section TransformFrames.
Context (n : nat) (E : exn -> Prop).
Hypothesis HE : forall e, ordinary e -> E e.
Hypothesis HV : forall msg, E (ValueError msg).

Lemma to_datetime_raises s e : to_datetime s = inl e -> E e.
Proof.
  unfold to_datetime.
  destruct (mapE _ (cells s)) as [e'|cs] eqn:Hm; [|done].
  intros [= <-]. revert Hm. apply mapE_raises.
  intros [| |str|] e0; try done.
  - intros [= <-]. by apply HE.
  - destruct (Calendar.parse_date str); [done|]. intros [= <-]. apply HV.
Qed.

Lemma dt_field_raises f s e : dt_field f s = inl e -> E e.
Proof.
  unfold dt_field.
  destruct (mapE _ (cells s)) as [e'|cs] eqn:Hm; [|done].
  intros [= <-]. revert Hm. apply mapE_raises.
  intros [| | |] e0; try done; intros [= <-]; by apply HE.
Qed.

Lemma CalendarExtractor_generate_frames X_ date_col cols_to_add what :
  frames n (CalendarExtractor.generate X_ date_col cols_to_add what) (fun _ => True) E.
Proof.
  unfold CalendarExtractor.generate.
  frames_go; apply frames_lift; eauto using dt_field_raises.
Qed.

Lemma CalendarExtractor_transform_frames X :
  frames n (CalendarExtractor.transform X) (fun l => (n <= l)%nat) E.
Proof.
  unfold CalendarExtractor.transform.
  eapply frames_bind; [frames_op; done|]. intros x _.
  eapply frames_bind; [frames_op|]. intros self _.
  eapply frames_bind; [by apply frames_df_copy|]. intros X_ HX.
  eapply frames_bind; [frames_op|]. intros d _.
  eapply frames_bind; [apply frames_lift; eauto using to_datetime_raises|]. intros d' _.
  eapply frames_bind; [frames_op|]. intros _ _.
  eapply frames_bind.
  { apply frames_for_acc. intros. apply CalendarExtractor_generate_frames. }
  intros cols _.
  eapply frames_bind; [frames_op|]. intros _ _.
  eapply frames_bind; [by apply frames_pd_concat|]. intros X_' HX'.
  by apply frames_ret.
Qed.

Lemma CatCaster_transform_frames X :
  frames n (CatCaster.transform X) (fun l => (n <= l)%nat) E.
Proof.
  unfold CatCaster.transform.
  eapply frames_bind; [frames_op; done|]. intros x _.
  eapply frames_bind; [by apply frames_df_copy|]. intros X_ HX.
  frames_go.
Qed.

Hypothesis HN : forall msg, E (NotFittedError msg).

Lemma NoInfoFeatureRemover_transform_frames X :
  frames n (NoInfoFeatureRemover.transform X) (fun l => (n <= l)%nat) E.
Proof.
  unfold NoInfoFeatureRemover.transform.
  eapply frames_bind; [frames_op|]. intros self _.
  eapply frames_bind; [frames_op|]. intros x _.
  destruct (NoInfoFeatureRemover.cols_to_remove self); [|apply frames_raise; auto].
  eapply frames_bind; [by apply frames_df_drop|]. intros X_ HX.
  by apply frames_ret.
Qed.

Lemma s_clip_raises th c e : s_clip th c = inl e -> E e.
Proof.
  unfold s_clip. destruct (mapE _ (cells c)) as [e'|cs] eqn:Hm; [|done].
  intros [= <-]. revert Hm. apply mapE_raises.
  intros v e0. unfold clip_value.
  destruct v; try done; try (intros [= <-]; by apply HE);
    repeat case_match; try done.
Qed.

Lemma OutlierRemover_transform_frames X :
  frames n (OutlierRemover.transform X) (fun l => (n <= l)%nat) E.
Proof.
  unfold OutlierRemover.transform.
  eapply frames_bind; [frames_op|]. intros self _.
  eapply frames_bind; [frames_op|]. intros x _.
  eapply frames_bind; [by apply frames_df_copy|]. intros X_ HX.
  frames_go; apply frames_lift; eauto using s_clip_raises.
Qed.

Lemma WithAnotherColumnImputer_transform_frames X :
  frames n (WithAnotherColumnImputer.transform X) (fun l => (n <= l)%nat) E.
Proof.
  unfold WithAnotherColumnImputer.transform.
  eapply frames_bind; [frames_op|]. intros self _.
  eapply frames_bind; [frames_op|]. intros x _.
  eapply frames_bind; [by apply frames_df_copy|]. intros X_ HX.
  frames_go.
Qed.

Lemma FeaturesOrder_transform_frames X :
  frames n (FeaturesOrder.transform X) (fun l => (n <= l)%nat) E.
Proof.
  unfold FeaturesOrder.transform.
  eapply frames_bind; [frames_op|]. intros self _.
  eapply frames_bind; [frames_op|]. intros x _.
  destruct (FeaturesOrder.features_order_ self); [|apply frames_raise; auto].
  eapply frames_bind; [frames_op|]. intros fr _.
  eapply frames_bind; [by apply frames_df_alloc|]. intros X_ HX.
  by apply frames_ret.
Qed.

Context `{Sklearn}.

Lemma ScalerPicker_transform_frames X :
  frames n (ScalerPicker.transform X) (fun l => (n <= l)%nat) E.
Proof.
  unfold ScalerPicker.transform.
  eapply frames_bind; [frames_op|]. intros self _.
  eapply frames_bind; [frames_op|]. intros x _.
  eapply frames_bind; [by apply frames_df_copy|]. intros X_ HX.
  destruct (ScalerPicker.scaler self) as [[|s]|]; frames_go.
Qed.

Lemma SimpleImputerPicker_transform_frames X :
  frames n (SimpleImputerPicker.transform X) (fun l => (n <= l)%nat) E.
Proof.
  unfold SimpleImputerPicker.transform.
  eapply frames_bind; [frames_op|]. intros self _.
  eapply frames_bind; [frames_op|]. intros x _.
  eapply frames_bind; [by apply frames_df_copy|]. intros X_ HX.
  destruct (String.eqb _ "constant").
  { destruct (SimpleImputerPicker.imputer self) as [[d|i]|]; frames_go. }
  destruct (String.eqb _ "max").
  { destruct (SimpleImputerPicker.imputer self) as [[d|i]|]; frames_go. }
  destruct (SimpleImputerPicker.imputer self) as [[d|i]|]; try (apply frames_raise; auto; fail).
  eapply frames_bind; [frames_op|]. intros fr _.
  eapply frames_bind; [frames_op|]. intros out _.
  eapply frames_bind; [by apply frames_df_alloc|]. intros X_' HX'.
  by apply frames_ret.
Qed.
End TransformFrames.

(* ===================================================================== *)
(** ** transform and its input *)
(* ===================================================================== *)

Lemma frames_input_kept {S} (m : M S loc) (self : S) (h : heap) (x : loc) (T : table) :
  frames (length h) m (fun l => (length h <= l)%nat) (fun _ => True) ->
  h !! x = Some T -> input_kept x T (run m self h).
Proof.
  intros Hm Hx. specialize (Hm self h (le_n _)).
  unfold input_kept, run, heap_after, outcome.
  destruct (m self h) as [[r s'] h']. cbn [fst snd].
  destruct Hm as (Ht & Hl & Hr).
  apply lookup_lt_Some in Hx as Hlt. split.
  - rewrite <- (lookup_take_lt h' (length h)) by done.
    rewrite Ht, firstn_all. done.
  - intros l ->. lia.
Qed.

(** C8. transform does not mutate its input: for every component, every
    instance (fitted or not) and every frame [T] passed as input, once
    transform has returned or raised the input object still holds [T]
    (same columns, same order, same cells), and a returned frame is a
    different object. *)
Theorem transform_does_not_mutate_input `{Sklearn} (h : heap) (x : loc) (T : table) :
  h !! x = Some T ->
  (forall self, input_kept x T (run (CalendarExtractor.transform (PyDataFrame x)) self h)) /\
  (forall self, input_kept x T (run (NoInfoFeatureRemover.transform (PyDataFrame x)) self h)) /\
  (forall self, input_kept x T (run (OutlierRemover.transform (PyDataFrame x)) self h)) /\
  (forall self, input_kept x T (run (WithAnotherColumnImputer.transform (PyDataFrame x)) self h)) /\
  (forall self, input_kept x T (run (CatCaster.transform (PyDataFrame x)) self h)) /\
  (forall self, input_kept x T (run (FeaturesOrder.transform (PyDataFrame x)) self h)) /\
  (forall self, input_kept x T (run (ScalerPicker.transform (PyDataFrame x)) self h)) /\
  (forall self, input_kept x T (run (SimpleImputerPicker.transform (PyDataFrame x)) self h)).
Proof.
  intros Hx.
  split_and!; intros self; (apply frames_input_kept; [|exact Hx]).
  - by apply CalendarExtractor_transform_frames.
  - by apply NoInfoFeatureRemover_transform_frames.
  - by apply OutlierRemover_transform_frames.
  - by apply WithAnotherColumnImputer_transform_frames.
  - by apply CatCaster_transform_frames.
  - by apply FeaturesOrder_transform_frames.
  - by apply ScalerPicker_transform_frames.
  - by apply SimpleImputerPicker_transform_frames.
Qed.

Lemma transform_does_not_mutate_input_witness :
  let T := frame [("col_1", ints [1; 2; 3]); ("col_2", [VNum 5; VNull; VNull])] in
  [T] !! 0%nat = Some T /\
  input_kept 0 T
    (run (WithAnotherColumnImputer.transform (PyDataFrame 0))
         (WithAnotherColumnImputer.mk [("col_2", "col_1")]) [T]).
Proof.
  split; [reflexivity|].
  apply (@transform_does_not_mutate_input Reference.sklearn
           [frame [("col_1", ints [1; 2; 3]); ("col_2", [VNum 5; VNull; VNull])]] 0%nat).
  reflexivity.
Defined.

(* ===================================================================== *)
(** ** transform before fit *)
(* ===================================================================== *)

Lemma frames_never_not_fitted {S} (m : M S loc) (P : loc -> Prop) (s : S) (h : heap) :
  frames 0 m P benign -> ~ not_fitted (outcome (run m s h)).
Proof.
  intros Hm [msg Hr]. specialize (Hm s h (Nat.le_0_l _)).
  unfold run, outcome in Hr. destruct (m s h) as [[r s'] h']. cbn in Hr. subst r.
  destruct Hm as (_ & _ & []).
Qed.

Lemma ordinary_benign e : ordinary e -> benign e.
Proof. by destruct e. Qed.

Lemma SimpleImputerPicker_init_inr `{Sklearn} strategy cfg self :
  SimpleImputerPicker.__init__ strategy cfg = inr self ->
  self = SimpleImputerPicker.mk cfg strategy None.
Proof.
  unfold SimpleImputerPicker.__init__. cbn.
  destruct cfg as [[d|l]|]; cbn; try by intros [= <-].
  destruct (check_key_tuple_empty_intersection d); cbn; [done|by intros [= <-]].
Qed.

(** C1 (as amended). For NoInfoFeatureRemover, OutlierRemover, FeaturesOrder,
    ScalerPicker and SimpleImputerPicker, transform of any frame on an
    instance that has only been constructed raises the Not-Fitted error.
    CatCaster and CalendarExtractor call the check with the fitted test
    switched off and never raise the Not-Fitted error, on any instance and
    any input. *)
Theorem transform_before_fit `{Sklearn} (x : loc) (h : heap) :
  (forall cols_to_except verbose,
     not_fitted (outcome (run (NoInfoFeatureRemover.transform (PyDataFrame x))
                              (NoInfoFeatureRemover.__init__ cols_to_except verbose) h))) /\
  (forall cols method self,
     OutlierRemover.__init__ cols method = inr self ->
     not_fitted (outcome (run (OutlierRemover.transform (PyDataFrame x)) self h))) /\
  (forall features_order,
     not_fitted (outcome (run (FeaturesOrder.transform (PyDataFrame x))
                              (FeaturesOrder.__init__ features_order) h))) /\
  (forall cols_to_scale scaler_type,
     not_fitted (outcome (run (ScalerPicker.transform (PyDataFrame x))
                              (ScalerPicker.__init__ cols_to_scale scaler_type) h))) /\
  (forall strategy cols_to_impute self,
     SimpleImputerPicker.__init__ strategy cols_to_impute = inr self ->
     not_fitted (outcome (run (SimpleImputerPicker.transform (PyDataFrame x)) self h))) /\
  (forall self X, ~ not_fitted (outcome (run (CatCaster.transform X) self h))) /\
  (forall self X, ~ not_fitted (outcome (run (CalendarExtractor.transform X) self h))).
Proof.
  split_and!.
  - intros. eexists. reflexivity.
  - intros [cols|] method self; [|done]. intros [= <-]. eexists. reflexivity.
  - intros. eexists. reflexivity.
  - intros. eexists. reflexivity.
  - intros strategy cfg self ->%SimpleImputerPicker_init_inr. eexists. reflexivity.
  - intros self X. eapply frames_never_not_fitted.
    apply CatCaster_transform_frames; [apply ordinary_benign|done].
  - intros self X. eapply frames_never_not_fitted.
    apply CalendarExtractor_transform_frames; [apply ordinary_benign|done].
Qed.

Lemma transform_before_fit_witness :
  OutlierRemover.__init__ (Some ["col_1"]) "iqr"
    = inr (OutlierRemover.mk ["col_1"] "iqr" None) /\
  not_fitted (outcome (run (OutlierRemover.transform (PyDataFrame 0))
                           (OutlierRemover.mk ["col_1"] "iqr" None)
                           [frame [("col_1", ints [1; 2])]])) /\
  SimpleImputerPicker.__init__ "max" None
    = inr (SimpleImputerPicker.mk None "max" None) /\
  not_fitted (outcome (run (SimpleImputerPicker.transform (PyDataFrame 0))
                           (SimpleImputerPicker.mk None "max" None)
                           [frame [("col_1", ints [1; 2])]])).
Proof.
  pose proof (@transform_before_fit Reference.sklearn 0%nat
                [frame [("col_1", ints [1; 2])]]) as (_ & HO & _ & _ & HS & _).
  split; [reflexivity|]. split; [apply (HO (Some ["col_1"]) "iqr"); reflexivity|].
  split; [reflexivity|]. apply (HS "max" None). reflexivity.
Defined.

(** C1, the claim as written fails: a CatCaster and a CalendarExtractor that
    were never fitted transform a frame and return the result. *)
Lemma transform_before_fit_counterexample :
  outcome (run (CatCaster.transform (PyDataFrame 0))
               (CatCaster.__init__ ["col_2"])
               [frame [("col_1", ints [1; 2]); ("col_2", [VStr "a"; VStr "b"])]])
    = inr 1%nat /\
  outcome (run (CalendarExtractor.transform (PyDataFrame 0))
               (CalendarExtractor.__init__ "date" None)
               [frame [("date", [VStr "2022-01-01"; VStr "2023-02-28"])]])
    = inr 2%nat /\
  ~ not_fitted (outcome (run (CatCaster.transform (PyDataFrame 0))
               (CatCaster.__init__ ["col_2"])
               [frame [("col_1", ints [1; 2]); ("col_2", [VStr "a"; VStr "b"])]])).
Proof.
  split; [reflexivity|]. split; [reflexivity|].
  intros [msg Hm]. vm_compute in Hm. discriminate Hm.
Qed.

(** WithAnotherColumnImputer tests the dict it was constructed with, so an
    instance with a non-empty mapping passes the check without fit (here
    on the frame of the test suite). *)
Example WithAnotherColumnImputer_unfitted_transform :
  let T := frame [("col_1", ints [1; 2; 3]); ("col_2", [VNum 5; VNull; VNull])] in
  let r := run (WithAnotherColumnImputer.transform (PyDataFrame 0))
               (WithAnotherColumnImputer.mk [("col_2", "col_1")]) [T] in
  WithAnotherColumnImputer.__init__ (Some [("col_2", "col_1")])
    = inr (WithAnotherColumnImputer.mk [("col_2", "col_1")]) /\
  outcome r = inr 1%nat /\
  heap_after r !! 1%nat
    = Some (frame [("col_1", ints [1; 2; 3]); ("col_2", ints [5; 2; 3])]).
Proof. split_and!; reflexivity. Qed.

(* ===================================================================== *)
(** ** OutlierRemover: construction *)
(* ===================================================================== *)

(** C5 (as amended). Constructing an OutlierRemover with None for the
    column list raises the validation error; construction succeeds for
    every list of columns, the empty list included. *)
Theorem OutlierRemover_init_validation (method : string) :
  OutlierRemover.__init__ None method
    = inl (ValueError "cols_to_transform parameter is should be filled") /\
  forall cols, OutlierRemover.__init__ (Some cols) method
    = inr (OutlierRemover.mk cols method None).
Proof. split; [reflexivity|]. intros cols. reflexivity. Qed.

(** C5, the claim as written fails: the empty list is accepted. *)
Lemma OutlierRemover_init_counterexample :
  OutlierRemover.__init__ (Some []) "iqr" = inr (OutlierRemover.mk [] "iqr" None).
Proof. reflexivity. Qed.

(* ===================================================================== *)
(** ** SimpleImputerPicker: construction *)
(* ===================================================================== *)

Lemma mem_elem_of (c : string) (l : list string) : mem c l = true <-> c ∈ l.
Proof.
  unfold mem. rewrite existsb_exists, list_elem_of_In. split.
  - intros (y & Hy & ->%String.eqb_eq). exact Hy.
  - intros Hc. exists c. by rewrite String.eqb_refl.
Qed.

Lemma shares_column_spec (key : list string) (keys : list (list string)) :
  existsb (fun other => existsb (fun col => mem col other) key) keys = true <->
  exists other c, other ∈ keys /\ c ∈ key /\ c ∈ other.
Proof.
  rewrite existsb_exists. split.
  - intros (other & Ho & (c & Hc & Hm)%existsb_exists).
    exists other, c. split_and!; [by apply list_elem_of_In..|by apply mem_elem_of].
  - intros (other & c & Ho & Hc & Hm). exists other.
    rewrite <- list_elem_of_In. split; [done|].
    apply existsb_exists. exists c.
    split; [by apply list_elem_of_In|by apply mem_elem_of].
Qed.

Lemma keys_pairwise_disjoint_cons key keys :
  keys_pairwise_disjoint (key :: keys) <->
  (forall other c, other ∈ keys -> c ∈ key -> c ∈ other -> False) /\
  keys_pairwise_disjoint keys.
Proof.
  split.
  - intros Hp. split.
    + intros other c (j & Hj)%list_elem_of_lookup Hc Ho.
      by apply (Hp 0%nat (S j) key other c).
    + intros i j k1 k2 c Hij Hi Hj. apply (Hp (S i) (S j) k1 k2 c); auto.
  - intros [Hk Hp] [|i] [|j] k1 k2 c Hij Hi Hj Hc1 Hc2; cbn in Hi, Hj.
    + done.
    + injection Hi as <-. apply (Hk k2 c); [|done..].
      apply list_elem_of_lookup. eauto.
    + injection Hj as <-. apply (Hk k1 c); [|done..].
      apply list_elem_of_lookup. eauto.
    + apply (Hp i j k1 k2 c); auto.
Qed.

Lemma check_key_tuple_empty_intersection_ok {V} (d : dict (list string) V) :
  check_key_tuple_empty_intersection d = inr tt <-> keys_pairwise_disjoint (dict_keys d).
Proof.
  induction d as [|[key v] d IH]; cbn [check_key_tuple_empty_intersection].
  - split; [|done]. intros _ i j k1 k2 c _ Hi. by destruct i.
  - change (dict_keys ((key, v) :: d)) with (key :: dict_keys d).
    rewrite keys_pairwise_disjoint_cons, <- IH.
    destruct (existsb _ (dict_keys d)) eqn:Hex.
    + apply shares_column_spec in Hex as (other & c & Ho & Hc & Hm).
      split; [done|]. intros [Hk _]. destruct (Hk other c Ho Hc Hm).
    + split; [|tauto]. intros Hd. split; [|done].
      intros other c Ho Hc Hm.
      assert (existsb (fun other => existsb (fun col => mem col other) key)
                      (dict_keys d) = true) as Ht
        by (apply shares_column_spec; eauto).
      congruence.
Qed.

Lemma check_key_tuple_empty_intersection_raises {V} (d : dict (list string) V) e :
  check_key_tuple_empty_intersection d = inl e -> exists msg, e = ValueError msg.
Proof.
  induction d as [|[key v] d IH]; cbn [check_key_tuple_empty_intersection]; [done|].
  destruct (existsb _ (dict_keys d)); [|done]. intros [= <-]. eauto.
Qed.

(** C3. Constructing a SimpleImputerPicker with strategy "constant" and a
    dictionary whose tuple keys are pairwise disjoint succeeds; when some
    column appears in two keys, construction raises a validation error. *)
Theorem SimpleImputerPicker_init_disjoint_keys `{Sklearn}
    (d : dict (list string) value) :
  (keys_pairwise_disjoint (dict_keys d) ->
   SimpleImputerPicker.__init__ "constant" (Some (SimpleImputerPicker.OfDict d))
     = inr (SimpleImputerPicker.mk (Some (SimpleImputerPicker.OfDict d)) "constant" None)) /\
  (~ keys_pairwise_disjoint (dict_keys d) ->
   exists msg,
     SimpleImputerPicker.__init__ "constant" (Some (SimpleImputerPicker.OfDict d))
       = inl (ValueError msg)).
Proof.
  unfold SimpleImputerPicker.__init__. cbn.
  rewrite <- check_key_tuple_empty_intersection_ok.
  destruct (check_key_tuple_empty_intersection d) as [e|[]] eqn:Hc; cbn.
  - split; [done|]. intros _.
    apply check_key_tuple_empty_intersection_raises in Hc as [msg ->]. eauto.
  - split; [done|]. intros Hn. by destruct Hn.
Qed.

Lemma SimpleImputerPicker_init_disjoint_keys_witness :
  let ok := [(["a"; "b"], VNum 0); (["c"], VNum 1)] in
  let bad := [(["a"; "b"], VNum 0); (["b"; "c"], VNum 1)] in
  (keys_pairwise_disjoint (dict_keys ok) /\
   @SimpleImputerPicker.__init__ Reference.sklearn "constant"
       (Some (SimpleImputerPicker.OfDict ok))
     = inr (SimpleImputerPicker.mk (Some (SimpleImputerPicker.OfDict ok)) "constant" None)) /\
  (~ keys_pairwise_disjoint (dict_keys bad) /\
   exists msg,
     @SimpleImputerPicker.__init__ Reference.sklearn "constant"
         (Some (SimpleImputerPicker.OfDict bad))
       = inl (ValueError msg)).
Proof.
  intros ok bad.
  assert (keys_pairwise_disjoint (dict_keys ok)) as Hok
    by (apply check_key_tuple_empty_intersection_ok; reflexivity).
  assert (~ keys_pairwise_disjoint (dict_keys bad)) as Hbad.
  { intros Hp. apply (Hp 0%nat 1%nat ["a"; "b"] ["b"; "c"] "b"); try done.
    - apply list_elem_of_In. cbn. tauto.
    - apply list_elem_of_In. cbn. tauto. }
  split.
  - split; [exact Hok|].
    apply (proj1 (@SimpleImputerPicker_init_disjoint_keys Reference.sklearn ok) Hok).
  - split; [exact Hbad|].
    apply (proj2 (@SimpleImputerPicker_init_disjoint_keys Reference.sklearn bad) Hbad).
Defined.

(* ===================================================================== *)
(** ** Running the frame operations *)
(* ===================================================================== *)

Lemma bind_run {S A B} (m : M S A) (f : A -> M S B) (s : S) (h : heap) :
  (m ≫= f) s h =
  match m s h with
  | (inr a, s', h') => f a s' h'
  | (inl e, s', h') => (inl e, s', h')
  end.
Proof. reflexivity. Qed.

Lemma df_read_run {S} (x : loc) (T : table) (s : S) (h : heap) :
  h !! x = Some T -> df_read x s h = (inr T, s, h).
Proof. intros Hx. unfold df_read. by rewrite Hx. Qed.

Lemma df_columns_run {S} (x : loc) (T : table) (s : S) (h : heap) :
  h !! x = Some T -> df_columns x s h = (inr (columns T), s, h).
Proof. intros Hx. unfold df_columns. by rewrite bind_run, (df_read_run x T). Qed.

Lemma df_getitem_run {S} (x : loc) (c : string) (T : table) (s : S) (h : heap) :
  h !! x = Some T ->
  df_getitem x c s h =
  match lookup_col c T with
  | Some col => (inr col, s, h)
  | None => (inl (KeyError c), s, h)
  end.
Proof.
  intros Hx. unfold df_getitem. rewrite bind_run, (df_read_run x T) by done.
  by destruct (lookup_col c T).
Qed.

Lemma lookup_col_elem_of (c : string) (T : table) (col : Series) :
  lookup_col c T = Some col -> (c, col) ∈ T.
Proof.
  induction T as [|[n s] T IH]; cbn; [done|].
  destruct (String.eqb c n) eqn:Hc.
  - apply String.eqb_eq in Hc as ->. intros [= ->]. left.
  - intros Hl. right. auto.
Qed.

Lemma lookup_col_is_Some (c : string) (T : table) :
  c ∈ columns T -> is_Some (lookup_col c T).
Proof.
  induction T as [|[n s] T IH]; cbn.
  - intros Hc. by apply elem_of_nil in Hc.
  - intros Hc. destruct (String.eqb c n) eqn:Hcn; [eauto|].
    apply elem_of_cons in Hc as [->|Hc]; [|auto].
    by rewrite String.eqb_refl in Hcn.
Qed.

Lemma has_col_elem_of (c : string) (T : table) : has_col c T = true <-> c ∈ columns T.
Proof. apply mem_elem_of. Qed.

Lemma lookup_col_set_col_eq (c : string) (s : Series) (T : table) :
  lookup_col c (set_col c s T) = Some s.
Proof.
  induction T as [|[n s0] T IH]; cbn.
  - by rewrite String.eqb_refl.
  - destruct (String.eqb c n) eqn:Hc; cbn; by rewrite Hc.
Qed.

Lemma lookup_col_set_col_ne (c c' : string) (s : Series) (T : table) :
  c <> c' -> lookup_col c' (set_col c s T) = lookup_col c' T.
Proof.
  intros Hne. induction T as [|[n s0] T IH]; cbn.
  - by rewrite (proj2 (String.eqb_neq c' c)).
  - destruct (String.eqb c n) eqn:Hc; cbn; [|by rewrite IH].
    apply String.eqb_eq in Hc as <-.
    by rewrite (proj2 (String.eqb_neq c' c)).
Qed.

Lemma columns_set_col (c : string) (s : Series) (T : table) :
  is_Some (lookup_col c T) -> columns (set_col c s T) = columns T.
Proof.
  induction T as [|[n s0] T IH]; cbn; [by intros [? [=]]|].
  destruct (String.eqb c n); cbn; [done|]. intros Hs. f_equal. by apply IH.
Qed.

Lemma df_setitem_run {S} (x : loc) (c : string) (col : Series) (T : table)
    (s : S) (h : heap) :
  h !! x = Some T -> df_setitem x c col s h = (inr tt, s, <[x := set_col c col T]> h).
Proof.
  intros Hx. unfold df_setitem. by rewrite bind_run, (df_read_run x T).
Qed.

Lemma check_transform_run {S A} `{Truthy A} (x : loc) (item : A) (name : string)
    (s : S) (h : heap) :
  truthy item = true ->
  check_transform (PyDataFrame x) item name true s h = (inr x, s, h).
Proof. intros Ht. unfold check_transform. rewrite bind_run. cbn. by rewrite Ht. Qed.

Lemma df_copy_run {S} (x : loc) (T : table) (s : S) (h : heap) :
  h !! x = Some T -> df_copy x s h = (inr (length h), s, h ++ [T]).
Proof. intros Hx. unfold df_copy. by rewrite bind_run, (df_read_run x T). Qed.

Lemma df_alloc_lookup (h : heap) (T : table) : (h ++ [T]) !! length h = Some T.
Proof. rewrite lookup_app_r by done. by rewrite Nat.sub_diag. Qed.

Lemma check_transform_off_run {S A} `{Truthy A} (x : loc) (item : A) (name : string)
    (s : S) (h : heap) :
  check_transform (PyDataFrame x) item name false s h = (inr x, s, h).
Proof. reflexivity. Qed.

Lemma lookup_col_has_col (c : string) (T : table) :
  is_Some (lookup_col c T) -> has_col c T = true.
Proof.
  unfold has_col, columns.
  induction T as [|[n s] T IH]; cbn; [by intros [? [=]]|].
  destruct (String.eqb c n); [done|]. exact IH.
Qed.

Lemma df_drop_inplace_run {S} (x : loc) (c : string) (T : table) (s : S) (h : heap) :
  h !! x = Some T -> is_Some (lookup_col c T) ->
  df_drop_inplace x c s h = (inr tt, s, <[x := drop_cols [c] T]> h).
Proof.
  intros Hx Hc. unfold df_drop_inplace. rewrite bind_run, (df_read_run x T) by done.
  unfold missing_col. cbn [find]. by rewrite lookup_col_has_col.
Qed.

Lemma pd_concat_run {S} (x : loc) (series : list (string * Series)) (T : table)
    (s : S) (h : heap) :
  h !! x = Some T -> pd_concat x series s h = (inr (length h), s, h ++ [T ++ series]).
Proof. intros Hx. unfold pd_concat. by rewrite bind_run, (df_read_run x T). Qed.

Lemma drop_cols_set_col (c : string) (s : Series) (T : table) :
  is_Some (lookup_col c T) -> drop_cols [c] (set_col c s T) = drop_cols [c] T.
Proof.
  unfold drop_cols.
  induction T as [|[n s0] T IH]; cbn [lookup_col set_col]; [by intros [? [=]]|].
  destruct (String.eqb c n) eqn:Hc.
  - intros _. apply String.eqb_eq in Hc as <-.
    cbn. rewrite String.eqb_refl. done.
  - intros Hs. cbn. rewrite String.eqb_sym, Hc. cbn. f_equal. by apply IH.
Qed.

(* ===================================================================== *)
(** ** NoInfoFeatureRemover: fitted with nothing to remove *)
(* ===================================================================== *)

Lemma NoInfoFeatureRemover_fit_loop (self : NoInfoFeatureRemover.t)
    (h : heap) (x : loc) (T : table) (cols : list string) :
  h !! x = Some T ->
  NoInfoFeatureRemover.cols_to_remove self = Some [] ->
  (forall name col, (name, col) ∈ T ->
     mem name (NoInfoFeatureRemover.cols_to_except self) = false -> 2 <= nunique col) ->
  (forall c, c ∈ cols -> c ∈ columns T) ->
  for_ cols (fun col =>
      s ← df_getitem x col;
      self ← get_self;
      if (nunique s <=? 1) && negb (mem col (NoInfoFeatureRemover.cols_to_except self))
      then NoInfoFeatureRemover.append_col col else mret tt) self h
  = (inr tt, self, h).
Proof.
  intros Hx Hr HT. induction cols as [|c cols IH]; intros Hcols; [done|].
  cbn [for_]. rewrite bind_run, bind_run, (df_getitem_run x c T) by done.
  destruct (lookup_col_is_Some c T) as [col Hcol]; [apply Hcols; left|].
  rewrite Hcol. cbn [get_self]. rewrite bind_run. cbn [get_self].
  destruct (mem c (NoInfoFeatureRemover.cols_to_except self)) eqn:Hex.
  - rewrite andb_false_r. cbn. apply IH. intros c' Hc'. apply Hcols. by right.
  - apply lookup_col_elem_of in Hcol. specialize (HT c col Hcol Hex).
    destruct (nunique col <=? 1) eqn:Hn; [lia|].
    cbn. apply IH. intros c' Hc'. apply Hcols. by right.
Qed.

(** C9. When every column of [T] that is not exempted has at least two
    distinct values, fit on [T] succeeds and learns the empty removal list,
    and transform of any frame on the fitted instance raises the Not-Fitted
    error. *)
Theorem NoInfoFeatureRemover_fitted_empty (self : NoInfoFeatureRemover.t)
    (h : heap) (x : loc) (T : table) :
  h !! x = Some T ->
  (forall name col, (name, col) ∈ T ->
     mem name (NoInfoFeatureRemover.cols_to_except self) = false -> 2 <= nunique col) ->
  let fitted := NoInfoFeatureRemover.set_cols_to_remove (Some []) self in
  run (NoInfoFeatureRemover.fit (PyDataFrame x)) self h = (inr tt, fitted, h) /\
  forall x' h',
    not_fitted (outcome (run (NoInfoFeatureRemover.transform (PyDataFrame x')) fitted h')).
Proof.
  intros Hx HT fitted. split.
  - unfold run, NoInfoFeatureRemover.fit.
    rewrite bind_run. cbn [check_fill mret M_ret].
    rewrite bind_run. cbn [get_self].
    rewrite bind_run. cbn [set_self].
    rewrite bind_run, (df_columns_run x T) by done.
    rewrite bind_run.
    rewrite (NoInfoFeatureRemover_fit_loop fitted h x T); [done..|].
    auto.
  - intros x' h'. eexists. reflexivity.
Qed.

Lemma NoInfoFeatureRemover_fitted_empty_witness :
  let T := frame [("col_1", ints [1; 2]); ("col_2", ints [3; 4]); ("same", ints [7; 7])] in
  let self := NoInfoFeatureRemover.__init__ (Some ["same"]) false in
  run (NoInfoFeatureRemover.fit (PyDataFrame 0)) self [T]
    = (inr tt, NoInfoFeatureRemover.set_cols_to_remove (Some []) self, [T]) /\
  not_fitted (outcome (run (NoInfoFeatureRemover.transform (PyDataFrame 0))
                           (NoInfoFeatureRemover.set_cols_to_remove (Some []) self) [T])).
Proof.
  intros T self.
  destruct (NoInfoFeatureRemover_fitted_empty self [T] 0%nat T) as [Hfit Htr].
  - reflexivity.
  - intros name col Hin Hex.
    apply list_elem_of_In in Hin. cbn in Hin.
    destruct Hin as [[= <- <-]|[[= <- <-]|[[= <- <-]|[]]]];
      first [by vm_compute | by vm_compute in Hex].
  - split; [exact Hfit|apply Htr].
Defined.

(* ===================================================================== *)
(** ** fit and the configured columns *)
(* ===================================================================== *)

Section Readonly.
Context {S : Type}.

Lemma readonly_ret {A} (a : A) : readonly (S:=S) (mret a).
Proof. intros s h. by eexists. Qed.

Lemma readonly_raise {A} (e : exn) : readonly (S:=S) (A:=A) (raise e).
Proof. intros s h. by eexists. Qed.

Lemma readonly_lift {A} (r : exn + A) : readonly (S:=S) (lift r).
Proof. intros s h. by eexists. Qed.

Lemma readonly_sk {A} (r : string + A) : readonly (S:=S) (sk r).
Proof. intros s h. destruct r; by eexists. Qed.

Lemma readonly_get_self : readonly (S:=S) get_self.
Proof. intros s h. by eexists. Qed.

Lemma readonly_bind {A B} (m : M S A) (f : A -> M S B) :
  readonly m -> (forall a, readonly (f a)) -> readonly (m ≫= f).
Proof.
  intros Hm Hf s h. rewrite bind_run. destruct (Hm s h) as [[e|a] ->].
  - by eexists.
  - apply Hf.
Qed.

Lemma readonly_df_read (x : loc) : readonly (S:=S) (df_read x).
Proof. intros s h. unfold df_read. destruct (h !! x); by eexists. Qed.

Lemma readonly_df_columns (x : loc) : readonly (S:=S) (df_columns x).
Proof.
  apply readonly_bind; [apply readonly_df_read|]. intros t. apply readonly_ret.
Qed.

Lemma readonly_df_getitem (x : loc) (c : string) : readonly (S:=S) (df_getitem x c).
Proof.
  apply readonly_bind; [apply readonly_df_read|]. intros t.
  destruct (lookup_col c t); [apply readonly_ret|apply readonly_raise].
Qed.

Lemma readonly_df_select (x : loc) (cs : list string) : readonly (S:=S) (df_select x cs).
Proof.
  apply readonly_bind; [apply readonly_df_read|]. intros t.
  destruct (missing_col cs t); [apply readonly_raise|apply readonly_ret].
Qed.
End Readonly.

Section DictFacts.
Context {K V : Type} `{EqDecision K}.

Lemma dict_get_set_eq (k : K) (v : V) (d : dict K V) :
  dict_get k (dict_set k v d) = Some v.
Proof.
  induction d as [|[k' v'] d IH]; cbn.
  - by rewrite bool_decide_eq_true_2.
  - destruct (bool_decide (k = k')) eqn:Hk; cbn; rewrite Hk; [done|exact IH].
Qed.

Lemma dict_get_set_ne (k k' : K) (v : V) (d : dict K V) :
  k <> k' -> dict_get k' (dict_set k v d) = dict_get k' d.
Proof.
  intros Hne. induction d as [|[k0 v0] d IH]; cbn.
  - by rewrite bool_decide_eq_false_2 by congruence.
  - destruct (bool_decide (k = k0)) eqn:Hk; cbn; [|by rewrite IH].
    apply bool_decide_eq_true_1 in Hk as <-.
    by rewrite bool_decide_eq_false_2 by congruence.
Qed.
End DictFacts.

Lemma elem_of_filter_mem (c : string) (cols l : list string) :
  c ∈ filter (fun col => mem col cols) l <-> c ∈ l /\ c ∈ cols.
Proof.
  rewrite list_elem_of_filter, Is_true_true, mem_elem_of. tauto.
Qed.

(** *** OutlierRemover *)

Lemma OutlierRemover_fit_col_cases `{Float64} (x : loc) (col : string)
    (s : OutlierRemover.t) (h : heap) :
  (exists e, OutlierRemover.fit_col x col s h = (inl e, s, h)) \/
  (exists d th,
     OutlierRemover.col_thresholds s = Some d /\
     OutlierRemover.fit_col x col s h =
       (inr tt, OutlierRemover.set_col_thresholds (Some (dict_set col th d)) s, h)).
Proof.
  unfold OutlierRemover.fit_col. rewrite bind_run. cbn [get_self].
  rewrite bind_run. destruct (readonly_df_getitem x col s h) as [[e|c] ->]; [eauto|].
  rewrite bind_run. cbn [lift].
  destruct (OutlierRemover.bounds _ c) as [e|b]; [eauto|].
  rewrite bind_run. cbn [lift]. destruct (numbers (cells c)) as [e|qs]; [eauto|].
  destruct (OutlierRemover.col_thresholds s) as [d|] eqn:Hd; [|left; eauto].
  right. exists d, (OutlierRemover.thresholds (fst b) (snd b) qs). done.
Qed.

Lemma OutlierRemover_fit_loop `{Float64} (x : loc) (l : list string)
    (s : OutlierRemover.t) (h : heap) :
  let r := for_ l (OutlierRemover.fit_col x) s h in
  heap_after r = h /\
  OutlierRemover.cols_to_transform (self_after r) = OutlierRemover.cols_to_transform s /\
  (forall c, c ∉ l -> threshold_of (self_after r) c = threshold_of s c) /\
  (outcome r = inr tt -> forall c, c ∈ l -> is_Some (threshold_of (self_after r) c)).
Proof.
  revert s. induction l as [|a l IH]; intros s.
  - cbn. split_and!; try done. intros _ c Hc. by apply elem_of_nil in Hc.
  - cbn [for_]. cbv zeta. rewrite bind_run.
    destruct (OutlierRemover_fit_col_cases x a s h) as [[e ->]|(d & th & Hd & ->)].
    { cbn. split_and!; done. }
    set (s1 := OutlierRemover.set_col_thresholds _ s).
    destruct (IH s1) as (Hh & Hc & Hkeep & Hok).
    assert (threshold_of s1 a = Some th) as Ha
      by (unfold threshold_of; cbn; apply dict_get_set_eq).
    split_and!; [done|by rewrite Hc| |].
    + intros c [Hca Hcl]%not_elem_of_cons. rewrite Hkeep by done.
      unfold threshold_of. cbn. rewrite Hd. cbn.
      by apply dict_get_set_ne.
    + intros Hr c Hin. destruct (decide (c ∈ l)) as [Hl|Hl]; [by apply Hok|].
      apply elem_of_cons in Hin as [->|Hin]; [|done].
      rewrite Hkeep by done. by rewrite Ha.
Qed.

Lemma OutlierRemover_fit_spec `{Float64} (self : OutlierRemover.t) (h : heap) (x : loc) (T : table) :
  h !! x = Some T ->
  let r := run (OutlierRemover.fit (PyDataFrame x)) self h in
  heap_after r = h /\
  OutlierRemover.cols_to_transform (self_after r)
    = filter (fun col => mem col (columns T)) (OutlierRemover.cols_to_transform self) /\
  (forall c, c ∉ OutlierRemover.cols_to_transform (self_after r) ->
             threshold_of (self_after r) c = None) /\
  (outcome r = inr tt ->
   forall c, c ∈ OutlierRemover.cols_to_transform (self_after r) ->
             is_Some (threshold_of (self_after r) c)).
Proof.
  intros Hx. unfold run, OutlierRemover.fit.
  rewrite bind_run. cbn [check_fill mret M_ret].
  rewrite bind_run, (df_columns_run x T) by done.
  rewrite bind_run. cbn [get_self].
  rewrite bind_run. cbn [set_self].
  rewrite bind_run. cbn [get_self].
  rewrite bind_run. cbn [set_self].
  rewrite bind_run. cbn [get_self].
  set (s1 := OutlierRemover.set_col_thresholds (Some []) _).
  change (OutlierRemover.cols_to_transform s1)
    with (filter (fun col => mem col (columns T)) (OutlierRemover.cols_to_transform self)).
  set (l := filter _ _).
  destruct (OutlierRemover_fit_loop x l s1 h) as (Hh & Hc & Hkeep & Hok).
  cbv zeta. rewrite Hc. split_and!; [done|done| |done].
  intros c Hcl. by rewrite Hkeep.
Qed.

(** *** CatCaster and WithAnotherColumnImputer *)

Lemma CatCaster_fit_run (self : CatCaster.t) (h : heap) (x : loc) (T : table) :
  h !! x = Some T ->
  run (CatCaster.fit (PyDataFrame x)) self h
  = (inr tt,
     CatCaster.mk (filter (fun col => mem col (columns T)) (CatCaster.cols_to_cast self)),
     h).
Proof.
  intros Hx. unfold run, CatCaster.fit.
  rewrite bind_run. cbn [check_fill mret M_ret].
  by rewrite bind_run, (df_columns_run x T).
Qed.

Lemma WithAnotherColumnImputer_fit_run (self : WithAnotherColumnImputer.t)
    (h : heap) (x : loc) (T : table) :
  h !! x = Some T ->
  run (WithAnotherColumnImputer.fit (PyDataFrame x)) self h
  = (inr tt,
     WithAnotherColumnImputer.mk
       (filter (fun p => mem (fst p) (columns T))
               (WithAnotherColumnImputer.cols_to_impute self)),
     h).
Proof.
  intros Hx. unfold run, WithAnotherColumnImputer.fit.
  rewrite bind_run. cbn [check_fill mret M_ret].
  by rewrite bind_run, (df_columns_run x T).
Qed.

Lemma elem_of_keys_filter_mem {V} (c : string) (cols : list string) (d : dict string V) :
  c ∈ dict_keys (filter (fun p => mem (fst p) cols) d) <-> c ∈ dict_keys d /\ c ∈ cols.
Proof.
  unfold dict_keys. rewrite !list_elem_of_fmap. split.
  - intros ([k v] & -> & [Hm Hin]%list_elem_of_filter).
    apply Is_true_true, mem_elem_of in Hm. split; [|done]. by exists (k, v).
  - intros [([k v] & -> & Hin) Hc]. exists (k, v). split; [done|].
    apply list_elem_of_filter. split; [|done]. by apply Is_true_true, mem_elem_of.
Qed.

(** *** ScalerPicker *)

Lemma ScalerPicker_fit_spec `{Sklearn} (self : ScalerPicker.t) (h : heap) (x : loc) (T : table) :
  h !! x = Some T ->
  let r := run (ScalerPicker.fit (PyDataFrame x)) self h in
  heap_after r = h /\
  ScalerPicker.cols_to_scale (self_after r)
    = filter (fun col => mem col (columns T)) (ScalerPicker.cols_to_scale self).
Proof.
  intros Hx. unfold run, ScalerPicker.fit.
  rewrite bind_run. cbn [check_fill mret M_ret].
  rewrite bind_run, (df_columns_run x T) by done.
  rewrite bind_run. cbn [get_self].
  rewrite bind_run. cbn [set_self].
  set (s1 := ScalerPicker.set_cols_to_scale _ self).
  rewrite bind_run.
  assert (exists r, ScalerPicker._get_scaler_class s1 h = (r, s1, h)) as [[e|cls] ->].
  { unfold ScalerPicker._get_scaler_class. rewrite bind_run. cbn [get_self].
    repeat (case_match; [by eexists|]). by eexists. }
  { done. }
  destruct cls as [cls|]; [|done].
  rewrite bind_run. cbn [get_self].
  rewrite bind_run. destruct (readonly_df_select x (ScalerPicker.cols_to_scale s1) s1 h)
    as [[e|sub] ->]; [done|].
  rewrite bind_run. destruct (readonly_sk (S:=ScalerPicker.t) (sk_scaler_fit cls sub) s1 h)
    as [[e|f1] ->]; [done|].
  rewrite bind_run. cbn [set_self].
  rewrite bind_run. cbn [get_self].
  set (s2 := ScalerPicker.set_scaler _ s1).
  rewrite bind_run. destruct (readonly_df_select x (ScalerPicker.cols_to_scale s2) s2 h)
    as [[e|sub'] ->]; [done|].
  rewrite bind_run. destruct (readonly_sk (S:=ScalerPicker.t) (sk_scaler_fit cls sub') s2 h)
    as [[e|f2] ->]; done.
Qed.

(** C10. For OutlierRemover, ScalerPicker, CatCaster and
    WithAnotherColumnImputer, fit on [T1] overwrites the configured columns
    with those of them that [T1] has.  So for a configured column [c] that
    [T1] lacks and [T2] has: after fit on [T1] and then fit on [T2] the
    instance has nothing for [c] (not in the configuration, no learned
    thresholds), whereas the same instance fitted on [T2] directly keeps [c]
    (and, for OutlierRemover, has thresholds for it when fit returns). *)
Theorem fit_overwrites_configuration `{Sklearn} `{Float64}
    (h : heap) (x1 x2 : loc) (T1 T2 : table) (c : string) :
  h !! x1 = Some T1 -> h !! x2 = Some T2 -> c ∉ columns T1 -> c ∈ columns T2 ->
  (forall self, c ∈ OutlierRemover.cols_to_transform self ->
     let r1 := run (OutlierRemover.fit (PyDataFrame x1)) self h in
     let r2 := run (OutlierRemover.fit (PyDataFrame x2)) (self_after r1) (heap_after r1) in
     let fresh := run (OutlierRemover.fit (PyDataFrame x2)) self h in
     OutlierRemover.cols_to_transform (self_after r1)
       = filter (fun col => mem col (columns T1)) (OutlierRemover.cols_to_transform self) /\
     (c ∉ OutlierRemover.cols_to_transform (self_after r2)) /\
     threshold_of (self_after r2) c = None /\
     c ∈ OutlierRemover.cols_to_transform (self_after fresh) /\
     (outcome fresh = inr tt -> is_Some (threshold_of (self_after fresh) c))) /\
  (forall self, c ∈ ScalerPicker.cols_to_scale self ->
     let r1 := run (ScalerPicker.fit (PyDataFrame x1)) self h in
     let r2 := run (ScalerPicker.fit (PyDataFrame x2)) (self_after r1) (heap_after r1) in
     let fresh := run (ScalerPicker.fit (PyDataFrame x2)) self h in
     ScalerPicker.cols_to_scale (self_after r1)
       = filter (fun col => mem col (columns T1)) (ScalerPicker.cols_to_scale self) /\
     (c ∉ ScalerPicker.cols_to_scale (self_after r2)) /\
     c ∈ ScalerPicker.cols_to_scale (self_after fresh)) /\
  (forall self, c ∈ CatCaster.cols_to_cast self ->
     let r1 := run (CatCaster.fit (PyDataFrame x1)) self h in
     let r2 := run (CatCaster.fit (PyDataFrame x2)) (self_after r1) (heap_after r1) in
     let fresh := run (CatCaster.fit (PyDataFrame x2)) self h in
     CatCaster.cols_to_cast (self_after r1)
       = filter (fun col => mem col (columns T1)) (CatCaster.cols_to_cast self) /\
     (c ∉ CatCaster.cols_to_cast (self_after r2)) /\
     c ∈ CatCaster.cols_to_cast (self_after fresh)) /\
  (forall self, c ∈ dict_keys (WithAnotherColumnImputer.cols_to_impute self) ->
     let r1 := run (WithAnotherColumnImputer.fit (PyDataFrame x1)) self h in
     let r2 := run (WithAnotherColumnImputer.fit (PyDataFrame x2))
                   (self_after r1) (heap_after r1) in
     let fresh := run (WithAnotherColumnImputer.fit (PyDataFrame x2)) self h in
     WithAnotherColumnImputer.cols_to_impute (self_after r1)
       = filter (fun p => mem (fst p) (columns T1))
                (WithAnotherColumnImputer.cols_to_impute self) /\
     (c ∉ dict_keys (WithAnotherColumnImputer.cols_to_impute (self_after r2))) /\
     c ∈ dict_keys (WithAnotherColumnImputer.cols_to_impute (self_after fresh))).
Proof.
  intros H1 H2 Hc1 Hc2. split_and!.
  - intros self Hc r1 r2 fresh.
    destruct (OutlierRemover_fit_spec self h x1 T1 H1) as (Hh1 & Hcols1 & _ & _).
    fold r1 in Hh1, Hcols1.
    assert (heap_after r1 !! x2 = Some T2) as H2' by (by rewrite Hh1).
    destruct (OutlierRemover_fit_spec (self_after r1) (heap_after r1) x2 T2 H2')
      as (_ & Hcols2 & Hnone & _). fold r2 in Hcols2, Hnone.
    destruct (OutlierRemover_fit_spec self h x2 T2 H2) as (_ & Hcolsf & _ & Hsome).
    fold fresh in Hcolsf, Hsome.
    assert (c ∉ OutlierRemover.cols_to_transform (self_after r2)) as Hnot.
    { rewrite Hcols2, Hcols1, !elem_of_filter_mem. tauto. }
    assert (c ∈ OutlierRemover.cols_to_transform (self_after fresh)) as Hin.
    { rewrite Hcolsf, elem_of_filter_mem. tauto. }
    split_and!; auto.
  - intros self Hc r1 r2 fresh.
    destruct (ScalerPicker_fit_spec self h x1 T1 H1) as (Hh1 & Hcols1).
    fold r1 in Hh1, Hcols1.
    assert (heap_after r1 !! x2 = Some T2) as H2' by (by rewrite Hh1).
    destruct (ScalerPicker_fit_spec (self_after r1) (heap_after r1) x2 T2 H2')
      as (_ & Hcols2). fold r2 in Hcols2.
    destruct (ScalerPicker_fit_spec self h x2 T2 H2) as (_ & Hcolsf).
    fold fresh in Hcolsf.
    split_and!; [done| |].
    + rewrite Hcols2, Hcols1, !elem_of_filter_mem. tauto.
    + rewrite Hcolsf, elem_of_filter_mem. tauto.
  - intros self Hc. cbv zeta.
    rewrite (CatCaster_fit_run self h x1 T1 H1). cbn [self_after heap_after fst snd].
    rewrite (CatCaster_fit_run _ h x2 T2 H2), (CatCaster_fit_run self h x2 T2 H2).
    cbn [self_after heap_after fst snd CatCaster.cols_to_cast].
    split_and!; [done| |].
    + rewrite !elem_of_filter_mem. tauto.
    + rewrite elem_of_filter_mem. tauto.
  - intros self Hc. cbv zeta.
    rewrite (WithAnotherColumnImputer_fit_run self h x1 T1 H1).
    cbn [self_after heap_after fst snd].
    rewrite (WithAnotherColumnImputer_fit_run _ h x2 T2 H2),
      (WithAnotherColumnImputer_fit_run self h x2 T2 H2).
    cbn [self_after heap_after fst snd WithAnotherColumnImputer.cols_to_impute].
    split_and!; [done| |].
    + rewrite !elem_of_keys_filter_mem. tauto.
    + rewrite elem_of_keys_filter_mem. tauto.
Qed.

Lemma fit_overwrites_configuration_witness :
  let T1 := frame [("a", ints [1; 2; 3])] in
  let T2 := frame [("a", ints [1; 2; 3]); ("c", ints [4; 5; 6])] in
  let self := OutlierRemover.mk ["a"; "c"] "iqr" None in
  let r1 := run (OutlierRemover.fit (H:=Reference.float64) (PyDataFrame 0)) self [T1; T2] in
  let r2 := run (OutlierRemover.fit (H:=Reference.float64) (PyDataFrame 1)) (self_after r1) (heap_after r1) in
  let fresh := run (OutlierRemover.fit (H:=Reference.float64) (PyDataFrame 1)) self [T1; T2] in
  OutlierRemover.cols_to_transform (self_after r1)
    = filter (fun col => mem col (columns T1)) ["a"; "c"] /\
  ("c" ∉ OutlierRemover.cols_to_transform (self_after r2)) /\
  threshold_of (self_after r2) "c" = None /\
  "c" ∈ OutlierRemover.cols_to_transform (self_after fresh) /\
  (outcome fresh = inr tt -> is_Some (threshold_of (self_after fresh) "c")).
Proof.
  intros T1 T2 self.
  refine (proj1 (@fit_overwrites_configuration Reference.sklearn Reference.float64
                   [T1; T2] 0%nat 1%nat T1 T2 "c" _ _ _ _) self _).
  - reflexivity.
  - reflexivity.
  - intros Hin. apply list_elem_of_In in Hin. cbn in Hin.
    destruct Hin as [Hin|[]]. discriminate Hin.
  - apply list_elem_of_In. cbn. tauto.
  - apply list_elem_of_In. cbn. tauto.
Defined.

(* ===================================================================== *)
(** ** SimpleImputerPicker.fit and entirely null columns *)
(* ===================================================================== *)

Lemma any_all_null_spec (T : table) :
  any_all_null T = true <->
  exists name col, (name, col) ∈ T /\ forall v, v ∈ cells col -> v = VNull.
Proof.
  unfold any_all_null. rewrite existsb_exists. split.
  - intros ([name col] & Hin & Hall). exists name, col.
    split; [by apply list_elem_of_In|]. intros v Hv.
    rewrite forallb_forall in Hall. apply list_elem_of_In, Hall in Hv. by destruct v.
  - intros (name & col & Hin & Hall). exists (name, col).
    split; [by apply list_elem_of_In|]. apply forallb_forall.
    intros v Hv%list_elem_of_In. by rewrite (Hall v Hv).
Qed.

Lemma numbers_raises (l : list value) e : numbers l = inl e -> ordinary e.
Proof.
  induction l as [|v l IH]; cbn; [done|].
  destruct v; try (by intros [= <-]); [exact IH|].
  destruct (numbers l); [|done]. intros [= <-]. auto.
Qed.

Lemma s_max_raises (c : Series) e : s_max c = inl e -> ordinary e.
Proof.
  unfold s_max. destruct (numbers (cells c)) eqn:Hn; [|done].
  intros [= <-]. by apply numbers_raises in Hn.
Qed.

Section FitStrategy.
Context `{Sklearn} (E : exn -> Prop).
Hypothesis HE : forall e, ordinary e -> E e.
Hypothesis HU : forall strategy,
  E (ValueError ("unknown strategy " +:+ strategy
                 +:+ " should be constant, mean, median or most_frequent")).

Lemma SimpleImputerPicker_imputer_setitem_frames k imp :
  frames 0 (SimpleImputerPicker.imputer_setitem k imp) (fun _ => True) E.
Proof. unfold SimpleImputerPicker.imputer_setitem. frames_go. Qed.

Lemma SimpleImputerPicker_present_cols_frames cfg cols :
  frames 0 (SimpleImputerPicker.present_cols cfg cols) (fun _ => True) E.
Proof. unfold SimpleImputerPicker.present_cols. frames_go. Qed.

Lemma SimpleImputerPicker_fit_strategy_frames x :
  frames 0 (SimpleImputerPicker.fit_strategy x) (fun _ => True) E.
Proof.
  unfold SimpleImputerPicker.fit_strategy.
  eapply frames_bind; [frames_op|]. intros cols _.
  eapply frames_bind; [frames_op|]. intros self _.
  destruct (String.eqb _ "constant").
  { eapply frames_bind; [frames_op|]. intros _ _.
    destruct (SimpleImputerPicker.cols_to_impute self) as [[d|l]|];
      [|apply frames_raise; auto..].
    apply frames_for. intros item. destruct (negb _); [|by apply frames_ret].
    eapply frames_bind; [frames_op|]. intros sub _.
    eapply frames_bind; [frames_op|]. intros imp _.
    apply SimpleImputerPicker_imputer_setitem_frames. }
  destruct (_ || _).
  { eapply frames_bind; [apply SimpleImputerPicker_present_cols_frames|]. intros l _.
    frames_go. }
  destruct (String.eqb _ "max"); [|apply frames_raise, HU].
  eapply frames_bind; [apply SimpleImputerPicker_present_cols_frames|]. intros l _.
  eapply frames_bind; [frames_op|]. intros self' _.
  eapply frames_bind; [frames_op|]. intros _ _.
  apply frames_for. intros col.
  eapply frames_bind; [frames_op|]. intros c _.
  eapply frames_bind; [apply frames_lift; eauto using s_max_raises|]. intros v _.
  eapply frames_bind; [frames_op|]. intros sub _.
  eapply frames_bind; [frames_op|]. intros imp _.
  apply SimpleImputerPicker_imputer_setitem_frames.
Qed.
End FitStrategy.

(** C4 (as amended). SimpleImputerPicker.fit(T) raises the validation error
    for missing values when, and only when, some column of [T] is entirely
    null; every column of [T] counts, whether or not it is among the
    configured columns. *)
Theorem SimpleImputerPicker_fit_all_null `{Sklearn}
    (self : SimpleImputerPicker.t) (h : heap) (x : loc) (T : table) :
  h !! x = Some T ->
  outcome (run (SimpleImputerPicker.fit (PyDataFrame x)) self h) = inl all_missing
  <-> exists name col, (name, col) ∈ T /\ forall v, v ∈ cells col -> v = VNull.
Proof.
  intros Hx. rewrite <- any_all_null_spec.
  unfold run, SimpleImputerPicker.fit.
  rewrite bind_run. cbn [check_fill mret M_ret].
  rewrite bind_run, (df_read_run x T) by done.
  destruct (any_all_null T); [done|].
  split; [|done]. intros Hout. exfalso.
  set (m := _ ≫= _) in Hout.
  assert (frames 0 m (fun _ => True) (fun e => e <> all_missing)) as Hm.
  { subst m. eapply frames_bind; [frames_op|]. intros s _.
    eapply frames_bind.
    { destruct (SimpleImputerPicker.cols_to_impute s); frames_go; exact I. }
    intros _ _. apply SimpleImputerPicker_fit_strategy_frames.
    - by intros [].
    - intros strategy. cbn. discriminate. }
  specialize (Hm self h (Nat.le_0_l _)).
  destruct (m self h) as [[r s'] h']. cbn in Hout. subst r.
  by destruct Hm as (_ & _ & []).
Qed.

Lemma SimpleImputerPicker_fit_all_null_witness :
  let T := frame [("a", [VNum 1; VNull]); ("b", [VNull; VNum 2])] in
  let self := @SimpleImputerPicker.mk Reference.sklearn
                (Some (SimpleImputerPicker.OfList ["a"])) "max" None in
  [T] !! 0%nat = Some T /\
  (outcome (run (SimpleImputerPicker.fit (PyDataFrame 0)) self [T]) = inl all_missing
   <-> exists name col, (name, col) ∈ T /\ forall v, v ∈ cells col -> v = VNull).
Proof.
  intros T self. split; [reflexivity|].
  apply (@SimpleImputerPicker_fit_all_null Reference.sklearn self [T] 0%nat T).
  reflexivity.
Defined.

(** C4, the claim as written fails: the only entirely null column, "b", is
    outside the configured columns, and fit raises all the same. *)
Lemma SimpleImputerPicker_fit_counterexample :
  let T := frame [("a", [VNum 1; VNull]); ("b", [VNull; VNull])] in
  let self := @SimpleImputerPicker.mk Reference.sklearn
                (Some (SimpleImputerPicker.OfList ["a"])) "max" None in
  outcome (run (SimpleImputerPicker.fit (PyDataFrame 0)) self [T]) = inl all_missing /\
  outcome (run (SimpleImputerPicker.fit (PyDataFrame 0)) self [frame [("a", [VNum 1; VNull])]])
    = inr tt.
Proof. split; reflexivity. Qed.

(* ===================================================================== *)
(** ** CalendarExtractor with calendar_level unset *)
(* ===================================================================== *)

Lemma mapE_inr {A B} (f : A -> exn + B) (l : list A) (l' : list B) :
  mapE f l = inr l' -> Forall2 (fun a b => f a = inr b) l l'.
Proof.
  revert l'. induction l as [|a l IH]; intros l'; cbn.
  - intros [= <-]. constructor.
  - destruct (f a) as [e|b] eqn:Ha; [done|].
    destruct (mapE f l) as [e|bs]; [done|]. intros [= <-].
    constructor; auto.
Qed.

Lemma parse_date_VDate (str : string) (w : value) :
  Calendar.parse_date str = Some w -> exists y m dd, w = VDate y m dd.
Proof.
  unfold Calendar.parse_date. repeat case_match; try done.
  intros (y & _ & (m & _ & (dd & _ & Hif)%bind_Some)%bind_Some)%bind_Some.
  case_match; [|done]. injection Hif as <-. eauto.
Qed.

(** The accessor succeeds on what [to_datetime] returns. *)
Lemma dt_field_to_datetime (f : Z -> Z -> Z -> Z) (d d' : Series) :
  to_datetime d = inr d' -> dt_field f d' = inr (calendar_column f d').
Proof.
  unfold to_datetime.
  destruct (mapE _ (cells d)) as [e|cs] eqn:Hm; [done|]. intros [= <-].
  apply mapE_inr in Hm. unfold dt_field, calendar_column. cbn [cells].
  induction Hm as [|v w l l' Hv Hl IH]; [done|]. cbn [mapE map].
  assert (w = VNull \/ exists y m dd, w = VDate y m dd) as Hw.
  { destruct v as [|q|str|y m dd]; try (injection Hv as <-; eauto); [done|].
    destruct (Calendar.parse_date str) as [w'|] eqn:Hp; [|done].
    injection Hv as <-. right. by eapply parse_date_VDate. }
  destruct (mapE _ l') as [e|out]; [done|]. injection IH as IH.
  destruct Hw as [->|(y & m & dd & ->)]; by rewrite IH.
Qed.

(** C2. With calendar_level unset, transform of a frame with a parseable
    date column returns the original columns without the date column, in
    their order, followed by five new columns: year, month, day, dayofweek
    and dayofyear.  The sixth field, weekofyear, is computed and named in
    its branch but never appended, so no weekofyear column is produced. *)
Theorem CalendarExtractor_unset_level_columns (self : CalendarExtractor.t)
    (h : heap) (x : loc) (T : table) (d d' : Series) :
  CalendarExtractor.calendar_level self = None ->
  h !! x = Some T ->
  lookup_col (CalendarExtractor.date_col self) T = Some d ->
  to_datetime d = inr d' ->
  let r := run (CalendarExtractor.transform (PyDataFrame x)) self h in
  exists (l : loc) (T' : table),
    outcome r = inr l /\ heap_after r !! l = Some T' /\
    T' = drop_cols [CalendarExtractor.date_col self] T
         ++ [("year", calendar_column (fun y _ _ => y) d');
             ("month", calendar_column (fun _ m _ => m) d');
             ("day", calendar_column (fun _ _ dd => dd) d');
             ("dayofweek", calendar_column Calendar.dayofweek d');
             ("dayofyear", calendar_column Calendar.dayofyear d')].
Proof.
  intros Hlevel Hx Hd Hd'. unfold run, CalendarExtractor.transform.
  rewrite bind_run, check_transform_off_run.
  rewrite bind_run. cbn [get_self].
  rewrite bind_run, (df_copy_run x T) by done.
  pose proof (df_alloc_lookup h T) as HX_.
  set (X_ := length h) in *. set (dc := CalendarExtractor.date_col self) in *.
  rewrite bind_run, (df_getitem_run X_ dc T), Hd by done.
  rewrite bind_run, Hd'. cbn [lift].
  rewrite bind_run, (df_setitem_run X_ dc d' T) by done.
  set (T1 := set_col dc d' T). set (h1 := <[X_ := T1]> (h ++ [T])).
  assert (h1 !! X_ = Some T1) as HX1.
  { apply list_lookup_insert_eq. by eapply lookup_lt_Some. }
  assert (lookup_col dc T1 = Some d') as Hd1 by apply lookup_col_set_col_eq.
  rewrite Hlevel.
  assert (forall f (name : string) (acc : list (string * Series)),
            (df_getitem X_ dc ≫= fun dd =>
               lift (dt_field f dd) ≫= fun col => mret (acc ++ [(name, col)]))
              self h1
            = (inr (acc ++ [(name, calendar_column f d')]), self, h1)) as Hstep.
  { intros f name acc. rewrite bind_run, (df_getitem_run X_ dc T1), Hd1 by done.
    rewrite bind_run, (dt_field_to_datetime f d d') by done. done. }
  rewrite bind_run. cbn [for_acc]. unfold CalendarExtractor.generate.
  cbn [String.eqb Ascii.eqb Bool.eqb].
  rewrite bind_run, Hstep.
  rewrite bind_run, Hstep.
  rewrite bind_run, Hstep.
  rewrite bind_run, Hstep.
  rewrite bind_run, Hstep.
  rewrite bind_run.
  rewrite bind_run, (df_getitem_run X_ dc T1), Hd1 by done.
  rewrite bind_run, (dt_field_to_datetime _ d d') by done. cbn [lift mret M_ret].
  rewrite bind_run, (df_drop_inplace_run X_ dc T1) by (by rewrite ?Hd1).
  set (h2 := <[X_ := _]> h1).
  assert (h2 !! X_ = Some (drop_cols [dc] T)) as HX2.
  { unfold h2, T1. rewrite drop_cols_set_col by (by rewrite Hd).
    apply list_lookup_insert_eq. by eapply lookup_lt_Some. }
  rewrite bind_run, (pd_concat_run X_ _ (drop_cols [dc] T)) by done.
  do 2 eexists. split_and!; [reflexivity| |reflexivity].
  cbn [heap_after snd mret M_ret]. apply df_alloc_lookup.
Qed.

Lemma CalendarExtractor_unset_level_columns_witness :
  let T := frame [("a", ints [1; 2]);
                  ("date", [VStr "2022-01-01"; VStr "2023-02-28"])] in
  let r := run (CalendarExtractor.transform (PyDataFrame 0))
               (CalendarExtractor.__init__ "date" None) [T] in
  exists (l : loc) (T' : table),
    outcome r = inr l /\ heap_after r !! l = Some T' /\
    T' = frame [("a", ints [1; 2]);
                ("year", ints [2022; 2023]);
                ("month", ints [1; 2]);
                ("day", ints [1; 28]);
                ("dayofweek", ints [5; 1]);
                ("dayofyear", ints [1; 59])].
Proof.
  intros T r.
  destruct (CalendarExtractor_unset_level_columns
              (CalendarExtractor.__init__ "date" None) [T] 0%nat T
              (mkSeries Plain [VStr "2022-01-01"; VStr "2023-02-28"])
              (mkSeries Plain [VDate 2022 1 1; VDate 2023 2 28]))
    as (l & T' & Hl & HT' & Heq); [reflexivity..|].
  exists l, T'. split_and!; [exact Hl|exact HT'|]. rewrite Heq. reflexivity.
Defined.

(* ===================================================================== *)
(** ** OutlierRemover with method "iqr" *)
(* ===================================================================== *)

Lemma filter_nothing {A} (l : list A) : filter (fun _ => false) l = [].
Proof.
  induction l as [|a l IH]; [done|].
  rewrite filter_cons_False; [exact IH|]. by intros [].
Qed.

Lemma OutlierRemover_iqr_thresholds `{Float64} (c : Series) (qs : list Q) :
  numbers (cells c) = inr qs ->
  exists b, OutlierRemover.bounds "iqr" c = inr b /\
            OutlierRemover.thresholds (fst b) (snd b) qs = iqr_targets qs.
Proof.
  intros Hqs. unfold OutlierRemover.bounds, iqr_targets, iqr_interval.
  cbn [String.eqb Ascii.eqb Bool.eqb]. cbn. rewrite Hqs. cbn.
  destruct (series_quantile (1 # 4) qs) as [q1|], (series_quantile (3 # 4) qs) as [q3|];
    eexists; (split; [reflexivity|]);
    unfold OutlierRemover.thresholds, within; cbn; try done;
    by rewrite filter_nothing.
Qed.

Section FitTargets.
Context `{Float64} (name : string) (targets : list Q -> value * value).
Hypothesis Htargets : forall c qs,
  numbers (cells c) = inr qs ->
  exists b, OutlierRemover.bounds name c = inr b /\
            OutlierRemover.thresholds (fst b) (snd b) qs = targets qs.

Lemma OutlierRemover_fit_col_targets (x : loc) (col : string) (s : OutlierRemover.t)
    (h : heap) (T : table) (c : Series) (qs : list Q) d :
  OutlierRemover.method s = name -> h !! x = Some T ->
  lookup_col col T = Some c -> numbers (cells c) = inr qs ->
  OutlierRemover.col_thresholds s = Some d ->
  OutlierRemover.fit_col x col s h
  = (inr tt, OutlierRemover.set_col_thresholds (Some (dict_set col (targets qs) d)) s, h).
Proof.
  intros Hm Hx Hc Hqs Hd. unfold OutlierRemover.fit_col.
  rewrite bind_run. cbn [get_self].
  rewrite bind_run, (df_getitem_run x col T), Hc by done.
  destruct (Htargets c qs Hqs) as (b & Hb & Hth).
  rewrite bind_run, Hm, Hb. cbn [lift].
  rewrite bind_run, Hqs. cbn [lift]. rewrite Hd, Hth. done.
Qed.

Lemma OutlierRemover_fit_loop_targets (x : loc) (h : heap) (T : table) (l : list string) :
  h !! x = Some T ->
  (forall c, c ∈ l -> exists col qs, lookup_col c T = Some col /\ numbers (cells col) = inr qs) ->
  forall s d,
    OutlierRemover.method s = name -> OutlierRemover.col_thresholds s = Some d ->
    exists d',
      for_ l (OutlierRemover.fit_col x) s h
        = (inr tt, OutlierRemover.set_col_thresholds (Some d') s, h) /\
      (forall c col qs, c ∈ l -> lookup_col c T = Some col -> numbers (cells col) = inr qs ->
                        dict_get c d' = Some (targets qs)) /\
      (forall c, c ∉ l -> dict_get c d' = dict_get c d).
Proof.
  intros Hx. induction l as [|a l IH]; intros Hnum s d Hm Hd.
  - exists d. split_and!; [|by intros c col qs Hc%elem_of_nil|done].
    cbn. destruct s. cbn in Hd. by subst.
  - destruct (Hnum a) as (col & qs & Hcol & Hqs); [left|].
    cbn [for_]. rewrite bind_run.
    rewrite (OutlierRemover_fit_col_targets x a s h T col qs d) by done.
    set (s1 := OutlierRemover.set_col_thresholds _ s).
    destruct (IH (fun c Hc => Hnum c (list_elem_of_further _ _ _ Hc)) s1
                 (dict_set a (targets qs) d)) as (d' & Hrun & Hin & Hout);
      [done..|].
    exists d'. split_and!.
    + rewrite Hrun. done.
    + intros c col' qs' Hc Hcol' Hqs'.
      destruct (decide (c ∈ l)) as [Hl|Hl]; [by eapply Hin|].
      apply elem_of_cons in Hc as [->|Hc]; [|done].
      rewrite Hout by done. rewrite Hcol in Hcol'. injection Hcol' as <-.
      rewrite Hqs in Hqs'. injection Hqs' as <-. apply dict_get_set_eq.
    + intros c [Hca Hcl]%not_elem_of_cons. rewrite Hout by done.
      by apply dict_get_set_ne.
Qed.

(** fit on numeric columns returns, and has stored the targets of every
    configured column that the frame has. *)
Lemma OutlierRemover_fit_targets (self : OutlierRemover.t) (h : heap) (x : loc) (T : table) :
  OutlierRemover.method self = name -> h !! x = Some T ->
  (forall c col, c ∈ OutlierRemover.cols_to_transform self -> lookup_col c T = Some col ->
                 exists qs, numbers (cells col) = inr qs) ->
  let r := run (OutlierRemover.fit (PyDataFrame x)) self h in
  outcome r = inr tt /\
  forall c col qs, c ∈ OutlierRemover.cols_to_transform self ->
    lookup_col c T = Some col -> numbers (cells col) = inr qs ->
    threshold_of (self_after r) c = Some (targets qs).
Proof.
  intros Hm Hx Hnum. unfold run, OutlierRemover.fit.
  rewrite bind_run. cbn [check_fill mret M_ret].
  rewrite bind_run, (df_columns_run x T) by done.
  rewrite bind_run. cbn [get_self].
  rewrite bind_run. cbn [set_self].
  rewrite bind_run. cbn [get_self].
  rewrite bind_run. cbn [set_self].
  rewrite bind_run. cbn [get_self].
  set (s1 := OutlierRemover.set_col_thresholds (Some []) _).
  change (OutlierRemover.cols_to_transform s1)
    with (filter (fun col => mem col (columns T)) (OutlierRemover.cols_to_transform self)).
  set (l := filter _ _).
  destruct (OutlierRemover_fit_loop_targets x h T l Hx) with (s := s1) (d := @nil (string * (value * value)))
    as (d' & Hrun & Hin & _); [|done..|].
  { intros c [Hc Hcols]%elem_of_filter_mem.
    destruct (lookup_col_is_Some c T Hcols) as [col Hcol].
    destruct (Hnum c col Hc Hcol) as [qs Hqs]. eauto. }
  rewrite Hrun. cbv zeta. split; [done|].
  intros c col qs Hc Hcol Hqs. unfold threshold_of. cbn.
  apply (Hin c col qs); [|done..].
  apply elem_of_filter_mem. split; [done|].
  apply has_col_elem_of. unfold has_col, columns.
  clear -Hcol. induction T as [|[n s] T IH]; cbn in *; [done|].
  destruct (String.eqb c n); [done|]. auto.
Qed.
End FitTargets.

Lemma foldl_pick_elem {A} (f : A -> A -> A) (x : A) (l : list A) :
  (forall a b, f a b = a \/ f a b = b) -> foldl f x l ∈ x :: l.
Proof.
  intros Hf. revert x. induction l as [|y l IH]; intros x; cbn; [left|].
  destruct (Hf x y) as [-> | ->].
  - specialize (IH x). apply elem_of_cons in IH as [-> | IH]; [left|right; by right].
  - right. apply IH.
Qed.

Lemma Qmin_list_elem (l : list Q) (m : Q) : Qmin_list l = Some m -> m ∈ l.
Proof.
  destruct l as [|x l]; cbn; [done|]. intros [= <-].
  apply foldl_pick_elem. intros a b. destruct (Qle_bool a b); auto.
Qed.

Lemma Qmax_list_elem (l : list Q) (m : Q) : Qmax_list l = Some m -> m ∈ l.
Proof.
  destruct l as [|x l]; cbn; [done|]. intros [= <-].
  apply foldl_pick_elem. intros a b. destruct (Qle_bool b a); auto.
Qed.

Lemma foldl_min_le (l : list Q) (x : Q) :
  let m := foldl (fun m y => if Qle_bool m y then m else y) x l in
  (m <= x)%Q /\ forall y, y ∈ l -> (m <= y)%Q.
Proof.
  revert x. induction l as [|a l IH]; intros x; cbn.
  - split; [apply Qle_refl|]. by intros y Hy%elem_of_nil.
  - destruct (Qle_bool x a) eqn:Hxa.
    + destruct (IH x) as [Hx Hl]. apply Qle_bool_iff in Hxa.
      split; [done|]. intros y [->|Hy]%elem_of_cons; [|by apply Hl].
      by eapply Qle_trans.
    + destruct (IH a) as [Ha Hl].
      assert (a <= x)%Q as Hax.
      { destruct (Qlt_le_dec a x) as [Hlt|Hle]; [by apply Qlt_le_weak|].
        apply Qle_bool_iff in Hle. congruence. }
      split; [by eapply Qle_trans|].
      intros y [->|Hy]%elem_of_cons; [done|by apply Hl].
Qed.

Lemma foldl_max_ge (l : list Q) (x : Q) :
  let m := foldl (fun m y => if Qle_bool y m then m else y) x l in
  (x <= m)%Q /\ forall y, y ∈ l -> (y <= m)%Q.
Proof.
  revert x. induction l as [|a l IH]; intros x; cbn.
  - split; [apply Qle_refl|]. by intros y Hy%elem_of_nil.
  - destruct (Qle_bool a x) eqn:Hax.
    + destruct (IH x) as [Hx Hl]. apply Qle_bool_iff in Hax.
      split; [done|]. intros y [->|Hy]%elem_of_cons; [|by apply Hl].
      by eapply Qle_trans.
    + destruct (IH a) as [Ha Hl].
      assert (x <= a)%Q as Hxa.
      { destruct (Qlt_le_dec x a) as [Hlt|Hle]; [by apply Qlt_le_weak|].
        apply Qle_bool_iff in Hle. congruence. }
      split; [by eapply Qle_trans|].
      intros y [->|Hy]%elem_of_cons; [done|by apply Hl].
Qed.

Lemma Qmin_list_le (l : list Q) (m x : Q) :
  Qmin_list l = Some m -> x ∈ l -> Qle_bool m x = true.
Proof.
  destruct l as [|a l]; cbn; [done|]. intros [= <-] Hx.
  apply Qle_bool_iff. destruct (foldl_min_le l a) as [Ha Hl].
  apply elem_of_cons in Hx as [->|Hx]; [done|by apply Hl].
Qed.

Lemma Qmax_list_ge (l : list Q) (m x : Q) :
  Qmax_list l = Some m -> x ∈ l -> Qle_bool x m = true.
Proof.
  destruct l as [|a l]; cbn; [done|]. intros [= <-] Hx.
  apply Qle_bool_iff. destruct (foldl_max_ge l a) as [Ha Hl].
  apply elem_of_cons in Hx as [->|Hx]; [done|by apply Hl].
Qed.

Lemma between_BNum (lo hi v : Q) :
  between (BNum lo) (BNum hi) v <-> (lo <= v <= hi)%Q.
Proof. unfold between. cbn. by rewrite !Qle_bool_iff. Qed.

Lemma extremes_iff (P P' : Q -> Prop) (qs : list Q) (th : value * value) :
  (forall v, P v <-> P' v) -> extremes P qs th -> extremes P' qs th.
Proof.
  intros HP [[Hnone ->]|(a & b & -> & Ha & Hb & HPa & HPb & Hall)].
  - left. split; [|done]. intros v Hv HP'. by apply (Hnone v Hv), HP.
  - right. exists a, b. split_and!; [done..|by apply HP|by apply HP|].
    intros v Hv HP'. by apply Hall, HP.
Qed.

(** The stored pair holds the least and the greatest value between the
    bounds. *)
Lemma thresholds_extremes (left_bound right_bound : bound) (qs : list Q) :
  extremes (between left_bound right_bound) qs
           (OutlierRemover.thresholds left_bound right_bound qs).
Proof.
  unfold OutlierRemover.thresholds, within. set (s := filter _ qs).
  assert (forall v, v ∈ s <-> between left_bound right_bound v /\ v ∈ qs) as Hs.
  { intros v. unfold s, between.
    rewrite list_elem_of_filter, Is_true_true, andb_true_iff. tauto. }
  destruct (Qmin_list s) as [a|] eqn:Ha, (Qmax_list s) as [b|] eqn:Hb.
  - right. exists a, b.
    pose proof (Qmin_list_elem s a Ha) as Hain. pose proof (Qmax_list_elem s b Hb) as Hbin.
    apply Hs in Hain as [? ?]. apply Hs in Hbin as [? ?].
    split_and!; [done..|]. intros v Hv Hbet.
    assert (v ∈ s) as Hvs by (by apply Hs).
    split; apply Qle_bool_iff; [by apply (Qmin_list_le s)|by apply (Qmax_list_ge s)].
  - by destruct s.
  - by destruct s.
  - left. split; [|done]. intros v Hv Hbet.
    assert (v ∈ s) as Hvs by (by apply Hs). destruct s; [|done].
    by apply elem_of_nil in Hvs.
Qed.

Lemma iqr_targets_extremes `{Float64} (qs : list Q) :
  match iqr_interval qs with
  | Some (lo, hi) => extremes (fun v => (lo <= v <= hi)%Q) qs (iqr_targets qs)
  | None => iqr_targets qs = (VNull, VNull)
  end.
Proof.
  unfold iqr_targets. destruct (iqr_interval qs) as [[lo hi]|]; [|done].
  eapply extremes_iff; [|apply thresholds_extremes].
  intros v. apply between_BNum.
Qed.

(** *** transform clips to the stored pairs *)

Lemma OutlierRemover_transform_loop (self : OutlierRemover.t) (X_ : loc) (l : list string) :
  NoDup l ->
  forall (h : heap) (T : table),
    h !! X_ = Some T ->
    (forall c, c ∈ l -> exists col th col',
        lookup_col c T = Some col /\ threshold_of self c = Some th /\
        s_clip th col = inr col') ->
    exists T',
      for_ l (fun col =>
          c ← df_getitem X_ col;
          match OutlierRemover.col_thresholds self ≫= dict_get col with
          | Some th => c' ← lift (s_clip th c); df_setitem X_ col c'
          | None => raise (KeyError col)
          end) self h
        = (inr tt, self, <[X_ := T']> h) /\
      columns T' = columns T /\
      (forall c col th col', c ∈ l -> lookup_col c T = Some col ->
          threshold_of self c = Some th -> s_clip th col = inr col' ->
          lookup_col c T' = Some col') /\
      (forall c, c ∉ l -> lookup_col c T' = lookup_col c T).
Proof.
  induction 1 as [|a l Ha Hnd IH]; intros h T Hx Hcols.
  - exists T. split_and!; [|done|by intros c col th col' Hc%elem_of_nil|done].
    cbn. by rewrite list_insert_id.
  - destruct (Hcols a) as (col & th & col' & Hcol & Hth & Hclip); [left|].
    cbn [for_]. rewrite bind_run, bind_run, (df_getitem_run X_ a T), Hcol by done.
    unfold threshold_of in Hth. rewrite Hth.
    rewrite bind_run, Hclip. cbn [lift].
    rewrite (df_setitem_run X_ a col' T) by done.
    set (T1 := set_col a col' T).
    assert (<[X_ := T1]> h !! X_ = Some T1) as Hx1.
    { apply list_lookup_insert_eq. by eapply lookup_lt_Some. }
    destruct (IH (<[X_ := T1]> h) T1 Hx1) as (T' & Hrun & Hc' & Hin & Hout).
    { intros c Hc. destruct (Hcols c) as (colc & thc & colc' & ? & ? & ?); [by right|].
      exists colc, thc, colc'. split_and!; [|done..].
      unfold T1. rewrite lookup_col_set_col_ne; [done|]. intros ->. done. }
    exists T'. split_and!.
    + rewrite Hrun. by rewrite list_insert_insert_eq.
    + rewrite Hc'. apply columns_set_col. by rewrite Hcol.
    + intros c colc thc colc' Hc Hlc Hthc Hclipc.
      apply elem_of_cons in Hc as [->|Hc].
      * rewrite Hout by done. unfold T1. rewrite lookup_col_set_col_eq.
        rewrite Hcol in Hlc. injection Hlc as <-.
        unfold threshold_of in Hthc. rewrite Hth in Hthc. injection Hthc as <-.
        congruence.
      * apply (Hin c colc thc colc'); [done| |done..].
        unfold T1. rewrite lookup_col_set_col_ne; [done|]. intros ->. done.
    + intros c [Hca Hcl]%not_elem_of_cons. rewrite Hout by done.
      unfold T1. by rewrite lookup_col_set_col_ne.
Qed.

Lemma OutlierRemover_transform_clips (self : OutlierRemover.t) (h : heap) (x : loc) (T : table) :
  h !! x = Some T ->
  truthy (OutlierRemover.col_thresholds self) = true ->
  NoDup (OutlierRemover.cols_to_transform self) ->
  (forall c, c ∈ OutlierRemover.cols_to_transform self -> exists col th col',
      lookup_col c T = Some col /\ threshold_of self c = Some th /\
      s_clip th col = inr col') ->
  let r := run (OutlierRemover.transform (PyDataFrame x)) self h in
  exists (l : loc) (T' : table),
    outcome r = inr l /\ heap_after r !! l = Some T' /\
    columns T' = columns T /\
    (forall c col th col', c ∈ OutlierRemover.cols_to_transform self ->
        lookup_col c T = Some col -> threshold_of self c = Some th ->
        s_clip th col = inr col' -> lookup_col c T' = Some col') /\
    (forall c, c ∉ OutlierRemover.cols_to_transform self ->
        lookup_col c T' = lookup_col c T).
Proof.
  intros Hx Htr Hnd Hcols. unfold run, OutlierRemover.transform.
  rewrite bind_run. cbn [get_self].
  rewrite bind_run, check_transform_run by done.
  rewrite bind_run, (df_copy_run x T) by done.
  assert ((h ++ [T]) !! length h = Some T) as HX_.
  { rewrite lookup_app_r by done. by rewrite Nat.sub_diag. }
  destruct (OutlierRemover_transform_loop self (length h) _ Hnd (h ++ [T]) T HX_ Hcols)
    as (T' & Hrun & Hc' & Hin & Hout).
  rewrite bind_run, Hrun. cbn.
  exists (length h), T'. split_and!; try done.
  apply list_lookup_insert_eq. rewrite length_app. cbn. lia.
Qed.

(** C7. With method "iqr", whatever the rounding of the floating point
    operations, fit on numeric columns returns and stores, for every
    configured column of the frame, the least and the greatest observed
    value within [[Q1 - 1.5 IQR, Q3 + 1.5 IQR]], the interval as float64
    arithmetic gives it from the quartiles of pandas: both are values of the
    column that lie in the interval (not the bounds), and every value of the
    column in the interval lies between them; two NaN when no value is in
    the interval.  transform clips every configured column to its stored
    pair and leaves the other columns alone.  In IEEE 754 double precision,
    on the column [-51, 1..99, 151] fit then transform gives
    [1, 1..99, 99], and on [2.8, 0.3, 1.7, 1.8], where rounding puts the
    lower bound just above 0.3, the stored pair is (1.7, 2.8). *)
Theorem OutlierRemover_iqr_clips_to_observed :
  (forall `{Float64} (self : OutlierRemover.t) (h : heap) (x : loc) (T : table),
     OutlierRemover.method self = "iqr" -> h !! x = Some T ->
     (forall c col, c ∈ OutlierRemover.cols_to_transform self ->
                    lookup_col c T = Some col -> exists qs, numbers (cells col) = inr qs) ->
     let r := run (OutlierRemover.fit (PyDataFrame x)) self h in
     outcome r = inr tt /\
     forall c col qs, c ∈ OutlierRemover.cols_to_transform self ->
       lookup_col c T = Some col -> numbers (cells col) = inr qs ->
       exists th, threshold_of (self_after r) c = Some th /\
         match iqr_interval qs with
         | Some (lo, hi) => extremes (fun v => (lo <= v <= hi)%Q) qs th
         | None => th = (VNull, VNull)
         end) /\
  (forall (self : OutlierRemover.t) (h : heap) (x : loc) (T : table),
     h !! x = Some T ->
     truthy (OutlierRemover.col_thresholds self) = true ->
     NoDup (OutlierRemover.cols_to_transform self) ->
     (forall c, c ∈ OutlierRemover.cols_to_transform self -> exists col th col',
         lookup_col c T = Some col /\ threshold_of self c = Some th /\
         s_clip th col = inr col') ->
     let r := run (OutlierRemover.transform (PyDataFrame x)) self h in
     exists (l : loc) (T' : table),
       outcome r = inr l /\ heap_after r !! l = Some T' /\
       columns T' = columns T /\
       (forall c col th col', c ∈ OutlierRemover.cols_to_transform self ->
           lookup_col c T = Some col -> threshold_of self c = Some th ->
           s_clip th col = inr col' -> lookup_col c T' = Some col') /\
       (forall c, c ∉ OutlierRemover.cols_to_transform self ->
           lookup_col c T' = lookup_col c T)) /\
  (let fit_transform (col : list value) :=
     run (OutlierRemover.fit (H:=Reference.float64) (PyDataFrame 0);;
          OutlierRemover.transform (PyDataFrame 0))
         (OutlierRemover.mk ["col_1"] "iqr" None) [frame [("col_1", col)]] in
   let r := fit_transform (ints ([-51] ++ range 1 100 ++ [151])) in
   let r' := fit_transform (decimals [28 # 10; 3 # 10; 17 # 10; 18 # 10]) in
   (threshold_of (self_after r) "col_1" = Some (VNum 1, VNum 99) /\
    exists l, outcome r = inr l /\
              heap_after r !! l
                = Some (frame [("col_1", ints ([1] ++ range 1 100 ++ [99]))])) /\
   (threshold_of (self_after r') "col_1"
      = Some (VNum (Binary64.round (17 # 10)), VNum (Binary64.round (28 # 10))) /\
    exists l, outcome r' = inr l /\
              heap_after r' !! l
                = Some (frame [("col_1", decimals [28 # 10; 17 # 10; 17 # 10; 18 # 10])]))).
Proof.
  split_and!.
  - intros Hf self h x T Hm Hx Hnum r.
    destruct (OutlierRemover_fit_targets "iqr" iqr_targets
                OutlierRemover_iqr_thresholds self h x T Hm Hx Hnum) as [Hr Hth].
    split; [exact Hr|]. intros c col qs Hc Hcol Hqs.
    exists (iqr_targets qs). split; [by eapply Hth|apply iqr_targets_extremes].
  - apply OutlierRemover_transform_clips.
  - vm_compute. split; (split; [reflexivity|]); eexists; split; reflexivity.
Qed.

Lemma OutlierRemover_iqr_clips_to_observed_witness :
  let col := ints [-51; 1; 2; 3; 4; 5; 6; 7; 151] in
  let T := frame [("col_1", col); ("col_2", ints [0; 0; 0; 0; 0; 0; 0; 0; 900])] in
  let self := OutlierRemover.mk ["col_1"] "iqr" None in
  let fitted := OutlierRemover.mk ["col_1"] "iqr" (Some [("col_1", (VNum 1, VNum 7))]) in
  (outcome (run (OutlierRemover.fit (H:=Reference.float64) (PyDataFrame 0)) self [T]) = inr tt /\
   self_after (run (OutlierRemover.fit (H:=Reference.float64) (PyDataFrame 0)) self [T]) = fitted) /\
  exists (l : loc) (T' : table),
    outcome (run (OutlierRemover.transform (PyDataFrame 0)) fitted [T]) = inr l /\
    heap_after (run (OutlierRemover.transform (PyDataFrame 0)) fitted [T]) !! l = Some T' /\
    lookup_col "col_1" T' = Some (mkSeries Plain (ints [1; 1; 2; 3; 4; 5; 6; 7; 7])) /\
    lookup_col "col_2" T' = lookup_col "col_2" T.
Proof.
  intros col T self fitted.
  destruct OutlierRemover_iqr_clips_to_observed as (Hfit & Htr & _).
  split.
  - destruct (Hfit Reference.float64 self [T] 0%nat T) as [Hr _]; [reflexivity..| |].
    + intros c s Hc%list_elem_of_In. cbn in Hc. destruct Hc as [<-|[]].
      intros [= <-]. eexists. vm_compute. reflexivity.
    + split; [exact Hr|reflexivity].
  - destruct (Htr fitted [T] 0%nat T) as (l & T' & Hl & HT' & _ & Hin & Hout).
    + reflexivity.
    + reflexivity.
    + apply NoDup_cons. split; [by intros ?%elem_of_nil|apply NoDup_nil; done].
    + intros c Hc%list_elem_of_In. cbn in Hc. destruct Hc as [<-|[]].
      do 3 eexists. split_and!; [reflexivity|reflexivity|vm_compute; reflexivity].
    + exists l, T'. split_and!; [exact Hl|exact HT'| |].
      * eapply Hin; [|reflexivity|reflexivity|vm_compute; reflexivity].
        apply list_elem_of_In. cbn. tauto.
      * apply Hout. intros Hc%list_elem_of_In. cbn in Hc.
        destruct Hc as [Hc|[]]. discriminate Hc.
Defined.

(* ===================================================================== *)
(** ** OutlierRemover with method "skip" *)
(* ===================================================================== *)

Lemma filter_everything {A} (P : A -> bool) (l : list A) :
  (forall x, x ∈ l -> P x = true) -> filter P l = l.
Proof.
  induction l as [|a l IH]; intros HP; [done|].
  rewrite filter_cons_True by (apply Is_true_true, HP; left).
  f_equal. apply IH. intros x Hx. apply HP. by right.
Qed.

Lemma OutlierRemover_skip_thresholds `{Float64} (c : Series) (qs : list Q) :
  numbers (cells c) = inr qs ->
  exists b, OutlierRemover.bounds "skip" c = inr b /\
            OutlierRemover.thresholds (fst b) (snd b) qs = skip_targets qs.
Proof.
  intros Hqs. unfold OutlierRemover.bounds. cbn [String.eqb Ascii.eqb].
  cbn. rewrite Hqs. cbn.
  destruct (Qmin_list qs) as [lo|] eqn:Hlo, (Qmax_list qs) as [hi|] eqn:Hhi;
    eexists; (split; [reflexivity|]); try (by destruct qs).
  unfold OutlierRemover.thresholds, within, skip_targets. cbn [fst snd bound_le le_bound].
  rewrite filter_everything; [by rewrite Hlo, Hhi|].
  intros x Hx. by rewrite (Qmin_list_le qs lo x), (Qmax_list_ge qs hi x).
Qed.

Lemma numbers_inr (l : list value) (qs : list Q) :
  numbers l = inr qs ->
  forall v, v ∈ l -> v = VNull \/ exists x, v = VNum x /\ x ∈ qs.
Proof.
  revert qs. induction l as [|a l IH]; intros qs; cbn.
  - by intros _ v Hv%elem_of_nil.
  - destruct a as [|q| |]; try done.
    + intros Hl v [->|Hv]%elem_of_cons; [by left|by eapply IH].
    + destruct (numbers l) as [|qs']; [done|]. intros [= <-].
      intros v [->|Hv]%elem_of_cons.
      * right. exists q. split; [done|left].
      * destruct (IH qs' eq_refl v Hv) as [->|(x & -> & Hx)]; [by left|].
        right. exists x. split; [done|by right].
Qed.

Lemma mapE_id {A} (f : A -> exn + A) (l : list A) :
  (forall a, a ∈ l -> f a = inr a) -> mapE f l = inr l.
Proof.
  induction l as [|a l IH]; intros Hf; cbn; [done|].
  rewrite (Hf a) by left. rewrite IH; [done|]. intros b Hb. apply Hf. by right.
Qed.

(** Clipping a column to its own least and greatest value changes nothing. *)
Lemma s_clip_skip_targets (col : Series) (qs : list Q) :
  numbers (cells col) = inr qs -> s_clip (skip_targets qs) col = inr col.
Proof.
  intros Hqs. unfold s_clip. rewrite mapE_id; [by destruct col|].
  intros v Hv. destruct (numbers_inr _ _ Hqs v Hv) as [->|(x & -> & Hx)]; [done|].
  unfold skip_targets. cbn [fst snd clip_value].
  destruct (Qmin_list qs) as [lo|] eqn:Hlo, (Qmax_list qs) as [hi|] eqn:Hhi; cbn;
    rewrite ?(Qmin_list_le qs lo x), ?(Qmax_list_ge qs hi x) by done; done.
Qed.

(** C6. With method "skip", fit on numeric columns stores for every
    configured column the least and the greatest value of the fitting
    frame, and transform of the fitting frame itself returns every column
    unchanged.  A later frame is clipped to the stored pair all the same:
    fitted on the column [1, 2, 3], transform of [10, -5, 2] gives
    [3, 1, 2]. *)
Theorem OutlierRemover_skip_clips_later_table `{Float64} :
  (forall (self : OutlierRemover.t) (h : heap) (x : loc) (T : table),
     OutlierRemover.method self = "skip" -> h !! x = Some T ->
     NoDup (OutlierRemover.cols_to_transform self) ->
     (exists c, c ∈ OutlierRemover.cols_to_transform self /\ c ∈ columns T) ->
     (forall c col, c ∈ OutlierRemover.cols_to_transform self ->
                    lookup_col c T = Some col -> exists qs, numbers (cells col) = inr qs) ->
     let r := run (OutlierRemover.fit (PyDataFrame x)) self h in
     outcome r = inr tt /\
     (forall c col qs, c ∈ OutlierRemover.cols_to_transform self ->
        lookup_col c T = Some col -> numbers (cells col) = inr qs ->
        threshold_of (self_after r) c = Some (skip_targets qs)) /\
     let r' := run (OutlierRemover.transform (PyDataFrame x))
                   (self_after r) (heap_after r) in
     exists (l : loc) (T' : table),
       outcome r' = inr l /\ heap_after r' !! l = Some T' /\
       columns T' = columns T /\ forall c, lookup_col c T' = lookup_col c T) /\
  (let T1 := frame [("a", ints [1; 2; 3])] in
   let T2 := frame [("a", ints [10; -5; 2])] in
   let self := OutlierRemover.mk ["a"] "skip" None in
   let r := run (OutlierRemover.fit (PyDataFrame 0);;
                 OutlierRemover.transform (PyDataFrame 1)) self [T1; T2] in
   threshold_of (self_after r) "a" = Some (VNum 1, VNum 3) /\
   exists l, outcome r = inr l /\
             heap_after r !! l = Some (frame [("a", ints [3; 1; 2])])).
Proof.
  split; [|split; [reflexivity|]; eexists; split; reflexivity].
  intros self h x T Hm Hx Hnd (c0 & Hc0 & Hc0T) Hnum r.
  destruct (OutlierRemover_fit_targets "skip" skip_targets
              OutlierRemover_skip_thresholds self h x T Hm Hx Hnum) as [Hr Hth].
  destruct (OutlierRemover_fit_spec self h x T Hx) as (Hh & Hcols & _ & _).
  fold r in Hr, Hth, Hh, Hcols.
  split; [exact Hr|]. split; [exact Hth|]. rewrite Hh.
  set (self' := self_after r) in *.
  assert (forall c, c ∈ OutlierRemover.cols_to_transform self' ->
            exists col qs, lookup_col c T = Some col /\ numbers (cells col) = inr qs /\
                           threshold_of self' c = Some (skip_targets qs)) as Hall.
  { intros c Hc. rewrite Hcols in Hc. apply elem_of_filter_mem in Hc as [Hc HcT].
    destruct (lookup_col_is_Some c T HcT) as [col Hcol].
    destruct (Hnum c col Hc Hcol) as [qs Hqs].
    exists col, qs. split_and!; [done..|]. by eapply Hth. }
  destruct (OutlierRemover_transform_clips self' h x T Hx) as (l & T' & Hl & HT' & Hc & Hin & Hout).
  - assert (c0 ∈ OutlierRemover.cols_to_transform self') as Hc0'
      by (rewrite Hcols; by apply elem_of_filter_mem).
    destruct (Hall c0 Hc0') as (col & qs & _ & _ & Ht).
    unfold threshold_of in Ht.
    destruct (OutlierRemover.col_thresholds self') as [[|p d]|]; done.
  - rewrite Hcols. by apply NoDup_filter.
  - intros c Hc. destruct (Hall c Hc) as (col & qs & Hcol & Hqs & Ht).
    exists col, (skip_targets qs), col. split_and!; [done..|].
    by apply s_clip_skip_targets.
  - exists l, T'. split_and!; [done..|].
    intros c. destruct (decide (c ∈ OutlierRemover.cols_to_transform self')) as [Hc'|Hc'];
      [|by apply Hout].
    destruct (Hall c Hc') as (col & qs & Hcol & Hqs & Ht).
    rewrite Hcol. eapply Hin; [done..|]. by apply s_clip_skip_targets.
Qed.

Lemma OutlierRemover_skip_clips_later_table_witness :
  let T := frame [("a", ints [1; 2; 3]); ("b", [VStr "x"; VStr "y"; VStr "z"])] in
  let self := OutlierRemover.mk ["a"; "c"] "skip" None in
  let r := run (OutlierRemover.fit (H:=Reference.float64) (PyDataFrame 0)) self [T] in
  outcome r = inr tt /\
  threshold_of (self_after r) "a" = Some (VNum 1, VNum 3) /\
  exists (l : loc) (T' : table),
    outcome (run (OutlierRemover.transform (PyDataFrame 0)) (self_after r) (heap_after r))
      = inr l /\
    heap_after (run (OutlierRemover.transform (PyDataFrame 0)) (self_after r) (heap_after r))
      !! l = Some T' /\
    lookup_col "a" T' = lookup_col "a" T.
Proof.
  intros T self r.
  destruct (proj1 (OutlierRemover_skip_clips_later_table (H:=Reference.float64)) self [T] 0%nat T)
    as (Hr & Hth & l & T' & Hl & HT' & _ & Hsame).
  - reflexivity.
  - reflexivity.
  - apply NoDup_cons. split.
    + intros Hin%list_elem_of_In. cbn in Hin. destruct Hin as [Hin|[]]. discriminate Hin.
    + apply NoDup_cons. split; [by intros ?%elem_of_nil|apply NoDup_nil; done].
  - exists "a". split; apply list_elem_of_In; cbn; tauto.
  - intros c col Hc%list_elem_of_In. cbn in Hc.
    destruct Hc as [<-|[<-|[]]]; intros [= <-]. eexists. vm_compute. reflexivity.
  - split; [exact Hr|]. split.
    + apply (Hth "a" (mkSeries Plain (ints [1; 2; 3])) (map inject_Z [1; 2; 3]));
        [apply list_elem_of_In; cbn; tauto|reflexivity|reflexivity].
    + exists l, T'. split_and!; [exact Hl|exact HT'|apply Hsame].
Defined.

(* ===================================================================== *)
(** ** Further properties: the input check *)
(* ===================================================================== *)

(** X1. An input that is not a DataFrame is rejected by every fit (but
    CalendarExtractor.fit, which accepts anything and does nothing) and by
    every transform with the same validation error, before the Not-Fitted
    test, and with the instance and the heap left as they were. *)
Theorem non_frame_input_rejected `{Sklearn} `{Float64} (X : pyval) :
  (forall x, X <> PyDataFrame x) ->
  (rejects (NoInfoFeatureRemover.fit X) not_a_frame /\
   rejects (OutlierRemover.fit X) not_a_frame /\
   rejects (WithAnotherColumnImputer.fit X) not_a_frame /\
   rejects (CatCaster.fit X) not_a_frame /\
   rejects (FeaturesOrder.fit X) not_a_frame /\
   rejects (ScalerPicker.fit X) not_a_frame /\
   rejects (SimpleImputerPicker.fit X) not_a_frame) /\
  (rejects (CalendarExtractor.transform X) not_a_frame /\
   rejects (NoInfoFeatureRemover.transform X) not_a_frame /\
   rejects (OutlierRemover.transform X) not_a_frame /\
   rejects (WithAnotherColumnImputer.transform X) not_a_frame /\
   rejects (CatCaster.transform X) not_a_frame /\
   rejects (FeaturesOrder.transform X) not_a_frame /\
   rejects (ScalerPicker.transform X) not_a_frame /\
   rejects (SimpleImputerPicker.transform X) not_a_frame) /\
  forall self h, run (CalendarExtractor.fit X) self h = (inr tt, self, h).
Proof.
  intros HX. destruct X as [x| |]; [by destruct (HX x)|..];
    (split_and!; intros self h; reflexivity).
Qed.

Lemma non_frame_input_rejected_witness :
  rejects (OutlierRemover.transform (PyStr "wrong_type")) not_a_frame /\
  rejects (NoInfoFeatureRemover.fit (PyStr "wrong_type")) not_a_frame.
Proof.
  destruct (@non_frame_input_rejected Reference.sklearn Reference.float64 (PyStr "wrong_type"))
    as ((Hfit & _) & (_ & _ & Htr & _) & _); [discriminate|].
  split; [exact Htr|exact Hfit].
Defined.

(* ===================================================================== *)
(** ** Further properties: fit and the heap *)
(* ===================================================================== *)

Section Keeps.
Context {S : Type} (I : heap -> Prop).

Lemma keeps_readonly {A} (m : M S A) : readonly m -> keeps I m.
Proof. intros Hm s h Hh. unfold run. by destruct (Hm s h) as [r ->]. Qed.

Lemma keeps_ret {A} (a : A) : keeps (S:=S) I (mret a).
Proof. by intros s h. Qed.

Lemma keeps_raise {A} (e : exn) : keeps (S:=S) (A:=A) I (raise e).
Proof. by intros s h. Qed.

Lemma keeps_lift {A} (r : exn + A) : keeps (S:=S) I (lift r).
Proof. by intros s h. Qed.

Lemma keeps_sk {A} (r : string + A) : keeps (S:=S) I (sk r).
Proof. apply keeps_readonly, readonly_sk. Qed.

Lemma keeps_get_self : keeps (S:=S) I get_self.
Proof. by intros s h. Qed.

Lemma keeps_set_self (s' : S) : keeps I (set_self s').
Proof. by intros s h. Qed.

Lemma keeps_bind {A B} (m : M S A) (f : A -> M S B) :
  keeps I m -> (forall a, keeps I (f a)) -> keeps I (m ≫= f).
Proof.
  intros Hm Hf s h Hh. specialize (Hm s h Hh). unfold run, heap_after in *.
  rewrite bind_run. destruct (m s h) as [[[e|a] s'] h']; [done|].
  by apply Hf.
Qed.

Lemma keeps_for {A} (l : list A) (body : A -> M S unit) :
  (forall a, keeps I (body a)) -> keeps I (for_ l body).
Proof.
  intros Hb. induction l as [|a l IH]; cbn [for_]; [apply keeps_ret|].
  apply keeps_bind; [apply Hb|]. intros _. exact IH.
Qed.

Lemma keeps_for_acc {A B} (l : list A) (acc : B) (body : B -> A -> M S B) :
  (forall b a, keeps I (body b a)) -> keeps I (for_acc l acc body).
Proof.
  intros Hb. revert acc. induction l as [|a l IH]; intros acc; cbn [for_acc];
    [apply keeps_ret|].
  apply keeps_bind; [apply Hb|]. intros b. apply IH.
Qed.

Lemma keeps_df_read (x : loc) : keeps (S:=S) I (df_read x).
Proof. apply keeps_readonly, readonly_df_read. Qed.

Lemma keeps_df_columns (x : loc) : keeps (S:=S) I (df_columns x).
Proof. apply keeps_readonly, readonly_df_columns. Qed.

Lemma keeps_df_getitem (x : loc) (c : string) : keeps (S:=S) I (df_getitem x c).
Proof. apply keeps_readonly, readonly_df_getitem. Qed.

Lemma keeps_df_select (x : loc) (cs : list string) : keeps (S:=S) I (df_select x cs).
Proof. apply keeps_readonly, readonly_df_select. Qed.

Lemma keeps_check_fill (X : pyval) : keeps (S:=S) I (check_fill X).
Proof. destruct X; [apply keeps_ret|apply keeps_raise..]. Qed.

Lemma keeps_check_transform {A} `{Truthy A} (X : pyval) (item : A)
    (name : string) (is_check_fill : bool) :
  keeps (S:=S) I (check_transform X item name is_check_fill).
Proof.
  unfold check_transform. apply keeps_bind; [apply keeps_check_fill|]. intros x.
  destruct (_ && _); [apply keeps_raise|apply keeps_ret].
Qed.

Lemma keeps_df_setitem (x : loc) (c : string) (col : Series) :
  (forall h T, I h -> h !! x = Some T -> I (<[x := set_col c col T]> h)) ->
  keeps (S:=S) I (df_setitem x c col).
Proof.
  intros Hw s h Hh. unfold run, df_setitem, heap_after. rewrite bind_run.
  unfold df_read. destruct (h !! x) as [T|] eqn:Hx; [|done]. cbn. by apply Hw.
Qed.
End Keeps.

Ltac keeps_op :=
  first
    [ apply keeps_get_self | apply keeps_set_self | apply keeps_sk
    | apply keeps_lift | apply keeps_df_columns | apply keeps_df_getitem
    | apply keeps_df_select | apply keeps_df_read
    | apply keeps_check_fill | apply keeps_check_transform ].

Ltac keeps_go :=
  repeat match goal with
    | |- keeps _ (mret _) => apply keeps_ret
    | |- keeps _ (raise _) => apply keeps_raise
    | |- keeps _ (_ ≫= _) => apply keeps_bind; [|intros]
    | |- keeps _ (for_ _ _) => apply keeps_for; intros
    | |- keeps _ (for_acc _ _ _) => apply keeps_for_acc; intros
    | |- keeps _ (match ?x with _ => _ end) => destruct x
    | |- keeps _ _ => keeps_op
    end.

(** X2. fit reads its input and writes only to the instance: whatever the
    input and whether fit returns or raises, the heap of frames is exactly
    the one before the call. *)
Theorem fit_leaves_frames_alone `{Sklearn} `{Float64} (X : pyval) (h : heap) :
  (forall self, heap_after (run (CalendarExtractor.fit X) self h) = h) /\
  (forall self, heap_after (run (NoInfoFeatureRemover.fit X) self h) = h) /\
  (forall self, heap_after (run (OutlierRemover.fit X) self h) = h) /\
  (forall self, heap_after (run (WithAnotherColumnImputer.fit X) self h) = h) /\
  (forall self, heap_after (run (CatCaster.fit X) self h) = h) /\
  (forall self, heap_after (run (FeaturesOrder.fit X) self h) = h) /\
  (forall self, heap_after (run (ScalerPicker.fit X) self h) = h) /\
  (forall self, heap_after (run (SimpleImputerPicker.fit X) self h) = h).
Proof.
  split_and!; intros self;
    match goal with
    | |- heap_after (run ?m _ _) = _ =>
        assert (keeps (fun h' => h' = h) m) as Hk; [|by apply Hk]
    end.
  - apply keeps_ret.
  - unfold NoInfoFeatureRemover.fit, NoInfoFeatureRemover.append_col. keeps_go.
  - unfold OutlierRemover.fit, OutlierRemover.fit_col. keeps_go.
  - unfold WithAnotherColumnImputer.fit. keeps_go.
  - unfold CatCaster.fit. keeps_go.
  - unfold FeaturesOrder.fit. keeps_go.
  - unfold ScalerPicker.fit, ScalerPicker._get_scaler_class. keeps_go.
  - unfold SimpleImputerPicker.fit, SimpleImputerPicker.fit_strategy,
      SimpleImputerPicker.present_cols, SimpleImputerPicker.imputer_setitem.
    keeps_go.
Qed.

(* ===================================================================== *)
(** ** Further properties: NoInfoFeatureRemover *)
(* ===================================================================== *)

Lemma NoInfoFeatureRemover_append_col_run (c : string) (acc except : list string)
    (verbose : bool) (h : heap) :
  NoInfoFeatureRemover.append_col c (NoInfoFeatureRemover.mk (Some acc) except verbose) h
  = (inr tt, NoInfoFeatureRemover.mk (Some (acc ++ [c])) except verbose, h).
Proof. reflexivity. Qed.

Lemma NoInfoFeatureRemover_fit_loop_marks (self : NoInfoFeatureRemover.t)
    (h : heap) (x : loc) (T : table) (cols acc : list string) :
  h !! x = Some T ->
  (forall c, c ∈ cols -> c ∈ columns T) ->
  for_ cols (fun col =>
      s ← df_getitem x col;
      self ← get_self;
      if (nunique s <=? 1) && negb (mem col (NoInfoFeatureRemover.cols_to_except self))
      then NoInfoFeatureRemover.append_col col else mret tt)
    (NoInfoFeatureRemover.set_cols_to_remove (Some acc) self) h
  = (inr tt,
     NoInfoFeatureRemover.set_cols_to_remove
       (Some (acc ++ filter (no_info (NoInfoFeatureRemover.cols_to_except self) T) cols))
       self,
     h).
Proof.
  intros Hx. unfold NoInfoFeatureRemover.set_cols_to_remove.
  revert acc. induction cols as [|c cols IH]; intros acc Hcols.
  - cbn. by rewrite app_nil_r.
  - cbn [for_]. rewrite bind_run, bind_run, (df_getitem_run x c T) by done.
    destruct (lookup_col_is_Some c T) as [col Hcol]; [apply Hcols; left|].
    rewrite Hcol. cbn [get_self]. rewrite bind_run. cbn [get_self].
    cbn [NoInfoFeatureRemover.cols_to_except].
    assert (no_info (NoInfoFeatureRemover.cols_to_except self) T c
            = (nunique col <=? 1)
              && negb (mem c (NoInfoFeatureRemover.cols_to_except self))) as Hni
      by (unfold no_info; by rewrite Hcol).
    destruct ((nunique col <=? 1) && _) eqn:Hno.
    + rewrite filter_cons_True by (by rewrite Hni).
      rewrite NoInfoFeatureRemover_append_col_run.
      rewrite (IH (acc ++ [c])) by (intros c' Hc'; apply Hcols; by right).
      by rewrite <- app_assoc.
    + rewrite filter_cons_False by (rewrite Hni; by intros []). cbn [mret M_ret].
      apply IH. intros c' Hc'. apply Hcols. by right.
Qed.

(** X3. NoInfoFeatureRemover.fit on a frame always returns, and marks
    exactly the columns of the frame that have at most one distinct
    non-null value and are not exempted, in the order of the frame.  What
    an earlier fit had marked is forgotten; the exemptions are kept. *)
Theorem NoInfoFeatureRemover_fit_marks (self : NoInfoFeatureRemover.t)
    (h : heap) (x : loc) (T : table) :
  h !! x = Some T ->
  let marked := filter (no_info (NoInfoFeatureRemover.cols_to_except self) T) (columns T) in
  run (NoInfoFeatureRemover.fit (PyDataFrame x)) self h
    = (inr tt, NoInfoFeatureRemover.set_cols_to_remove (Some marked) self, h) /\
  forall c, c ∈ marked <->
    exists col, lookup_col c T = Some col /\ nunique col <= 1 /\
                mem c (NoInfoFeatureRemover.cols_to_except self) = false.
Proof.
  intros Hx marked. split.
  - unfold run, NoInfoFeatureRemover.fit.
    rewrite bind_run. cbn [check_fill mret M_ret].
    rewrite bind_run. cbn [get_self].
    rewrite bind_run. cbn [set_self].
    rewrite bind_run, (df_columns_run x T) by done.
    rewrite bind_run.
    by rewrite (NoInfoFeatureRemover_fit_loop_marks self h x T (columns T) []).
  - intros c. unfold marked. rewrite list_elem_of_filter, Is_true_true. unfold no_info.
    split.
    + intros [Hno Hc]. destruct (lookup_col c T) as [col|]; [|done].
      apply andb_true_iff in Hno as [Hn He]. exists col.
      split_and!; [done|lia|by destruct (mem c _)].
    + intros (col & Hcol & Hn & He). rewrite Hcol, He. split.
      * apply andb_true_iff. split; [lia|done].
      * apply has_col_elem_of, lookup_col_has_col. by rewrite Hcol.
Qed.

Lemma NoInfoFeatureRemover_fit_marks_witness :
  let T := frame [("col_1", ints [1; 2]); ("no_info_1", ints [1; 1]);
                  ("no_info_2", ints [2; 2])] in
  let self := NoInfoFeatureRemover.__init__ (Some ["no_info_1"]) false in
  run (NoInfoFeatureRemover.fit (PyDataFrame 0)) self [T]
    = (inr tt, NoInfoFeatureRemover.set_cols_to_remove (Some ["no_info_2"]) self, [T]).
Proof.
  intros T self.
  apply (proj1 (NoInfoFeatureRemover_fit_marks self [T] 0%nat T eq_refl)).
Defined.

Lemma missing_col_None (cs : list string) (T : table) :
  missing_col cs T = None <-> forall c, c ∈ cs -> c ∈ columns T.
Proof.
  unfold missing_col. induction cs as [|c cs IH]; cbn.
  - split; [by intros _ c Hc%elem_of_nil|done].
  - destruct (has_col c T) eqn:Hc; cbn.
    + rewrite IH. apply has_col_elem_of in Hc. split.
      * intros Hcs c' [->|Hc']%elem_of_cons; auto.
      * intros Hcs c' Hc'. apply Hcs. by right.
    + split; [done|]. intros Hcs. exfalso.
      assert (has_col c T = true) by (apply has_col_elem_of, Hcs; left). congruence.
Qed.

Lemma missing_col_Some (cs : list string) (T : table) (c : string) :
  missing_col cs T = Some c -> c ∈ cs /\ c ∉ columns T.
Proof.
  unfold missing_col. induction cs as [|c' cs IH]; cbn; [done|].
  destruct (has_col c' T) eqn:Hc; cbn.
  - intros [Hin Hout]%IH. split; [by right|done].
  - intros [= <-]. split; [left|]. rewrite <- has_col_elem_of. congruence.
Qed.

Lemma df_drop_run {S} (x : loc) (cs : list string) (T : table) (s : S) (h : heap) :
  h !! x = Some T ->
  df_drop x cs s h =
  match missing_col cs T with
  | Some c => (inl (KeyError c), s, h)
  | None => (inr (length h), s, h ++ [drop_cols cs T])
  end.
Proof.
  intros Hx. unfold df_drop. rewrite bind_run, (df_read_run x T) by done.
  by destruct (missing_col cs T).
Qed.

(** X4. On an instance that has marked at least one column, transform
    returns a new frame that is the input without the marked columns, the
    other columns as they were and in their order; when a marked column is
    absent from the input it raises KeyError for a marked column that the
    input lacks. *)
Theorem NoInfoFeatureRemover_transform_drops (self : NoInfoFeatureRemover.t)
    (h : heap) (x : loc) (T : table) (c0 : string) (cols : list string) :
  h !! x = Some T ->
  NoInfoFeatureRemover.cols_to_remove self = Some (c0 :: cols) ->
  let r := run (NoInfoFeatureRemover.transform (PyDataFrame x)) self h in
  ((forall c, c ∈ c0 :: cols -> c ∈ columns T) ->
   r = (inr (length h), self, h ++ [drop_cols (c0 :: cols) T])) /\
  (~ (forall c, c ∈ c0 :: cols -> c ∈ columns T) ->
   exists c, c ∈ c0 :: cols /\ (c ∉ columns T) /\ r = (inl (KeyError c), self, h)).
Proof.
  intros Hx Hcols r.
  assert (r = match missing_col (c0 :: cols) T with
              | Some c => (inl (KeyError c), self, h)
              | None => (inr (length h), self, h ++ [drop_cols (c0 :: cols) T])
              end) as Hr.
  { unfold r, run, NoInfoFeatureRemover.transform.
    rewrite bind_run. cbn [get_self].
    rewrite bind_run, check_transform_run by (by rewrite Hcols).
    rewrite Hcols, bind_run, (df_drop_run x _ T) by done.
    by destruct (missing_col (c0 :: cols) T). }
  split_and!.
  - intros Hall. apply missing_col_None in Hall. by rewrite Hr, Hall.
  - intros Hnot. destruct (missing_col (c0 :: cols) T) as [c|] eqn:Hm.
    + exists c. apply missing_col_Some in Hm as [? ?]. done.
    + destruct Hnot. by apply missing_col_None.
Qed.

Lemma NoInfoFeatureRemover_transform_drops_witness :
  let T := frame [("col_1", ints [1; 2]); ("no_info_1", ints [1; 1]);
                  ("no_info_2", ints [2; 2])] in
  let self := NoInfoFeatureRemover.mk (Some ["no_info_1"; "no_info_2"]) [] false in
  run (NoInfoFeatureRemover.transform (PyDataFrame 0)) self [T]
    = (inr 1%nat, self, [T; frame [("col_1", ints [1; 2])]]) /\
  exists c, c ∈ ["no_info_1"; "no_info_2"] /\
    (c ∉ columns (frame [("col_1", ints [1; 2])])) /\
    run (NoInfoFeatureRemover.transform (PyDataFrame 0)) self [frame [("col_1", ints [1; 2])]]
      = (inl (KeyError c), self, [frame [("col_1", ints [1; 2])]]).
Proof.
  intros T self. split.
  - apply (proj1 (NoInfoFeatureRemover_transform_drops self [T] 0%nat T
                    "no_info_1" ["no_info_2"] eq_refl eq_refl)).
    intros c Hc%list_elem_of_In. apply list_elem_of_In. cbn in *. tauto.
  - apply (proj2 (NoInfoFeatureRemover_transform_drops self
                    [frame [("col_1", ints [1; 2])]] 0%nat _
                    "no_info_1" ["no_info_2"] eq_refl eq_refl)).
    intros Hall. specialize (Hall "no_info_1" ltac:(left)).
    apply list_elem_of_In in Hall. cbn in Hall. destruct Hall as [Hall|[]]. discriminate Hall.
Defined.

Lemma columns_drop_cols (cs : list string) (T : table) (c : string) :
  c ∈ columns (drop_cols cs T) <-> c ∈ columns T /\ c ∉ cs.
Proof.
  unfold columns, drop_cols. rewrite !list_elem_of_fmap. split.
  - intros ([n col] & -> & [Hm Hin]%list_elem_of_filter). cbn in *. split.
    + by exists (n, col).
    + intros Hc%mem_elem_of. rewrite Hc in Hm. done.
  - intros [([n col] & -> & Hin) Hc]. exists (n, col). split; [done|].
    apply list_elem_of_filter. split; [|done]. cbn.
    destruct (mem n cs) eqn:Hm; [|done]. by apply mem_elem_of in Hm.
Qed.

(** X5. fit followed by transform on the same frame, when at least one
    column is marked: the result is the frame without the marked columns,
    and a column name is kept exactly when it is exempted or its column has
    at least two distinct non-null values.  No KeyError can occur. *)
Theorem NoInfoFeatureRemover_fit_transform (self : NoInfoFeatureRemover.t)
    (h : heap) (x : loc) (T : table) :
  h !! x = Some T ->
  let marked := filter (no_info (NoInfoFeatureRemover.cols_to_except self) T) (columns T) in
  marked <> [] ->
  run (NoInfoFeatureRemover.fit (PyDataFrame x);;
       NoInfoFeatureRemover.transform (PyDataFrame x)) self h
    = (inr (length h), NoInfoFeatureRemover.set_cols_to_remove (Some marked) self,
       h ++ [drop_cols marked T]) /\
  forall c, c ∈ columns (drop_cols marked T) <->
            c ∈ columns T /\
            no_info (NoInfoFeatureRemover.cols_to_except self) T c = false.
Proof.
  intros Hx marked Hne. split.
  - destruct (NoInfoFeatureRemover_fit_marks self h x T Hx) as [Hfit _].
    fold marked in Hfit. unfold run in *. rewrite bind_run, Hfit.
    destruct marked as [|c0 cols] eqn:Hm; [done|].
    apply (proj1 (NoInfoFeatureRemover_transform_drops
                    (NoInfoFeatureRemover.set_cols_to_remove (Some (c0 :: cols)) self)
                    h x T c0 cols Hx eq_refl)).
    intros c Hc. rewrite <- Hm in Hc. unfold marked in Hc.
    by apply list_elem_of_filter in Hc as [_ ?].
  - intros c. rewrite columns_drop_cols. unfold marked.
    rewrite list_elem_of_filter, Is_true_true.
    destruct (no_info _ T c); split.
    + intros [? Hn]. destruct Hn. done.
    + by intros [? ?].
    + intros [? ?]. done.
    + intros [? ?]. split; [done|]. by intros [? ?].
Qed.

Lemma NoInfoFeatureRemover_fit_transform_witness :
  let T := frame [("col_1", ints [1; 2]); ("no_info_1", ints [1; 1]);
                  ("no_info_2", ints [2; 2])] in
  let self := NoInfoFeatureRemover.__init__ (Some ["no_info_1"]) false in
  run (NoInfoFeatureRemover.fit (PyDataFrame 0);;
       NoInfoFeatureRemover.transform (PyDataFrame 0)) self [T]
    = (inr 1%nat, NoInfoFeatureRemover.set_cols_to_remove (Some ["no_info_2"]) self,
       [T; frame [("col_1", ints [1; 2]); ("no_info_1", ints [1; 1])]]).
Proof.
  intros T self.
  apply (proj1 (NoInfoFeatureRemover_fit_transform self [T] 0%nat T eq_refl
                  ltac:(discriminate))).
Defined.

(* ===================================================================== *)
(** ** Further properties: FeaturesOrder *)
(* ===================================================================== *)

Lemma elem_of_final_order (requested cols : list string) (c : string) :
  c ∈ final_order requested cols <-> c ∈ cols.
Proof.
  unfold final_order. rewrite elem_of_app, elem_of_filter_mem.
  rewrite list_elem_of_filter, Is_true_true, negb_true_iff.
  destruct (mem c (filter (fun col => mem col cols) requested)) eqn:Hm.
  - apply mem_elem_of, elem_of_filter_mem in Hm. split; [|tauto].
    intros [[? ?]|[? ?]]; done.
  - split; [intros [[? ?]|[? ?]]; done|]. intros Hc. right. done.
Qed.

Lemma NoDup_final_order (requested cols : list string) :
  NoDup requested -> NoDup cols -> NoDup (final_order requested cols).
Proof.
  intros Hr Hc. unfold final_order. apply NoDup_app. split_and!.
  - by apply NoDup_filter.
  - intros c Hp [Hm _]%list_elem_of_filter.
    apply Is_true_true, negb_true_iff in Hm.
    apply mem_elem_of in Hp. congruence.
  - by apply NoDup_filter.
Qed.

Lemma filter_ext_elem {A} (P Q : A -> bool) (l : list A) :
  (forall a, a ∈ l -> P a = Q a) -> filter P l = filter Q l.
Proof.
  induction l as [|a l IH]; intros Hext; [done|].
  rewrite !filter_cons, (Hext a) by left.
  rewrite IH by (intros b Hb; apply Hext; by right). done.
Qed.

(** X6. FeaturesOrder.fit on a frame always returns and learns: the
    requested names that are columns of the frame, in the requested order,
    followed by the columns of the frame that were not requested, in frame
    order.  The learned order has exactly the columns of the frame; when
    neither the request nor the frame repeats a name it is a permutation of
    the frame's columns.  The request itself is kept, and what an earlier
    fit had learned plays no part. *)
Theorem FeaturesOrder_fit_order (self : FeaturesOrder.t) (h : heap) (x : loc) (T : table) :
  h !! x = Some T ->
  let learned := final_order (FeaturesOrder.features_order self) (columns T) in
  run (FeaturesOrder.fit (PyDataFrame x)) self h
    = (inr tt, FeaturesOrder.mk (FeaturesOrder.features_order self) (Some learned), h) /\
  learned = filter (fun col => mem col (columns T)) (FeaturesOrder.features_order self)
            ++ filter (fun col => negb (mem col (FeaturesOrder.features_order self)))
                      (columns T) /\
  (forall c, c ∈ learned <-> c ∈ columns T) /\
  (NoDup (FeaturesOrder.features_order self) -> NoDup (columns T) ->
   learned ≡ₚ columns T).
Proof.
  intros Hx learned. split_and!.
  - unfold run, FeaturesOrder.fit.
    rewrite bind_run. cbn [check_fill mret M_ret].
    by rewrite bind_run, (df_columns_run x T).
  - unfold learned, final_order. f_equal. apply filter_ext_elem. intros c Hc.
    f_equal. apply eq_true_iff_eq. rewrite !mem_elem_of, elem_of_filter_mem. tauto.
  - apply elem_of_final_order.
  - intros Hr Hc. apply NoDup_Permutation.
    + by apply NoDup_final_order.
    + done.
    + apply elem_of_final_order.
Qed.

Lemma FeaturesOrder_fit_order_witness :
  let T := frame [("col_3", ints [1; 2; 3]); ("col_1", [VStr "a"; VStr "b"; VStr "c"]);
                  ("col_0", ints [7; 8; 9]); ("col_2", ints [4; 5; 6])] in
  let self := FeaturesOrder.__init__ ["col_1"; "col_2"; "col_3"] in
  run (FeaturesOrder.fit (PyDataFrame 0)) self [T]
    = (inr tt,
       FeaturesOrder.mk ["col_1"; "col_2"; "col_3"]
                        (Some ["col_1"; "col_2"; "col_3"; "col_0"]), [T]).
Proof.
  intros T self. apply (proj1 (FeaturesOrder_fit_order self [T] 0%nat T eq_refl)).
Defined.

Lemma filter_name_absent (c : string) (T : table) :
  (c ∉ columns T) -> filter (fun p : string * Series => String.eqb (fst p) c) T = [].
Proof.
  unfold table. induction T as [|[n s] T IH]; [done|].
  change (columns ((n, s) :: T)) with (n :: columns T).
  intros [Hn HT]%not_elem_of_cons. rewrite filter_cons_False; [by apply IH|].
  cbn. intros Heq%Is_true_true%String.eqb_eq. congruence.
Qed.

(** In a frame with distinct names a name selects at most one column. *)
Lemma filter_name_unique (c : string) (T : table) :
  NoDup (columns T) ->
  filter (fun p : string * Series => String.eqb (fst p) c) T
  = match lookup_col c T with Some s => [(c, s)] | None => [] end.
Proof.
  unfold table. induction T as [|[n s] T IH]; [done|].
  change (columns ((n, s) :: T)) with (n :: columns T). cbn [lookup_col].
  intros [Hn Hnd]%NoDup_cons. destruct (String.eqb c n) eqn:Hcn.
  - apply String.eqb_eq in Hcn as ->.
    rewrite filter_cons_True by (cbn; by rewrite String.eqb_refl).
    by rewrite filter_name_absent.
  - rewrite filter_cons_False; [by apply IH|].
    cbn. intros Heq%Is_true_true%String.eqb_eq. subst n.
    by rewrite String.eqb_refl in Hcn.
Qed.

(** Closed lists of distinct names. *)
Ltac distinct_names :=
  repeat (apply NoDup_cons; split;
          [let Hin := fresh "Hin" in
           intros Hin%list_elem_of_In; cbn in Hin;
           repeat (destruct Hin as [Hin|Hin]; [discriminate Hin|]); exact Hin|]);
  apply NoDup_nil_2.

Lemma select_cols_unique (cs : list string) (T : table) :
  NoDup (columns T) ->
  select_cols cs T = omap (fun c => (fun s => (c, s)) <$> lookup_col c T) cs.
Proof.
  intros Hnd. unfold select_cols. induction cs as [|c cs IH]; [done|].
  cbn [flat_map omap list_omap]. rewrite IH, filter_name_unique by done.
  by destruct (lookup_col c T).
Qed.

Lemma select_cols_spec (cs : list string) (T : table) :
  NoDup (columns T) ->
  (forall c, c ∈ cs -> c ∈ columns T) ->
  columns (select_cols cs T) = cs /\
  forall c, c ∈ cs -> lookup_col c (select_cols cs T) = lookup_col c T.
Proof.
  intros Hnd. rewrite select_cols_unique by done.
  induction cs as [|c0 cs IH]; intros Hcs.
  - split; [done|]. by intros c Hc%elem_of_nil.
  - destruct (lookup_col_is_Some c0 T) as [col Hcol]; [apply Hcs; left|].
    destruct IH as [IHc IHl]; [intros c Hc; apply Hcs; by right|].
    cbn [omap list_omap]. rewrite Hcol. cbn. split; [f_equal; exact IHc|].
    intros c Hc. destruct (String.eqb c c0) eqn:Hcc.
    + apply String.eqb_eq in Hcc as ->. done.
    + apply elem_of_cons in Hc as [->|Hc]; [by rewrite String.eqb_refl in Hcc|].
      by apply IHl.
Qed.

Lemma select_cols_ext (cs : list string) (T1 T2 : table) :
  NoDup (columns T1) -> NoDup (columns T2) ->
  (forall c, c ∈ cs -> lookup_col c T1 = lookup_col c T2) ->
  select_cols cs T1 = select_cols cs T2.
Proof.
  intros Hnd1 Hnd2. rewrite !select_cols_unique by done.
  induction cs as [|c cs IH]; intros Hext; [done|].
  cbn [omap list_omap]. rewrite (Hext c) by left.
  rewrite IH by (intros c' Hc'; apply Hext; by right). done.
Qed.

Lemma df_select_run {S} (x : loc) (cs : list string) (T : table) (s : S) (h : heap) :
  h !! x = Some T ->
  df_select x cs s h =
  match missing_col cs T with
  | Some c => (inl (KeyError c), s, h)
  | None => (inr (select_cols cs T), s, h)
  end.
Proof.
  intros Hx. unfold df_select. rewrite bind_run, (df_read_run x T) by done.
  by destruct (missing_col cs T).
Qed.

(** X7. On an instance that has learned a non-empty order, transform of a
    frame with distinct column names that has every learned column returns
    a new frame whose columns are exactly the learned order, every column
    with the content it has in the input (columns of the input outside the
    order are left out); when the learned order repeats no name,
    transforming the result again gives the same frame.  When a learned
    column is absent from the input, transform raises KeyError for it. *)
Theorem FeaturesOrder_transform_reorders (self : FeaturesOrder.t)
    (h : heap) (x : loc) (T : table) (c0 : string) (order : list string) :
  h !! x = Some T ->
  FeaturesOrder.features_order_ self = Some (c0 :: order) ->
  let r := run (FeaturesOrder.transform (PyDataFrame x)) self h in
  let T' := select_cols (c0 :: order) T in
  (NoDup (columns T) -> (forall c, c ∈ c0 :: order -> c ∈ columns T) ->
   r = (inr (length h), self, h ++ [T']) /\
   columns T' = c0 :: order /\
   (forall c, c ∈ c0 :: order -> lookup_col c T' = lookup_col c T) /\
   (NoDup (c0 :: order) ->
    run (FeaturesOrder.transform (PyDataFrame (length h))) self (h ++ [T'])
      = (inr (S (length h)), self, h ++ [T'] ++ [T']))) /\
  (~ (forall c, c ∈ c0 :: order -> c ∈ columns T) ->
   exists c, c ∈ c0 :: order /\ (c ∉ columns T) /\ r = (inl (KeyError c), self, h)).
Proof.
  intros Hx Ho r T'.
  assert (forall h0 x0 T0, h0 !! x0 = Some T0 ->
            run (FeaturesOrder.transform (PyDataFrame x0)) self h0
            = match missing_col (c0 :: order) T0 with
              | Some c => (inl (KeyError c), self, h0)
              | None => (inr (length h0), self, h0 ++ [select_cols (c0 :: order) T0])
              end) as Hrun.
  { intros h0 x0 T0 Hx0. unfold run, FeaturesOrder.transform.
    rewrite bind_run. cbn [get_self].
    rewrite bind_run, check_transform_run by (by rewrite Ho).
    rewrite Ho, bind_run, (df_select_run x0 _ T0) by done.
    by destruct (missing_col (c0 :: order) T0). }
  split.
  - intros HndT Hall. destruct (select_cols_spec (c0 :: order) T HndT Hall) as [Hc Hl].
    fold T' in Hc, Hl. split_and!; [|done..|].
    + unfold r. rewrite (Hrun h x T Hx).
      apply missing_col_None in Hall. by rewrite Hall.
    + intros Hnd.
      rewrite (Hrun (h ++ [T']) (length h) T' (df_alloc_lookup h T')).
      assert (missing_col (c0 :: order) T' = None) as ->
        by (apply missing_col_None; intros c Hc'; by rewrite Hc).
      rewrite length_app. cbn [length]. rewrite Nat.add_1_r, <- app_assoc.
      rewrite (select_cols_ext (c0 :: order) T' T); [done| |done|done].
      by rewrite Hc.
  - intros Hnot. unfold r. rewrite (Hrun h x T Hx).
    destruct (missing_col (c0 :: order) T) as [c|] eqn:Hm.
    + exists c. apply missing_col_Some in Hm as [? ?]. done.
    + destruct Hnot. by apply missing_col_None.
Qed.

Lemma FeaturesOrder_transform_reorders_witness :
  let T := frame [("col_3", ints [1; 2; 3]); ("col_1", [VStr "a"; VStr "b"; VStr "c"]);
                  ("col_0", ints [7; 8; 9]); ("col_2", ints [4; 5; 6])] in
  let self := FeaturesOrder.mk ["col_1"; "col_2"; "col_3"]
                               (Some ["col_1"; "col_2"; "col_3"; "col_0"]) in
  run (FeaturesOrder.transform (PyDataFrame 0)) self [T]
    = (inr 1%nat, self,
       [T; frame [("col_1", [VStr "a"; VStr "b"; VStr "c"]); ("col_2", ints [4; 5; 6]);
                  ("col_3", ints [1; 2; 3]); ("col_0", ints [7; 8; 9])]]) /\
  exists c, c ∈ ["col_1"; "col_2"; "col_3"; "col_0"] /\
    (c ∉ columns (frame [("col_1", ints [1])])) /\
    run (FeaturesOrder.transform (PyDataFrame 0)) self [frame [("col_1", ints [1])]]
      = (inl (KeyError c), self, [frame [("col_1", ints [1])]]).
Proof.
  intros T self. split.
  - apply (proj1 (FeaturesOrder_transform_reorders self [T] 0%nat T
                    "col_1" ["col_2"; "col_3"; "col_0"] eq_refl eq_refl)).
    + cbn. distinct_names.
    + intros c Hc%list_elem_of_In. apply list_elem_of_In. cbn in *. tauto.
  - apply (proj2 (FeaturesOrder_transform_reorders self
                    [frame [("col_1", ints [1])]] 0%nat _
                    "col_1" ["col_2"; "col_3"; "col_0"] eq_refl eq_refl)).
    intros Hall. specialize (Hall "col_2" ltac:(right; left)).
    apply list_elem_of_In in Hall. cbn in Hall. destruct Hall as [Hall|[]]. discriminate Hall.
Defined.

(* ===================================================================== *)
(** ** Further properties: fitted with nothing learned *)
(* ===================================================================== *)

Lemma filter_mem_none (cols l : list string) :
  (forall c, c ∈ l -> c ∉ cols) -> filter (fun col => mem col cols) l = [].
Proof.
  induction l as [|c l IH]; intros Hl; [done|].
  rewrite filter_cons_False.
  - apply IH. intros c' Hc'. apply Hl. by right.
  - intros Hm%Is_true_true%mem_elem_of. by apply (Hl c); [left|].
Qed.

Lemma filter_keys_none {V} (cols : list string) (d : dict string V) :
  (forall c, c ∈ dict_keys d -> c ∉ cols) ->
  filter (fun p => mem (fst p) cols) d = [].
Proof.
  induction d as [|[k v] d IH]; intros Hd; [done|].
  rewrite filter_cons_False.
  - apply IH. intros c' Hc'. apply Hd. by right.
  - intros Hm%Is_true_true%mem_elem_of. by apply (Hd k); [left|].
Qed.

Lemma SimpleImputerPicker_constant_loop_none `{Sklearn} (x : loc) (cols : list string)
    (d : dict (list string) value) (s : SimpleImputerPicker.t) (h : heap) :
  (forall key c, key ∈ dict_keys d -> c ∈ key -> c ∉ cols) ->
  for_ d (fun item =>
      let cols_to_impute := filter (fun col => mem col cols) (fst item) in
      if negb (length cols_to_impute =? 0)%nat then
        sub ← df_select x cols_to_impute;
        imp ← sk (sk_imputer_fit "constant" (Some (snd item)) sub);
        SimpleImputerPicker.imputer_setitem (SimpleImputerPicker.KTuple cols_to_impute) imp
      else mret tt) s h
  = (inr tt, s, h).
Proof.
  induction d as [|[key v] d IH]; intros Hd; [done|].
  cbn [for_]. rewrite bind_run. cbn [fst snd].
  rewrite (filter_mem_none cols key) by (intros c Hc; apply (Hd key c); [left|done]).
  cbn. apply IH. intros key' c Hk. apply Hd. by right.
Qed.

(** X8. A fit that finds none of its columns still returns, and leaves an
    empty learned state that transform takes for "not fitted":
    OutlierRemover (whatever its method, known or not) when no configured
    column is in the frame, WithAnotherColumnImputer when no target column
    is, FeaturesOrder on a frame without columns, SimpleImputerPicker with
    strategy "constant" when no column of any key is.  CatCaster, which
    skips the fitted test, then returns a copy of its input. *)
Theorem fitted_on_none_of_the_columns `{Sklearn} `{Float64} (h : heap) (x : loc) (T : table) :
  h !! x = Some T ->
  (forall self,
     (forall c, c ∈ OutlierRemover.cols_to_transform self -> c ∉ columns T) ->
     let r := run (OutlierRemover.fit (PyDataFrame x)) self h in
     r = (inr tt, OutlierRemover.mk [] (OutlierRemover.method self) (Some []), h) /\
     forall x' h', not_fitted (outcome (run (OutlierRemover.transform (PyDataFrame x'))
                                           (self_after r) h'))) /\
  (forall self,
     (forall c, c ∈ dict_keys (WithAnotherColumnImputer.cols_to_impute self) ->
                c ∉ columns T) ->
     let r := run (WithAnotherColumnImputer.fit (PyDataFrame x)) self h in
     r = (inr tt, WithAnotherColumnImputer.mk [], h) /\
     forall x' h', not_fitted (outcome (run (WithAnotherColumnImputer.transform (PyDataFrame x'))
                                           (self_after r) h'))) /\
  (forall self,
     columns T = [] ->
     let r := run (FeaturesOrder.fit (PyDataFrame x)) self h in
     r = (inr tt, FeaturesOrder.mk (FeaturesOrder.features_order self) (Some []), h) /\
     forall x' h', not_fitted (outcome (run (FeaturesOrder.transform (PyDataFrame x'))
                                           (self_after r) h'))) /\
  (forall self d,
     any_all_null T = false ->
     SimpleImputerPicker.strategy self = "constant" ->
     SimpleImputerPicker.cols_to_impute self = Some (SimpleImputerPicker.OfDict d) ->
     (forall key c, key ∈ dict_keys d -> c ∈ key -> c ∉ columns T) ->
     let r := run (SimpleImputerPicker.fit (PyDataFrame x)) self h in
     r = (inr tt,
          SimpleImputerPicker.set_imputer (Some (SimpleImputerPicker.Imputers [])) self, h) /\
     forall x' h', not_fitted (outcome (run (SimpleImputerPicker.transform (PyDataFrame x'))
                                           (self_after r) h'))) /\
  (forall self,
     (forall c, c ∈ CatCaster.cols_to_cast self -> c ∉ columns T) ->
     run (CatCaster.fit (PyDataFrame x);; CatCaster.transform (PyDataFrame x)) self h
     = (inr (length h), CatCaster.mk [], h ++ [T])).
Proof.
  intros Hx. split_and!.
  - intros self Hnone r.
    assert (r = (inr tt, OutlierRemover.mk [] (OutlierRemover.method self) (Some []), h)) as ->.
    { unfold r, run, OutlierRemover.fit.
      rewrite bind_run. cbn [check_fill mret M_ret].
      rewrite bind_run, (df_columns_run x T) by done.
      rewrite bind_run. cbn [get_self].
      rewrite bind_run. cbn [set_self].
      rewrite bind_run. cbn [get_self].
      rewrite bind_run. cbn [set_self].
      rewrite bind_run. cbn [get_self].
      cbn [OutlierRemover.cols_to_transform OutlierRemover.set_col_thresholds
           OutlierRemover.set_cols_to_transform].
      by rewrite (filter_mem_none (columns T)). }
    split; [done|]. intros x' h'. eexists. reflexivity.
  - intros self Hnone r.
    assert (r = (inr tt, WithAnotherColumnImputer.mk [], h)) as ->.
    { unfold r. rewrite (WithAnotherColumnImputer_fit_run self h x T Hx).
      by rewrite (filter_keys_none (columns T)). }
    split; [done|]. intros x' h'. eexists. reflexivity.
  - intros self HT r.
    assert (r = (inr tt, FeaturesOrder.mk (FeaturesOrder.features_order self) (Some []), h))
      as ->.
    { unfold r. rewrite (proj1 (FeaturesOrder_fit_order self h x T Hx)).
      rewrite HT. unfold final_order. cbn.
      rewrite (filter_mem_none []) by (by intros c _ ?%elem_of_nil). done. }
    split; [done|]. intros x' h'. eexists. reflexivity.
  - intros self d Hnull Hs Hd Hnone r.
    assert (r = (inr tt, SimpleImputerPicker.set_imputer
                           (Some (SimpleImputerPicker.Imputers [])) self, h)) as ->.
    { unfold r, run, SimpleImputerPicker.fit.
      rewrite bind_run. cbn [check_fill mret M_ret].
      rewrite bind_run, (df_read_run x T), Hnull by done.
      rewrite bind_run. cbn [get_self]. rewrite Hd.
      rewrite bind_run. cbn [mret M_ret].
      unfold SimpleImputerPicker.fit_strategy.
      rewrite bind_run, (df_columns_run x T) by done.
      rewrite bind_run. cbn [get_self]. rewrite Hs. cbn [String.eqb Ascii.eqb Bool.eqb].
      rewrite bind_run. cbn [set_self]. rewrite Hd.
      by apply SimpleImputerPicker_constant_loop_none. }
    split; [done|]. intros x' h'. cbn [self_after fst snd].
    destruct self as [cfg st imp]. cbn in Hs. subst st. eexists. reflexivity.
  - intros self Hnone. unfold run. rewrite bind_run.
    pose proof (CatCaster_fit_run self h x T Hx) as Hfit. unfold run in Hfit.
    rewrite Hfit, (filter_mem_none (columns T)) by done.
    unfold CatCaster.transform.
    rewrite bind_run, check_transform_off_run.
    rewrite bind_run, (df_copy_run x T) by done.
    rewrite bind_run. cbn [get_self CatCaster.cols_to_cast].
    rewrite bind_run, (df_select_run x [] T) by (by apply lookup_app_l_Some).
    reflexivity.
Qed.

Lemma fitted_on_none_of_the_columns_witness :
  let T := frame [("col_1", ints [1; 2])] in
  run (OutlierRemover.fit (H:=Reference.float64) (PyDataFrame 0)) (OutlierRemover.mk ["other"] "wrong_method" None) [T]
    = (inr tt, OutlierRemover.mk [] "wrong_method" (Some []), [T]) /\
  not_fitted (outcome (run (OutlierRemover.transform (PyDataFrame 0))
                           (OutlierRemover.mk [] "wrong_method" (Some [])) [T])) /\
  run (CatCaster.fit (PyDataFrame 0);; CatCaster.transform (PyDataFrame 0))
      (CatCaster.mk ["other"]) [T]
    = (inr 1%nat, CatCaster.mk [], [T; T]).
Proof.
  intros T.
  destruct (@fitted_on_none_of_the_columns Reference.sklearn Reference.float64 [T] 0%nat T eq_refl)
    as (HO & _ & _ & _ & HC).
  assert (forall c : string, c ∈ ["other"] -> c ∉ columns T) as Hnone.
  { intros c Hc%list_elem_of_In Hin%list_elem_of_In. cbn in *.
    destruct Hc as [<-|[]]. destruct Hin as [Hin|[]]. discriminate Hin. }
  destruct (HO (OutlierRemover.mk ["other"] "wrong_method" None) Hnone) as [Hfit Htr].
  split; [exact Hfit|]. split.
  - specialize (Htr 0%nat [T]). rewrite Hfit in Htr. exact Htr.
  - apply (HC (CatCaster.mk ["other"]) Hnone).
Defined.

(* ===================================================================== *)
(** ** Further properties: OutlierRemover and its method *)
(* ===================================================================== *)

Lemma OutlierRemover_bounds_unknown `{Float64} (method : string) (c : Series) :
  method ∉ ["iqr"; "std"; "quantile"; "skip"] ->
  OutlierRemover.bounds method c
  = inl (ValueError ("unknown method " +:+ method +:+ " for outlier remover")).
Proof.
  intros Hm. unfold OutlierRemover.bounds.
  repeat (destruct (String.eqb method _) eqn:He;
          [apply String.eqb_eq in He; subst method; destruct Hm;
           apply list_elem_of_In; cbn; tauto|clear He]).
  done.
Qed.

(** X9. The method of an OutlierRemover is looked at inside the loop over
    the columns: with a method that is none of iqr, std, quantile, skip,
    fit raises the validation error as soon as one configured column is in
    the frame, having already overwritten the configured columns and reset
    the thresholds to an empty dict, so that a later transform raises
    Not-Fitted (when no configured column is in the frame the same fit
    returns, see X8). *)
Theorem OutlierRemover_unknown_method `{Float64} (self : OutlierRemover.t)
    (h : heap) (x : loc) (T : table) (c : string) :
  h !! x = Some T ->
  OutlierRemover.method self ∉ ["iqr"; "std"; "quantile"; "skip"] ->
  c ∈ OutlierRemover.cols_to_transform self -> c ∈ columns T ->
  let r := run (OutlierRemover.fit (PyDataFrame x)) self h in
  r = (inl (ValueError ("unknown method " +:+ OutlierRemover.method self
                        +:+ " for outlier remover")),
       OutlierRemover.mk
         (filter (fun col => mem col (columns T)) (OutlierRemover.cols_to_transform self))
         (OutlierRemover.method self) (Some []),
       h) /\
  forall x' h', not_fitted (outcome (run (OutlierRemover.transform (PyDataFrame x'))
                                        (self_after r) h')).
Proof.
  intros Hx Hm Hc HcT r.
  assert (r = (inl (ValueError ("unknown method " +:+ OutlierRemover.method self
                                +:+ " for outlier remover")),
               OutlierRemover.mk
                 (filter (fun col => mem col (columns T))
                         (OutlierRemover.cols_to_transform self))
                 (OutlierRemover.method self) (Some []), h)) as ->.
  { unfold r, run, OutlierRemover.fit.
    rewrite bind_run. cbn [check_fill mret M_ret].
    rewrite bind_run, (df_columns_run x T) by done.
    rewrite bind_run. cbn [get_self].
    rewrite bind_run. cbn [set_self].
    rewrite bind_run. cbn [get_self].
    rewrite bind_run. cbn [set_self].
    rewrite bind_run. cbn [get_self].
    cbn [OutlierRemover.cols_to_transform OutlierRemover.set_col_thresholds
         OutlierRemover.set_cols_to_transform OutlierRemover.method
         OutlierRemover.col_thresholds].
    assert (c ∈ filter (fun col => mem col (columns T))
                       (OutlierRemover.cols_to_transform self)) as Hin
      by (by apply elem_of_filter_mem).
    destruct (filter _ _) as [|a l] eqn:Hl; [by apply elem_of_nil in Hin|].
    assert (a ∈ columns T) as Ha.
    { assert (a ∈ a :: l) as Hal by left. rewrite <- Hl in Hal.
      by apply elem_of_filter_mem in Hal as [_ ?]. }
    destruct (lookup_col_is_Some a T Ha) as [col Hcol].
    cbn [for_]. rewrite bind_run. unfold OutlierRemover.fit_col.
    rewrite bind_run. cbn [get_self].
    rewrite bind_run, (df_getitem_run x a T), Hcol by done.
    rewrite bind_run. cbn [OutlierRemover.method].
    by rewrite OutlierRemover_bounds_unknown. }
  split; [done|]. intros x' h'. eexists. reflexivity.
Qed.

Lemma OutlierRemover_unknown_method_witness :
  let T := frame [("col_1", ints [1])] in
  let self := OutlierRemover.mk ["col_1"] "wrong_method" None in
  run (OutlierRemover.fit (H:=Reference.float64) (PyDataFrame 0)) self [T]
    = (inl (ValueError "unknown method wrong_method for outlier remover"),
       OutlierRemover.mk ["col_1"] "wrong_method" (Some []), [T]).
Proof.
  intros T self.
  refine (proj1 (OutlierRemover_unknown_method self [T] 0%nat T "col_1" eq_refl _ _ _)).
  - intros Hin%list_elem_of_In. cbn in Hin.
    destruct Hin as [Hin|[Hin|[Hin|[Hin|[]]]]]; discriminate Hin.
  - apply list_elem_of_In. cbn. tauto.
  - apply list_elem_of_In. cbn. tauto.
Defined.

Lemma numbers_map_VNum (qs : list Q) : numbers (map VNum qs) = inr qs.
Proof. induction qs as [|q qs IH]; cbn; [done|]. by rewrite IH. Qed.

Lemma OutlierRemover_bounds_numbers `{Float64} (method : string) (c c' : Series) :
  numbers (cells c) = numbers (cells c') ->
  OutlierRemover.bounds method c = OutlierRemover.bounds method c'.
Proof. intros Hn. unfold OutlierRemover.bounds. by rewrite Hn. Qed.

Lemma OutlierRemover_method_targets `{Float64} (method : string) (c : Series) (qs : list Q) :
  method ∈ ["iqr"; "std"; "quantile"; "skip"] ->
  numbers (cells c) = inr qs ->
  exists b, OutlierRemover.bounds method c = inr b /\
            OutlierRemover.thresholds (fst b) (snd b) qs = method_targets method qs.
Proof.
  intros Hm Hqs. unfold method_targets.
  rewrite (OutlierRemover_bounds_numbers method (mkSeries Plain (map VNum qs)) c)
    by (cbn [cells]; by rewrite numbers_map_VNum).
  assert (exists b, OutlierRemover.bounds method c = inr b) as [b Hb].
  { unfold OutlierRemover.bounds. rewrite Hqs. cbn.
    apply list_elem_of_In in Hm. cbn in Hm.
    destruct Hm as [<-|[<-|[<-|[<-|[]]]]]; cbn; repeat case_match; eauto. }
  exists b. by rewrite Hb.
Qed.

(** X10. With any of the four methods and numeric columns, whatever the
    rounding of the floating point operations, fit returns, and the pair it
    stores for a configured column of the frame holds the least and the
    greatest of the column's values that lie between the two bounds the
    method computes: both are values of the column between the bounds and
    every such value lies between them; both are NaN exactly when no value
    of the column lies between the bounds (as with NaN bounds). *)
Theorem OutlierRemover_thresholds_observed `{Float64} (self : OutlierRemover.t)
    (h : heap) (x : loc) (T : table) :
  OutlierRemover.method self ∈ ["iqr"; "std"; "quantile"; "skip"] ->
  h !! x = Some T ->
  (forall c col, c ∈ OutlierRemover.cols_to_transform self ->
                 lookup_col c T = Some col -> exists qs, numbers (cells col) = inr qs) ->
  let r := run (OutlierRemover.fit (PyDataFrame x)) self h in
  outcome r = inr tt /\
  forall c col qs, c ∈ OutlierRemover.cols_to_transform self ->
    lookup_col c T = Some col -> numbers (cells col) = inr qs ->
    exists b th,
      OutlierRemover.bounds (OutlierRemover.method self) col = inr b /\
      threshold_of (self_after r) c = Some th /\
      extremes (between (fst b) (snd b)) qs th.
Proof.
  intros Hm Hx Hnum r.
  destruct (OutlierRemover_fit_targets (OutlierRemover.method self)
              (method_targets (OutlierRemover.method self))
              (fun c qs => OutlierRemover_method_targets _ c qs Hm)
              self h x T eq_refl Hx Hnum) as [Hr Hth].
  split; [exact Hr|]. intros c col qs Hc Hcol Hqs.
  destruct (OutlierRemover_method_targets _ col qs Hm Hqs) as (b & Hb & Hbt).
  exists b, (method_targets (OutlierRemover.method self) qs).
  split_and!; [done|by eapply Hth|].
  rewrite <- Hbt. apply thresholds_extremes.
Qed.

Lemma OutlierRemover_thresholds_observed_witness :
  let qs := map inject_Z ([-100] ++ range (-5) 6 ++ [100]) in
  let col := mkSeries Plain (map VNum qs) in
  let T := frame [("col_1", ints ([-100] ++ range (-5) 6 ++ [100]))] in
  let self := OutlierRemover.mk ["col_1"] "std" None in
  let r := run (OutlierRemover.fit (H:=Reference.float64) (PyDataFrame 0)) self [T] in
  outcome r = inr tt /\
  threshold_of (self_after r) "col_1" = Some (VNum (-100), VNum 100) /\
  exists b th,
    OutlierRemover.bounds (H:=Reference.float64) "std" col = inr b /\
    threshold_of (self_after r) "col_1" = Some th /\
    extremes (between (fst b) (snd b)) qs th.
Proof.
  intros qs col T self r.
  destruct (OutlierRemover_thresholds_observed (H:=Reference.float64) self [T] 0%nat T)
    as [Hr Hth].
  - apply list_elem_of_In. cbn. tauto.
  - reflexivity.
  - intros c col' Hc%list_elem_of_In. cbn in Hc. destruct Hc as [<-|[]].
    intros [= <-]. eexists. vm_compute. reflexivity.
  - split; [exact Hr|]. split; [vm_compute; reflexivity|].
    apply (Hth "col_1" col qs);
      [apply list_elem_of_In; cbn; tauto|reflexivity|vm_compute; reflexivity].
Defined.







(* ===================================================================== *)
(** ** Further properties: WithAnotherColumnImputer *)
(* ===================================================================== *)

Lemma dict_get_elem_of {V} (d : dict string V) (k : string) (v : V) :
  NoDup (dict_keys d) -> (k, v) ∈ d -> dict_get k d = Some v.
Proof.
  induction d as [|[k' v'] d IH]; cbn; [by intros _ ?%elem_of_nil|].
  intros [Hk Hnd]%NoDup_cons [[= <- <-]|Hin]%elem_of_cons.
  - by rewrite bool_decide_eq_true_2.
  - rewrite bool_decide_eq_false_2; [by apply IH|].
    intros <-. apply Hk. unfold dict_keys. apply list_elem_of_fmap. by exists (k, v).
Qed.

Lemma WithAnotherColumnImputer_transform_loop (d : dict string string)
    (self : WithAnotherColumnImputer.t) (X_ : loc) (T : table) (l : dict string string) :
  NoDup (dict_keys l) ->
  (forall c o, (c, o) ∈ l -> dict_get c d = Some o) ->
  (forall c o, (c, o) ∈ l -> o ∉ dict_keys l) ->
  (forall c o, (c, o) ∈ l -> c ∈ columns T /\ o ∈ columns T) ->
  forall (h : heap) (Tcur : table),
    h !! X_ = Some Tcur ->
    (forall c, c ∈ dict_keys l -> lookup_col c Tcur = lookup_col c T) ->
    (forall c o, (c, o) ∈ l -> lookup_col o Tcur = lookup_col o T) ->
    exists T',
      for_ (dict_keys l) (fun col =>
          target ← df_getitem X_ col;
          match dict_get col d with
          | Some other => source ← df_getitem X_ other;
                          df_setitem X_ col (fillna target source)
          | None => raise (KeyError col)
          end) self h
        = (inr tt, self, <[X_ := T']> h) /\
      columns T' = columns Tcur /\
      (forall c o target source, (c, o) ∈ l -> lookup_col c T = Some target ->
          lookup_col o T = Some source -> lookup_col c T' = Some (fillna target source)) /\
      (forall c, c ∉ dict_keys l -> lookup_col c T' = lookup_col c Tcur).
Proof.
  induction l as [|[a o] l IH]; intros Hnd Hget Hsrc Hpres h Tcur Hx Hkeys Hsrcs.
  - exists Tcur. split_and!; [|done|by intros ? ? ? ? ?%elem_of_nil|done].
    cbn. by rewrite list_insert_id.
  - change (dict_keys ((a, o) :: l)) with (a :: dict_keys l) in *.
    apply NoDup_cons in Hnd as [Ha Hnd].
    destruct (Hpres a o) as [HaT HoT]; [left|].
    destruct (lookup_col_is_Some a T HaT) as [target Htarget].
    destruct (lookup_col_is_Some o T HoT) as [source Hsource].
    cbn [for_]. rewrite bind_run, bind_run, (df_getitem_run X_ a Tcur) by done.
    rewrite (Hkeys a), Htarget by left.
    rewrite (Hget a o) by left.
    rewrite bind_run, (df_getitem_run X_ o Tcur) by done.
    rewrite (Hsrcs a o), Hsource by left.
    rewrite (df_setitem_run X_ a _ Tcur) by done.
    set (T1 := set_col a (fillna target source) Tcur).
    assert (<[X_ := T1]> h !! X_ = Some T1) as Hx1.
    { apply list_lookup_insert_eq. by eapply lookup_lt_Some. }
    assert (forall c, c <> a -> lookup_col c T1 = lookup_col c Tcur) as Hne.
    { intros c Hc. unfold T1. by rewrite lookup_col_set_col_ne. }
    destruct (IH Hnd) with (h := <[X_ := T1]> h) (Tcur := T1)
      as (T' & Hrun & Hc' & Hin & Hout); try done.
    + intros c o' Hin. apply Hget. by right.
    + intros c o' Hin Ho. apply (Hsrc c o'); [by right|]. by right.
    + intros c o' Hin. apply Hpres. by right.
    + intros c Hc. rewrite Hne; [apply Hkeys; by right|]. intros ->. done.
    + intros c o' Hin. rewrite Hne; [apply (Hsrcs c o'); by right|].
      intros ->. apply (Hsrc c a); [by right|left].
    + exists T'. split_and!.
      * rewrite Hrun. by rewrite list_insert_insert_eq.
      * rewrite Hc'. apply columns_set_col. rewrite (Hkeys a) by left. by rewrite Htarget.
      * intros c o' tg sc [[= -> ->]|Hin']%elem_of_cons Htg Hsc.
        -- rewrite Hout by done. unfold T1. rewrite lookup_col_set_col_eq. congruence.
        -- by eapply Hin.
      * intros c [Hca Hcl]%not_elem_of_cons. rewrite Hout by done. by apply Hne.
Qed.

(** X12. transform of a WithAnotherColumnImputer whose mapping is not
    empty, names columns of the frame only and uses no target as a source:
    every target column comes back with its nulls filled from the same row
    of its source column, every other column as it was, in the same order
    of columns. *)
Theorem WithAnotherColumnImputer_transform_fills (self : WithAnotherColumnImputer.t)
    (h : heap) (x : loc) (T : table) :
  h !! x = Some T ->
  let d := WithAnotherColumnImputer.cols_to_impute self in
  d <> [] -> NoDup (dict_keys d) ->
  (forall c o, (c, o) ∈ d -> o ∉ dict_keys d) ->
  (forall c o, (c, o) ∈ d -> c ∈ columns T /\ o ∈ columns T) ->
  let r := run (WithAnotherColumnImputer.transform (PyDataFrame x)) self h in
  exists (l : loc) (T' : table),
    outcome r = inr l /\ heap_after r !! l = Some T' /\ columns T' = columns T /\
    (forall c o target source, (c, o) ∈ d -> lookup_col c T = Some target ->
        lookup_col o T = Some source -> lookup_col c T' = Some (fillna target source)) /\
    (forall c, c ∉ dict_keys d -> lookup_col c T' = lookup_col c T).
Proof.
  intros Hx d Hne Hnd Hsrc Hpres r. unfold r, run, WithAnotherColumnImputer.transform.
  rewrite bind_run. cbn [get_self].
  rewrite bind_run, check_transform_run by (fold d; by destruct d).
  rewrite bind_run, (df_copy_run x T) by done.
  destruct (WithAnotherColumnImputer_transform_loop d self (length h) T d Hnd)
    with (h := h ++ [T]) (Tcur := T) as (T' & Hrun & Hc & Hin & Hout); try done.
  - intros c o Hin. by apply dict_get_elem_of.
  - apply df_alloc_lookup.
  - fold d. rewrite bind_run, Hrun. cbn.
    exists (length h), T'. split_and!; try done.
    apply list_lookup_insert_eq. rewrite length_app. cbn. lia.
Qed.

Lemma WithAnotherColumnImputer_transform_fills_witness :
  let T := frame [("col_1", ints [1; 2; 3]); ("col_2", [VNum 5; VNull; VNull])] in
  let self := WithAnotherColumnImputer.mk [("col_2", "col_1")] in
  let r := run (WithAnotherColumnImputer.transform (PyDataFrame 0)) self [T] in
  exists (l : loc) (T' : table),
    outcome r = inr l /\ heap_after r !! l = Some T' /\
    lookup_col "col_2" T' = Some (mkSeries Plain (ints [5; 2; 3])) /\
    lookup_col "col_1" T' = lookup_col "col_1" T.
Proof.
  intros T self r.
  destruct (WithAnotherColumnImputer_transform_fills self [T] 0%nat T)
    as (l & T' & Hl & HT' & _ & Hin & Hout).
  - reflexivity.
  - discriminate.
  - apply NoDup_cons. split; [by intros ?%elem_of_nil|apply NoDup_nil; done].
  - intros c o Hin%list_elem_of_In Ho%list_elem_of_In. cbn in *.
    destruct Hin as [[= <- <-]|[]]. destruct Ho as [Ho|[]]. discriminate Ho.
  - intros c o Hin%list_elem_of_In. cbn in Hin. destruct Hin as [[= <- <-]|[]].
    split; apply list_elem_of_In; cbn; tauto.
  - exists l, T'. split_and!; [exact Hl|exact HT'| |].
    + apply (Hin "col_2" "col_1" (mkSeries Plain [VNum 5; VNull; VNull])
                 (mkSeries Plain (ints [1; 2; 3]))); [left|reflexivity|reflexivity].
    + apply Hout. intros Hc%list_elem_of_In. cbn in Hc.
      destruct Hc as [Hc|[]]. discriminate Hc.
Defined.

(** X13. fit of a WithAnotherColumnImputer looks at the target columns
    only: it returns although the source column of the first pair is not
    in the frame, and transform of the same frame then raises KeyError for
    that source, after it has made its copy. *)
Theorem WithAnotherColumnImputer_missing_source (c o : string)
    (rest : dict string string) (h : heap) (x : loc) (T : table) :
  h !! x = Some T -> c ∈ columns T -> o ∉ columns T ->
  let self := WithAnotherColumnImputer.mk ((c, o) :: rest) in
  let fitted := WithAnotherColumnImputer.mk
                  ((c, o) :: filter (fun p => mem (fst p) (columns T)) rest) in
  run (WithAnotherColumnImputer.fit (PyDataFrame x)) self h = (inr tt, fitted, h) /\
  run (WithAnotherColumnImputer.transform (PyDataFrame x)) fitted h
    = (inl (KeyError o), fitted, h ++ [T]).
Proof.
  intros Hx Hc Ho. cbv zeta. split.
  - rewrite (WithAnotherColumnImputer_fit_run _ h x T Hx).
    cbn [WithAnotherColumnImputer.cols_to_impute].
    rewrite filter_cons_True; [done|]. cbn. by apply Is_true_true, mem_elem_of.
  - unfold run, WithAnotherColumnImputer.transform.
    rewrite bind_run. cbn [get_self].
    rewrite bind_run, check_transform_run by done.
    rewrite bind_run, (df_copy_run x T) by done.
    destruct (lookup_col_is_Some c T Hc) as [target Htarget].
    assert (lookup_col o T = None) as Hnone.
    { destruct (lookup_col o T) eqn:Hl; [|done]. destruct Ho.
      apply has_col_elem_of, lookup_col_has_col. by rewrite Hl. }
    rewrite bind_run. cbn [WithAnotherColumnImputer.cols_to_impute dict_keys map fst for_].
    rewrite bind_run, bind_run, (df_getitem_run (length h) c T), Htarget
      by apply df_alloc_lookup.
    cbn [dict_get]. rewrite bool_decide_eq_true_2 by done.
    rewrite bind_run, (df_getitem_run (length h) o T), Hnone by apply df_alloc_lookup.
    done.
Qed.

Lemma WithAnotherColumnImputer_missing_source_witness :
  let T := frame [("col_2", [VNum 5; VNull; VNull])] in
  run (WithAnotherColumnImputer.fit (PyDataFrame 0))
      (WithAnotherColumnImputer.mk [("col_2", "col_1")]) [T]
    = (inr tt, WithAnotherColumnImputer.mk [("col_2", "col_1")], [T]) /\
  run (WithAnotherColumnImputer.transform (PyDataFrame 0))
      (WithAnotherColumnImputer.mk [("col_2", "col_1")]) [T]
    = (inl (KeyError "col_1"), WithAnotherColumnImputer.mk [("col_2", "col_1")], [T; T]).
Proof.
  intros T.
  refine (WithAnotherColumnImputer_missing_source "col_2" "col_1" [] [T] 0%nat T eq_refl _ _).
  - apply list_elem_of_In. cbn. tauto.
  - intros Hin%list_elem_of_In. cbn in Hin. destruct Hin as [Hin|[]]. discriminate Hin.
Defined.

(* ===================================================================== *)
(** ** Further properties: CatCaster and ScalerPicker *)
(* ===================================================================== *)

(** Assigning columns one after the other, as [X_[cols] = frame] does. *)
Lemma setitem_loop {S} (X_ : loc) (pairs : list (string * Series)) (st : S) :
  (forall c s s', (c, s) ∈ pairs -> (c, s') ∈ pairs -> s = s') ->
  forall (h : heap) (Tcur : table),
    h !! X_ = Some Tcur ->
    exists T',
      for_ pairs (fun p => df_setitem X_ (fst p) (snd p)) st h
        = (inr tt, st, <[X_ := T']> h) /\
      (forall c s, (c, s) ∈ pairs -> lookup_col c T' = Some s) /\
      (forall c, c ∉ pairs.*1 -> lookup_col c T' = lookup_col c Tcur) /\
      ((forall c, c ∈ pairs.*1 -> c ∈ columns Tcur) -> columns T' = columns Tcur).
Proof.
  induction pairs as [|[a s] pairs IH]; intros Hcons h Tcur Hx.
  - exists Tcur. split_and!; [|by intros ? ? ?%elem_of_nil|done..].
    cbn. by rewrite list_insert_id.
  - cbn [for_ fst snd]. rewrite bind_run, (df_setitem_run X_ a s Tcur) by done.
    set (T1 := set_col a s Tcur).
    assert (<[X_ := T1]> h !! X_ = Some T1) as Hx1.
    { apply list_lookup_insert_eq. by eapply lookup_lt_Some. }
    destruct (IH (fun c s1 s2 H1 H2 =>
                    Hcons c s1 s2 (list_elem_of_further _ _ _ H1)
                                  (list_elem_of_further _ _ _ H2))
                 (<[X_ := T1]> h) T1 Hx1) as (T' & Hrun & Hin & Hout & Hcols).
    exists T'. split_and!.
    + rewrite Hrun. by rewrite list_insert_insert_eq.
    + intros c s' [[= -> ->]|Hc]%elem_of_cons; [|by apply Hin].
      destruct (decide (a ∈ pairs.*1)) as [Ha|Ha].
      * apply list_elem_of_fmap in Ha as ([a' s''] & Heq & Hp). cbn in Heq. subst a'.
        rewrite (Hcons a s s''); [by apply Hin|left|by right].
      * rewrite Hout by done. apply lookup_col_set_col_eq.
    + intros c [Hca Hcl]%not_elem_of_cons. cbn in Hca. rewrite Hout by done.
      unfold T1. by rewrite lookup_col_set_col_ne.
    + intros Hall.
      assert (columns T1 = columns Tcur) as H1.
      { apply columns_set_col, lookup_col_is_Some, Hall. left. }
      rewrite Hcols; [done|]. intros c Hc. rewrite H1. apply Hall. by right.
Qed.

Lemma repeated_NoDup (cs : list string) (c : string) :
  NoDup cs -> repeated c cs = false.
Proof.
  intros Hnd. unfold repeated. apply Nat.ltb_ge.
  apply (proj1 (List.NoDup_count_occ String.string_dec cs)). by apply NoDup_ListNoDup.
Qed.

Lemma repeated_not_NoDup (cs : list string) :
  ~ NoDup cs -> exists c, c ∈ cs /\ repeated c cs = true.
Proof.
  induction cs as [|a cs IH]; intros Hnd; [destruct Hnd; apply NoDup_nil_2|].
  destruct (decide (a ∈ cs)) as [Ha|Ha].
  - exists a. split; [left|]. unfold repeated. apply Nat.ltb_lt. cbn.
    destruct (String.string_dec a a) as [_|Hne]; [|done].
    apply list_elem_of_In in Ha.
    apply (count_occ_In String.string_dec) in Ha. lia.
  - destruct IH as (c & Hc & Hrep).
    { intros Hcs. apply Hnd. by apply NoDup_cons. }
    exists c. split; [by right|]. unfold repeated in *.
    apply Nat.ltb_lt in Hrep. apply Nat.ltb_lt. cbn.
    destruct (String.string_dec a c); lia.
Qed.

Lemma for_ext {S A} (l : list A) (f g : A -> M S unit) :
  (forall a, a ∈ l -> forall s h, f a s h = g a s h) ->
  forall s h, for_ l f s h = for_ l g s h.
Proof.
  induction l as [|a l IH]; intros Hfg s h; [done|].
  cbn [for_]. rewrite !bind_run, (Hfg a) by left.
  destruct (g a s h) as [[[e|[]] s'] h']; [done|].
  apply IH. intros b Hb. apply Hfg. by right.
Qed.

(** With distinct names and as many columns as names, [X_[cs] = frame]
    assigns the columns one after the other. *)
Lemma df_setitem_frame_run {S} (x : loc) (cs : list string) (fr : table) (s : S) (h : heap) :
  NoDup cs -> length cs = length fr ->
  df_setitem_frame x cs fr s h
  = for_ (zip cs (map snd fr)) (fun p => df_setitem x (fst p) (snd p)) s h.
Proof.
  intros Hnd Hlen. unfold df_setitem_frame. rewrite Hlen, Nat.eqb_refl. cbn [negb].
  apply for_ext. intros p _ s' h'. by rewrite repeated_NoDup.
Qed.

(** With a name that occurs more than once, [X_[cs] = frame] raises. *)
Lemma df_setitem_frame_repeated {S} (x : loc) (cs : list string) (fr : table) (s : S)
    (h : heap) (Tcur : table) :
  h !! x = Some Tcur -> ~ NoDup cs -> length cs = length fr ->
  exists h', df_setitem_frame x cs fr s h
             = (inl (ValueError "Columns must be same length as key"), s, h').
Proof.
  intros Hx Hnd Hlen. unfold df_setitem_frame. rewrite Hlen, Nat.eqb_refl. cbn [negb].
  destruct (repeated_not_NoDup cs Hnd) as (c & Hc & Hrep).
  assert (exists p, p ∈ zip cs (map snd fr) /\ repeated (fst p) cs = true) as Hp.
  { apply list_elem_of_lookup in Hc as [i Hi].
    destruct (lookup_lt_is_Some_2 (map snd fr) i) as [v Hv].
    { rewrite length_map, <- Hlen. by eapply lookup_lt_Some. }
    exists (c, v). split; [|done]. apply list_elem_of_lookup. exists i.
    apply lookup_zip_with_Some. eauto. }
  clear Hc Hrep c Hlen. revert h Tcur Hx Hp.
  generalize (zip cs (map snd fr)) as pairs.
  induction pairs as [|q pairs IH]; intros h Tcur Hx (p & Hin & Hrep).
  - by apply elem_of_nil in Hin.
  - cbn [for_]. rewrite bind_run.
    destruct (repeated (fst q) cs) eqn:Hq; [by eexists|].
    rewrite (df_setitem_run x (fst q) (snd q) Tcur) by done.
    apply elem_of_cons in Hin as [->|Hin]; [congruence|].
    apply (IH _ (set_col (fst q) (snd q) Tcur)); [|by eauto].
    apply list_lookup_insert_eq. by eapply lookup_lt_Some.
Qed.

Lemma select_cols_zip (cs : list string) (T : table) :
  NoDup (columns T) ->
  (forall c, c ∈ cs -> c ∈ columns T) ->
  length (select_cols cs T) = length cs /\
  forall c s, (c, s) ∈ zip cs (map snd (astype_category (select_cols cs T))) <->
              c ∈ cs /\ exists col, lookup_col c T = Some col /\
                                    s = mkSeries Category (cells col).
Proof.
  intros HndT. rewrite select_cols_unique by done.
  unfold astype_category. induction cs as [|c0 cs IH]; intros Hcs.
  - split; [done|]. intros c s. cbn. split; [by intros ?%elem_of_nil|].
    by intros [?%elem_of_nil _].
  - destruct (lookup_col_is_Some c0 T) as [col0 Hcol0]; [apply Hcs; left|].
    destruct IH as [IHl IHz]; [intros c Hc; apply Hcs; by right|].
    cbn [omap list_omap]. rewrite Hcol0. cbn. split; [by rewrite IHl|].
    intros c s. rewrite elem_of_cons, IHz. split.
    + intros [[= -> ->]|[Hc Hs]]; [|split; [by right|done]].
      split; [left|]. eauto.
    + intros [[->|Hc]%elem_of_cons (col & Hcol & ->)].
      * left. congruence.
      * right. eauto.
Qed.

(** X14. CatCaster.transform on a frame with distinct column names that
    has every column to cast (as is the case after fit on that frame): when
    the names to cast are distinct, it returns a new frame with the same
    columns in the same order, in which each column to cast has the
    categorical dtype and the cells it had, and every other column is as it
    was; when a name to cast occurs more than once, it raises ValueError
    ("Columns must be same length as key").  When a column to cast is
    absent, transform raises KeyError for such a column, whatever the names
    of the frame. *)
Theorem CatCaster_transform_casts (self : CatCaster.t) (h : heap) (x : loc) (T : table) :
  h !! x = Some T ->
  let cols := CatCaster.cols_to_cast self in
  let r := run (CatCaster.transform (PyDataFrame x)) self h in
  (NoDup (columns T) -> (forall c, c ∈ cols -> c ∈ columns T) ->
   (NoDup cols ->
    exists (l : loc) (T' : table),
      outcome r = inr l /\ heap_after r !! l = Some T' /\ columns T' = columns T /\
      (forall c col, c ∈ cols -> lookup_col c T = Some col ->
                     lookup_col c T' = Some (mkSeries Category (cells col))) /\
      (forall c, c ∉ cols -> lookup_col c T' = lookup_col c T)) /\
   (~ NoDup cols ->
    outcome r = inl (ValueError "Columns must be same length as key"))) /\
  (~ (forall c, c ∈ cols -> c ∈ columns T) ->
   exists c, c ∈ cols /\ (c ∉ columns T) /\ outcome r = inl (KeyError c)) /\
  (forall c, c ∈ CatCaster.cols_to_cast
                   (self_after (run (CatCaster.fit (PyDataFrame x)) self h)) ->
             c ∈ columns T).
Proof.
  intros Hx cols r.
  assert (r = match missing_col cols T with
              | Some c => (inl (KeyError c), self, h ++ [T])
              | None =>
                  match df_setitem_frame (length h) cols
                          (astype_category (select_cols cols T)) self (h ++ [T]) with
                  | (inr _, s', h') => (inr (length h), s', h')
                  | (inl e, s', h') => (inl e, s', h')
                  end
              end) as Hr.
  { unfold r, run, CatCaster.transform.
    rewrite bind_run, check_transform_off_run.
    rewrite bind_run, (df_copy_run x T) by done.
    rewrite bind_run. cbn [get_self]. fold cols.
    rewrite bind_run, (df_select_run x cols T) by (by apply lookup_app_l_Some).
    destruct (missing_col cols T) as [c|] eqn:Hm; [done|].
    rewrite bind_run.
    by destruct (df_setitem_frame _ _ _ self (h ++ [T])) as [[[e|[]] s'] h']. }
  split_and!.
  - intros HndT Hall. destruct (select_cols_zip cols T HndT Hall) as [Hl Hz].
    pose proof (proj2 (missing_col_None cols T) Hall) as Hm.
    assert (length cols = length (astype_category (select_cols cols T))) as Hlen
      by (unfold astype_category; by rewrite length_map).
    split.
    + intros Hnd.
      destruct (setitem_loop (length h)
                  (zip cols (map snd (astype_category (select_cols cols T)))) self)
        with (h := h ++ [T]) (Tcur := T) as (T' & Hrun & Hin & Hout & Hcols).
      { intros c s s' (_ & col & Hcol & ->)%Hz (_ & col' & Hcol' & ->)%Hz. congruence. }
      { apply df_alloc_lookup. }
      assert (forall c, c ∈ (zip cols (map snd (astype_category (select_cols cols T)))).*1
                        <-> c ∈ cols) as Hkeys.
      { intros c. rewrite list_elem_of_fmap. split.
        - intros ([c' s] & -> & Hp%Hz). tauto.
        - intros Hc. destruct (lookup_col_is_Some c T (Hall c Hc)) as [col Hcol].
          exists (c, mkSeries Category (cells col)). split; [done|]. apply Hz. eauto. }
      rewrite Hr, Hm, df_setitem_frame_run, Hrun by done.
      exists (length h), T'. split_and!.
      * done.
      * apply list_lookup_insert_eq. rewrite length_app. cbn. lia.
      * apply Hcols. intros c Hc%Hkeys. by apply Hall.
      * intros c col Hc Hcol. apply Hin, Hz. eauto.
      * intros c Hc. apply Hout. by rewrite Hkeys.
    + intros Hnd.
      destruct (df_setitem_frame_repeated (length h) cols
                  (astype_category (select_cols cols T)) self (h ++ [T]) T)
        as [h' Hrun]; [apply df_alloc_lookup|done..|].
      by rewrite Hr, Hm, Hrun.
  - intros Hnot. destruct (missing_col cols T) as [c|] eqn:Hm.
    + exists c. apply missing_col_Some in Hm as [? ?]. rewrite Hr. done.
    + destruct Hnot. by apply missing_col_None.
  - rewrite (CatCaster_fit_run self h x T Hx). cbn.
    by intros c [_ ?]%elem_of_filter_mem.
Qed.

Lemma CatCaster_transform_casts_witness :
  let T := frame [("col_1", ints [1; 2; 3]); ("col_2", [VStr "a"; VStr "b"; VStr "c"]);
                  ("col_3", ints [4; 5; 6])] in
  let r := run (CatCaster.transform (PyDataFrame 0)) (CatCaster.mk ["col_2"; "col_1"]) [T] in
  let r2 := run (CatCaster.transform (PyDataFrame 0)) (CatCaster.mk ["col_1"; "col_1"]) [T] in
  (exists (l : loc) (T' : table),
     outcome r = inr l /\ heap_after r !! l = Some T' /\ columns T' = columns T /\
     lookup_col "col_2" T' = Some (mkSeries Category [VStr "a"; VStr "b"; VStr "c"]) /\
     lookup_col "col_3" T' = lookup_col "col_3" T) /\
  outcome r2 = inl (ValueError "Columns must be same length as key").
Proof.
  intros T r r2.
  assert (NoDup (columns T)) as HndT by (cbn; distinct_names).
  split.
  - destruct (proj1 (CatCaster_transform_casts (CatCaster.mk ["col_2"; "col_1"])
                       [T] 0%nat T eq_refl) HndT) as [Hok _].
    { intros c Hc%list_elem_of_In. apply list_elem_of_In. cbn in *. tauto. }
    destruct Hok as (l & T' & Hl & HT' & Hc & Hin & Hout); [cbn; distinct_names|].
    exists l, T'. split_and!; [done..| |].
    + apply (Hin "col_2" (mkSeries Plain [VStr "a"; VStr "b"; VStr "c"]));
        [apply list_elem_of_In; cbn; tauto|reflexivity].
    + apply Hout. intros Hc'%list_elem_of_In. cbn in Hc'.
      destruct Hc' as [Hc'|[Hc'|[]]]; discriminate Hc'.
  - apply (proj1 (CatCaster_transform_casts (CatCaster.mk ["col_1"; "col_1"])
                    [T] 0%nat T eq_refl) HndT).
    + intros c Hc%list_elem_of_In. apply list_elem_of_In. cbn in *. tauto.
    + intros Hnd. apply NoDup_cons in Hnd as [Hnot _]. apply Hnot. left.
Defined.

Lemma ScalerPicker_get_scaler_class_run `{Sklearn} (self : ScalerPicker.t) (h : heap) :
  ScalerPicker._get_scaler_class self h =
  match scaler_class_of (ScalerPicker.scaler_type self) with
  | Some cls => (inr (Some cls), self, h)
  | None =>
      if String.eqb (ScalerPicker.scaler_type self) "skip" then (inr None, self, h)
      else (inl (ValueError ("unknown scaler type " +:+ ScalerPicker.scaler_type self
                             +:+ " should be standard or minmax")), self, h)
  end.
Proof.
  unfold ScalerPicker._get_scaler_class, scaler_class_of.
  rewrite bind_run. cbn [get_self].
  repeat (case_match; [done|]). done.
Qed.

(** X15. ScalerPicker with scaler type "skip": fit succeeds on any frame
    and a later transform of any frame returns a new frame equal to its
    input.  With a scaler type that is none of "standard", "minmax",
    "robust", "power" and "skip", fit raises ValueError, having already
    overwritten the configured columns with those present in the frame, and
    leaves the scaler as it was, so that on a fresh instance a later
    transform raises the Not-Fitted error. *)
Theorem ScalerPicker_skip_or_unknown `{Sklearn} (self : ScalerPicker.t) (h : heap)
    (x : loc) (T : table) :
  h !! x = Some T ->
  scaler_class_of (ScalerPicker.scaler_type self) = None ->
  let kept := filter (fun col => mem col (columns T)) (ScalerPicker.cols_to_scale self) in
  let r := run (ScalerPicker.fit (PyDataFrame x)) self h in
  (ScalerPicker.scaler_type self = "skip" ->
   r = (inr tt, ScalerPicker.mk kept "skip" (Some ScalerPicker.Skip), h) /\
   forall (h' : heap) (x' : loc) (T' : table),
     h' !! x' = Some T' ->
     run (ScalerPicker.transform (PyDataFrame x')) (self_after r) h'
       = (inr (length h'), self_after r, h' ++ [T'])) /\
  (ScalerPicker.scaler_type self <> "skip" ->
   (exists msg, outcome r = inl (ValueError msg)) /\
   self_after r = ScalerPicker.mk kept (ScalerPicker.scaler_type self)
                                  (ScalerPicker.scaler self) /\
   heap_after r = h /\
   (ScalerPicker.scaler self = None ->
    forall (X' : pyval) (h' : heap),
      outcome (run (ScalerPicker.transform X') (self_after r) h') = inl not_a_frame \/
      not_fitted (outcome (run (ScalerPicker.transform X') (self_after r) h')))).
Proof.
  intros Hx Hcls kept r.
  assert (r = if String.eqb (ScalerPicker.scaler_type self) "skip"
              then (inr tt, ScalerPicker.mk kept (ScalerPicker.scaler_type self)
                                            (Some ScalerPicker.Skip), h)
              else (inl (ValueError ("unknown scaler type " +:+ ScalerPicker.scaler_type self
                                     +:+ " should be standard or minmax")),
                    ScalerPicker.mk kept (ScalerPicker.scaler_type self)
                                    (ScalerPicker.scaler self), h)) as Hr.
  { unfold r, run, ScalerPicker.fit.
    rewrite bind_run. cbn [check_fill mret M_ret].
    rewrite bind_run, (df_columns_run x T) by done.
    rewrite bind_run. cbn [get_self].
    rewrite bind_run. cbn [set_self]. fold kept.
    rewrite bind_run, ScalerPicker_get_scaler_class_run.
    cbn [ScalerPicker.set_cols_to_scale ScalerPicker.scaler_type]. rewrite Hcls.
    destruct (String.eqb (ScalerPicker.scaler_type self) "skip"); done. }
  split.
  - intros Hskip. rewrite Hr, Hskip. cbn [String.eqb Ascii.eqb Bool.eqb]. split; [done|].
    intros h' x' T' Hx'. cbn [self_after fst snd].
    unfold run, ScalerPicker.transform.
    rewrite bind_run. cbn [get_self].
    rewrite bind_run, check_transform_run by done.
    rewrite bind_run, (df_copy_run x' T') by done. done.
  - intros Hskip. apply String.eqb_neq in Hskip. rewrite Hr, Hskip.
    split_and!; [by eexists|done..|].
    intros Hnone X' h'. cbn [self_after fst snd]. rewrite Hnone.
    unfold run, ScalerPicker.transform. rewrite bind_run. cbn [get_self].
    rewrite bind_run. destruct X'; cbn; first [by left | right; by eexists].
Qed.

Lemma ScalerPicker_skip_or_unknown_witness :
  let T := frame [("col_1", ints [1; 2; 3]); ("col_2", ints [4; 5; 6])] in
  let fit_of ty := run (ScalerPicker.fit (H:=Reference.sklearn) (PyDataFrame 0))
                       (ScalerPicker.__init__ ["col_1"; "col_9"] ty) [T] in
  fit_of "skip" = (inr tt, ScalerPicker.mk ["col_1"] "skip" (Some ScalerPicker.Skip), [T]) /\
  (exists msg, outcome (fit_of "maxabs") = inl (ValueError msg)) /\
  self_after (fit_of "maxabs") = ScalerPicker.mk ["col_1"] "maxabs" None.
Proof.
  intros T fit_of.
  pose proof (ScalerPicker_skip_or_unknown (H:=Reference.sklearn)
                (ScalerPicker.__init__ ["col_1"; "col_9"] "skip") [T] 0%nat T
                eq_refl eq_refl) as [Hs _].
  pose proof (ScalerPicker_skip_or_unknown (H:=Reference.sklearn)
                (ScalerPicker.__init__ ["col_1"; "col_9"] "maxabs") [T] 0%nat T
                eq_refl eq_refl) as [_ Hu].
  destruct (Hs eq_refl) as [Hfit _].
  destruct Hu as (Hmsg & Hself & _); [discriminate|].
  split_and!; [exact Hfit|exact Hmsg|exact Hself].
Defined.

Lemma zip_NoDup_functional {A B} (l : list A) (k : list B) (a : A) (b b' : B) :
  NoDup l -> (a, b) ∈ zip l k -> (a, b') ∈ zip l k -> b = b'.
Proof.
  intros Hnd [i Hi]%list_elem_of_lookup [j Hj]%list_elem_of_lookup.
  apply lookup_zip_with_Some in Hi as (a1 & b1 & [= <- <-] & Hi1 & Hi2).
  apply lookup_zip_with_Some in Hj as (a2 & b2 & [= <- <-] & Hj1 & Hj2).
  assert (i = j) as -> by (eapply NoDup_lookup; eauto). congruence.
Qed.

Lemma lookup_map {A B} (f : A -> B) (l : list A) (i : nat) :
  map f l !! i = f <$> l !! i.
Proof. revert i. induction l as [|a l IH]; intros [|i]; cbn; auto. Qed.

(** X16. ScalerPicker with a scaler type that names an estimator: fit
    keeps the configured columns present in the frame and fits the
    estimator on exactly these columns of the frame; when the estimator
    raises, so does fit, with the scaler left as it was.  A later transform
    of a frame that has these columns returns a new frame with the same
    columns, in which the i-th kept column is the i-th column the fitted
    estimator returns for the kept columns of the input, and every other
    column is as it was. *)
Theorem ScalerPicker_delegates `{Sklearn} (self : ScalerPicker.t) (h : heap)
    (x : loc) (T : table) (cls : scaler_class) :
  h !! x = Some T ->
  scaler_class_of (ScalerPicker.scaler_type self) = Some cls ->
  let kept := filter (fun col => mem col (columns T)) (ScalerPicker.cols_to_scale self) in
  let r := run (ScalerPicker.fit (PyDataFrame x)) self h in
  match sk_scaler_fit cls (select_cols kept T) with
  | inl msg =>
      r = (inl (SklearnError msg),
           ScalerPicker.mk kept (ScalerPicker.scaler_type self) (ScalerPicker.scaler self), h)
  | inr sc =>
      r = (inr tt, ScalerPicker.mk kept (ScalerPicker.scaler_type self)
                                   (Some (ScalerPicker.Fitted sc)), h) /\
      forall (h' : heap) (x' : loc) (T' : table) (out : table),
        h' !! x' = Some T' ->
        NoDup kept ->
        (forall c, c ∈ kept -> c ∈ columns T') ->
        sk_scaler_transform sc (select_cols kept T') = inr out ->
        length out = length kept ->
        exists T'',
          run (ScalerPicker.transform (PyDataFrame x')) (self_after r) h'
            = (inr (length h'), self_after r, h' ++ [T'']) /\
          columns T'' = columns T' /\
          (forall (i : nat) c s, kept !! i = Some c -> out !! i = Some s ->
                                 lookup_col c T'' = Some (snd s)) /\
          (forall c, c ∉ kept -> lookup_col c T'' = lookup_col c T')
  end.
Proof.
  intros Hx Hcls kept r.
  assert (missing_col kept T = None) as Hkept.
  { apply missing_col_None. by intros c [_ ?]%elem_of_filter_mem. }
  assert (r = match sk_scaler_fit cls (select_cols kept T) with
              | inl msg => (inl (SklearnError msg),
                            ScalerPicker.mk kept (ScalerPicker.scaler_type self)
                                            (ScalerPicker.scaler self), h)
              | inr sc => (inr tt, ScalerPicker.mk kept (ScalerPicker.scaler_type self)
                                                   (Some (ScalerPicker.Fitted sc)), h)
              end) as Hr.
  { unfold r, run, ScalerPicker.fit.
    rewrite bind_run. cbn [check_fill mret M_ret].
    rewrite bind_run, (df_columns_run x T) by done.
    rewrite bind_run. cbn [get_self].
    rewrite bind_run. cbn [set_self]. fold kept.
    rewrite bind_run, ScalerPicker_get_scaler_class_run.
    cbn [ScalerPicker.set_cols_to_scale ScalerPicker.scaler_type]. rewrite Hcls.
    rewrite bind_run. cbn [get_self ScalerPicker.cols_to_scale].
    rewrite bind_run, (df_select_run x kept T) by done. rewrite Hkept.
    rewrite bind_run.
    destruct (sk_scaler_fit cls (select_cols kept T)) as [msg|sc] eqn:Hfit; [done|].
    cbn [sk mret M_ret].
    rewrite bind_run. cbn [set_self].
    rewrite bind_run. cbn [get_self ScalerPicker.set_scaler ScalerPicker.cols_to_scale].
    rewrite bind_run, (df_select_run x kept T) by done. rewrite Hkept.
    rewrite bind_run, Hfit. done. }
  destruct (sk_scaler_fit cls (select_cols kept T)) as [msg|sc]; [done|].
  split; [done|].
  intros h' x' T' out Hx' Hnd Hall Hout Hlen. rewrite Hr. cbn [self_after fst snd].
  destruct (setitem_loop (length h') (zip kept (map snd out))
              (ScalerPicker.mk kept (ScalerPicker.scaler_type self)
                               (Some (ScalerPicker.Fitted sc))))
    with (h := h' ++ [T']) (Tcur := T') as (T'' & Hrun & Hin & Hothers & Hcols).
  { intros c s s'. by apply zip_NoDup_functional. }
  { apply df_alloc_lookup. }
  assert ((zip kept (map snd out)).*1 = kept) as Hkeys.
  { apply fst_zip. rewrite length_map. lia. }
  exists T''. split_and!.
  - unfold run, ScalerPicker.transform.
    rewrite bind_run. cbn [get_self].
    rewrite bind_run, check_transform_run by done.
    rewrite bind_run, (df_copy_run x' T') by done.
    cbn [ScalerPicker.scaler ScalerPicker.cols_to_scale].
    rewrite bind_run, (df_select_run (length h') kept T') by apply df_alloc_lookup.
    rewrite (proj2 (missing_col_None kept T') Hall).
    rewrite bind_run, Hout. cbn [sk mret M_ret].
    rewrite bind_run, df_setitem_frame_run, Hrun by done.
    f_equal. rewrite insert_app_r_alt, Nat.sub_diag by done. done.
  - apply Hcols. rewrite Hkeys. done.
  - intros i c s Hc Hs. apply Hin. apply list_elem_of_lookup. exists i.
    apply lookup_zip_with_Some. exists c, (snd s). split_and!; [done..|].
    rewrite lookup_map. unfold table in Hs. by rewrite Hs.
  - intros c Hc. apply Hothers. by rewrite Hkeys.
Qed.

Lemma ScalerPicker_delegates_witness :
  let T := frame [("col_1", ints [1; 2; 3]); ("col_2", ints [4; 5; 6])] in
  let self := ScalerPicker.__init__ (H:=Reference.sklearn) ["col_2"; "col_9"] "minmax" in
  let r := run (ScalerPicker.fit (PyDataFrame 0)) self [T] in
  exists T'',
    run (ScalerPicker.transform (PyDataFrame 0)) (self_after r) [T]
      = (inr 1%nat, self_after r, [T; T'']) /\
    lookup_col "col_2" T'' = Some (mkSeries Plain [VNum (0 # 2); VNum (1 # 2); VNum (2 # 2)]) /\
    lookup_col "col_1" T'' = lookup_col "col_1" T.
Proof.
  intros T self r.
  pose proof (ScalerPicker_delegates (H:=Reference.sklearn) self [T] 0%nat T MinMaxScaler
                eq_refl eq_refl) as Hd.
  cbv zeta in Hd.
  fold T in Hd. fold r in Hd.
  change (filter (fun col => mem col (columns T)) (ScalerPicker.cols_to_scale self))
    with ["col_2"] in Hd.
  change (sk_scaler_fit MinMaxScaler (select_cols ["col_2"] T))
    with (inr [("col_2", (4%Q, 2%Q))] : string + sk_scaler) in Hd.
  destruct Hd as [_ Ht].
  destruct (Ht [T] 0%nat T
              [("col_2", mkSeries Plain [VNum ((4 - 4) / 2); VNum ((5 - 4) / 2);
                                         VNum ((6 - 4) / 2)])] eq_refl)
    as (T'' & Hrun & _ & Hin & Hout).
  - apply NoDup_singleton.
  - intros c ->%list_elem_of_singleton. apply list_elem_of_In. cbn. tauto.
  - reflexivity.
  - reflexivity.
  - exists T''. split_and!.
    + exact Hrun.
    + pose proof (Hin 0%nat "col_2" _ eq_refl eq_refl) as H2. cbn [snd] in H2.
      rewrite H2. reflexivity.
    + apply Hout. by intros ?%list_elem_of_singleton.
Defined.

(* ===================================================================== *)
(** ** Further properties: SimpleImputerPicker *)
(* ===================================================================== *)

(** fit, once past its two guards, is the strategy dispatch on the
    instance whose unset configuration was replaced by the columns. *)
Lemma SimpleImputerPicker_fit_run `{Sklearn} (self : SimpleImputerPicker.t) (h : heap)
    (x : loc) (T : table) :
  h !! x = Some T -> any_all_null T = false ->
  run (SimpleImputerPicker.fit (PyDataFrame x)) self h
  = SimpleImputerPicker.fit_strategy x
      (SimpleImputerPicker.set_cols_to_impute
         (Some (default (SimpleImputerPicker.OfList (columns T))
                        (SimpleImputerPicker.cols_to_impute self))) self) h.
Proof.
  intros Hx Hnull. unfold run, SimpleImputerPicker.fit.
  rewrite bind_run. cbn [check_fill mret M_ret].
  rewrite bind_run, (df_read_run x T) by done. rewrite Hnull.
  rewrite bind_run. cbn [get_self]. rewrite bind_run.
  destruct self as [[cfg|] st imp]; reflexivity.
Qed.

Lemma SimpleImputerPicker_unfitted `{Sklearn} (self : SimpleImputerPicker.t) :
  truthy (SimpleImputerPicker.imputer self) = false ->
  forall (X' : pyval) (h' : heap),
    outcome (run (SimpleImputerPicker.transform X') self h') = inl not_a_frame \/
    not_fitted (outcome (run (SimpleImputerPicker.transform X') self h')).
Proof.
  intros Ht X' h'. unfold run, SimpleImputerPicker.transform.
  rewrite bind_run. cbn [get_self]. rewrite bind_run.
  unfold check_transform. rewrite bind_run.
  destruct X'; cbn [check_fill raise mret M_ret]; try by left.
  rewrite Ht. right. by eexists.
Qed.

(** X17. SimpleImputerPicker.fit on a frame without an entirely null
    column, when strategy and configuration do not fit together.  An
    unknown strategy raises ValueError, the imputer stays as it was and an
    unset configuration has already been replaced by the frame's columns.
    Strategy "constant" with a list of names raises AttributeError after
    the imputer was set to the empty dict.  Strategy "max" with a dict
    returns normally with the empty dict as the imputer.  In the last two
    cases a later transform of a frame raises the Not-Fitted error. *)
Theorem SimpleImputerPicker_fit_mismatch `{Sklearn} (self : SimpleImputerPicker.t)
    (h : heap) (x : loc) (T : table) :
  h !! x = Some T -> any_all_null T = false ->
  let r := run (SimpleImputerPicker.fit (PyDataFrame x)) self h in
  let st := SimpleImputerPicker.strategy self in
  let cfg := SimpleImputerPicker.cols_to_impute self in
  let unfitted (s : SimpleImputerPicker.t) :=
    SimpleImputerPicker.imputer s = Some (SimpleImputerPicker.Imputers []) /\
    forall (X' : pyval) (h' : heap),
      outcome (run (SimpleImputerPicker.transform X') s h') = inl not_a_frame \/
      not_fitted (outcome (run (SimpleImputerPicker.transform X') s h')) in
  ((st ∉ ["constant"; "mean"; "median"; "most_frequent"; "max"]) ->
   (exists msg, outcome r = inl (ValueError msg)) /\
   SimpleImputerPicker.imputer (self_after r) = SimpleImputerPicker.imputer self /\
   SimpleImputerPicker.cols_to_impute (self_after r)
     = Some (default (SimpleImputerPicker.OfList (columns T)) cfg)) /\
  (st = "constant" -> (exists l, cfg = Some (SimpleImputerPicker.OfList l)) ->
   (exists msg, outcome r = inl (AttributeError msg)) /\ unfitted (self_after r)) /\
  (st = "max" -> (exists d, cfg = Some (SimpleImputerPicker.OfDict d)) ->
   outcome r = inr tt /\ unfitted (self_after r)).
Proof.
  intros Hx Hnull r st cfg unfitted.
  unfold r. rewrite (SimpleImputerPicker_fit_run self h x T Hx Hnull).
  destruct self as [cfg0 st0 imp0]. cbn in st, cfg. subst st cfg.
  unfold SimpleImputerPicker.fit_strategy, SimpleImputerPicker.set_cols_to_impute.
  cbn [SimpleImputerPicker.strategy SimpleImputerPicker.imputer
       SimpleImputerPicker.cols_to_impute].
  rewrite bind_run, (df_columns_run x T) by done.
  rewrite bind_run. cbn [get_self SimpleImputerPicker.strategy].
  split_and!.
  - intros Hst.
    assert (forall s, s ∈ ["constant"; "mean"; "median"; "most_frequent"; "max"] ->
                      String.eqb st0 s = false) as Hne.
    { intros s Hs. apply String.eqb_neq. by intros ->. }
    rewrite !Hne by (apply list_elem_of_In; cbn; tauto).
    cbn. split_and!; [by eexists|done..].
  - intros -> [l ->]. cbn. split; [by eexists|]. split; [done|].
    by apply SimpleImputerPicker_unfitted.
  - intros -> [d ->]. cbn. split; [done|]. split; [done|].
    by apply SimpleImputerPicker_unfitted.
Qed.

Lemma SimpleImputerPicker_fit_mismatch_witness :
  let T := frame [("col_1", [VNum 1; VNull]); ("col_2", [VNull; VNum 2])] in
  let fit_of st cfg :=
    run (SimpleImputerPicker.fit (H:=Reference.sklearn) (PyDataFrame 0))
        (SimpleImputerPicker.mk cfg st None) [T] in
  (exists msg, outcome (fit_of "mode" None) = inl (ValueError msg)) /\
  SimpleImputerPicker.cols_to_impute (self_after (fit_of "mode" None))
    = Some (SimpleImputerPicker.OfList ["col_1"; "col_2"]) /\
  (exists msg, outcome (fit_of "constant" (Some (SimpleImputerPicker.OfList ["col_1"])))
               = inl (AttributeError msg)) /\
  outcome (fit_of "max" (Some (SimpleImputerPicker.OfDict [(["col_1"], VNum 0)]))) = inr tt.
Proof.
  intros T fit_of.
  pose proof (fun st cfg =>
                SimpleImputerPicker_fit_mismatch (H:=Reference.sklearn)
                  (SimpleImputerPicker.mk cfg st None) [T] 0%nat T eq_refl eq_refl) as Hm.
  cbv zeta in Hm.
  destruct (Hm "mode" None) as ((Hmsg & _ & Hcfg) & _ & _).
  { intros Hin%list_elem_of_In. cbn in Hin.
    destruct Hin as [Hin|[Hin|[Hin|[Hin|[Hin|[]]]]]]; discriminate Hin. }
  destruct (Hm "constant" (Some (SimpleImputerPicker.OfList ["col_1"])))
    as (_ & [Hc _] & _); [reflexivity|by eexists|].
  destruct (Hm "max" (Some (SimpleImputerPicker.OfDict [(["col_1"], VNum 0)])))
    as (_ & _ & [Hx _]); [reflexivity|by eexists|].
  split_and!; [exact Hmsg|exact Hcfg|exact Hc|exact Hx].
Defined.

(** X18. SimpleImputerPicker with strategy "mean", "median" or
    "most_frequent", fitted on a frame without an entirely null column:
    fit fits one estimator of that strategy on the configured columns
    present in the frame (all columns when the configuration is unset, none
    when it is a dict) and raises when the estimator raises.  A later
    transform hands the whole copy of its input to that estimator, not only
    the configured columns, and returns what the estimator returns as a new
    frame. *)
Theorem SimpleImputerPicker_statistic `{Sklearn} (self : SimpleImputerPicker.t)
    (h : heap) (x : loc) (T : table) :
  h !! x = Some T -> any_all_null T = false ->
  SimpleImputerPicker.strategy self ∈ ["mean"; "median"; "most_frequent"] ->
  let r := run (SimpleImputerPicker.fit (PyDataFrame x)) self h in
  let kept :=
    match SimpleImputerPicker.cols_to_impute self with
    | None => columns T
    | Some (SimpleImputerPicker.OfList l) => filter (fun col => mem col (columns T)) l
    | Some (SimpleImputerPicker.OfDict _) => []
    end in
  match sk_imputer_fit (SimpleImputerPicker.strategy self) None (select_cols kept T) with
  | inl msg =>
      outcome r = inl (SklearnError msg) /\
      SimpleImputerPicker.imputer (self_after r) = SimpleImputerPicker.imputer self
  | inr imp =>
      outcome r = inr tt /\
      SimpleImputerPicker.imputer (self_after r) = Some (SimpleImputerPicker.OneImputer imp) /\
      forall (h' : heap) (x' : loc) (T' : table),
        h' !! x' = Some T' ->
        run (SimpleImputerPicker.transform (PyDataFrame x')) (self_after r) h'
        = match sk_imputer_transform imp T' with
          | inl msg => (inl (SklearnError msg), self_after r, h' ++ [T'])
          | inr out => (inr (S (length h')), self_after r, h' ++ [T'; out])
          end
  end.
Proof.
  intros Hx Hnull Hst r kept.
  unfold r. rewrite (SimpleImputerPicker_fit_run self h x T Hx Hnull).
  destruct self as [cfg0 st0 imp0].
  cbn [SimpleImputerPicker.strategy SimpleImputerPicker.cols_to_impute] in *.
  unfold SimpleImputerPicker.fit_strategy, SimpleImputerPicker.set_cols_to_impute.
  cbn [SimpleImputerPicker.strategy SimpleImputerPicker.imputer
       SimpleImputerPicker.cols_to_impute].
  rewrite bind_run, (df_columns_run x T) by done.
  rewrite bind_run. cbn [get_self SimpleImputerPicker.strategy].
  assert (String.eqb st0 "constant" = false /\ String.eqb st0 "max" = false /\
          (String.eqb st0 "mean" || String.eqb st0 "median"
           || String.eqb st0 "most_frequent") = true) as (Hc & Hmax & Hs).
  { apply list_elem_of_In in Hst. cbn in Hst.
    destruct Hst as [<-|[<-|[<-|[]]]]; done. }
  rewrite Hc, Hs. cbn [SimpleImputerPicker.cols_to_impute].
  set (s1 := SimpleImputerPicker.mk _ st0 imp0).
  assert (SimpleImputerPicker.present_cols
            (Some (default (SimpleImputerPicker.OfList (columns T)) cfg0)) (columns T) s1 h
          = (inr kept, s1, h)) as Hpc.
  { unfold kept. destruct cfg0 as [[d|l]|]; cbn; [done..|].
    rewrite filter_everything; [done|]. intros c Hc'. by apply mem_elem_of. }
  rewrite bind_run, Hpc.
  assert (missing_col kept T = None) as Hkept.
  { apply missing_col_None. unfold kept.
    destruct cfg0 as [[d|l]|]; [by intros c ?%elem_of_nil| |done].
    by intros c [_ ?]%elem_of_filter_mem. }
  rewrite bind_run, (df_select_run x kept T) by done. rewrite Hkept.
  rewrite bind_run.
  destruct (sk_imputer_fit st0 None (select_cols kept T)) as [msg|imp]; [done|].
  cbn [sk mret M_ret set_self outcome self_after fst snd SimpleImputerPicker.set_imputer
       SimpleImputerPicker.imputer].
  split_and!; [done..|].
  intros h' x' T' Hx'. unfold run, SimpleImputerPicker.transform.
  rewrite bind_run. cbn [get_self].
  rewrite bind_run, check_transform_run by done.
  rewrite bind_run, (df_copy_run x' T') by done.
  subst s1.
  cbn [SimpleImputerPicker.set_imputer SimpleImputerPicker.strategy
       SimpleImputerPicker.imputer SimpleImputerPicker.cols_to_impute].
  rewrite Hc, Hmax.
  rewrite bind_run, (df_read_run (length h') T') by apply df_alloc_lookup.
  rewrite bind_run.
  destruct (sk_imputer_transform imp T') as [msg|out]; [done|].
  cbn [sk mret M_ret]. rewrite bind_run. unfold df_alloc.
  rewrite length_app, <- app_assoc. cbn. by rewrite Nat.add_1_r.
Qed.

Lemma SimpleImputerPicker_statistic_witness :
  let T := frame [("col_1", [VNum 1; VNull; VNum 3]); ("col_2", [VNull; VNum 2; VNum 4])] in
  let self := SimpleImputerPicker.mk (H:=Reference.sklearn) None "mean" None in
  let r := run (SimpleImputerPicker.fit (PyDataFrame 0)) self [T] in
  outcome r = inr tt /\
  run (SimpleImputerPicker.transform (PyDataFrame 0)) (self_after r) [T]
  = (inr 2%nat, self_after r,
     [T; T; frame [("col_1", [VNum 1; VNum (4 # 2); VNum 3]);
                   ("col_2", [VNum (6 # 2); VNum 2; VNum 4])]]).
Proof.
  intros T self r.
  pose proof (SimpleImputerPicker_statistic (H:=Reference.sklearn) self [T] 0%nat T
                eq_refl eq_refl) as Hs.
  cbv zeta in Hs. fold T in Hs. fold r in Hs.
  change (sk_imputer_fit (SimpleImputerPicker.strategy self) None
            (select_cols
               match SimpleImputerPicker.cols_to_impute self with
               | Some (SimpleImputerPicker.OfDict _) => []
               | Some (SimpleImputerPicker.OfList l) =>
                   filter (fun col => mem col (columns T)) l
               | None => columns T
               end T))
    with (inr [("col_1", VNum (4 # 2)); ("col_2", VNum (6 # 2))] : string + sk_imputer) in Hs.
  destruct Hs as (Hout & _ & Ht).
  - apply list_elem_of_In. cbn. tauto.
  - split; [exact Hout|]. exact (Ht [T] 0%nat T eq_refl).
Defined.

(** Assigning to columns the frame has, where the assignment of some names
    raises instead, changes neither the other columns nor the order of the
    columns. *)
Lemma setitem_loop_frame_guarded {S} (X_ : loc) (guard : string -> bool) (e : exn)
    (pairs : list (string * Series)) (st : S) :
  forall (h : heap) (Tcur : table),
    h !! X_ = Some Tcur ->
    (forall c, c ∈ pairs.*1 -> c ∈ columns Tcur) ->
    exists r T',
      for_ pairs (fun p => if guard (fst p) then raise e
                           else df_setitem X_ (fst p) (snd p)) st h
        = (r, st, <[X_ := T']> h) /\
      columns T' = columns Tcur /\
      (forall c, c ∉ pairs.*1 -> lookup_col c T' = lookup_col c Tcur).
Proof.
  induction pairs as [|[a s] pairs IH]; intros h Tcur Hx Hall.
  - exists (inr tt), Tcur. split_and!; [|done..]. cbn. by rewrite list_insert_id.
  - cbn [for_ fst snd]. rewrite bind_run.
    destruct (guard a).
    { exists (inl e), Tcur. split_and!; [|done..]. cbn. by rewrite list_insert_id. }
    rewrite (df_setitem_run X_ a s Tcur) by done.
    set (T1 := set_col a s Tcur).
    assert (columns T1 = columns Tcur) as H1.
    { apply columns_set_col, lookup_col_is_Some, Hall. left. }
    destruct (IH (<[X_ := T1]> h) T1) as (r & T' & Hrun & Hcols & Hout).
    { apply list_lookup_insert_eq. by eapply lookup_lt_Some. }
    { intros c Hc. rewrite H1. apply Hall. by right. }
    exists r, T'. split_and!.
    + rewrite Hrun. by rewrite list_insert_insert_eq.
    + congruence.
    + intros c [Hca Hcl]%not_elem_of_cons. cbn in Hca. rewrite Hout by done.
      unfold T1. by rewrite lookup_col_set_col_ne.
Qed.

Section Untouched.
Context `{Sklearn} (X_ : loc).

Lemma agrees_refl (h0 : heap) (T0 : table) (touched : list string) :
  h0 !! X_ = Some T0 -> agrees X_ h0 T0 touched h0.
Proof. intros Hx. exists T0. by rewrite list_insert_id. Qed.

Lemma agrees_lookup (h0 h : heap) (T0 : table) (touched : list string) :
  h0 !! X_ = Some T0 -> agrees X_ h0 T0 touched h ->
  exists T', h !! X_ = Some T' /\ columns T' = columns T0 /\
             forall c, c ∉ touched -> lookup_col c T' = lookup_col c T0.
Proof.
  intros Hx (T' & -> & Hc & Ho). exists T'. split_and!; [|done..].
  apply list_lookup_insert_eq. by eapply lookup_lt_Some.
Qed.

Lemma agrees_step (h0 h : heap) (T0 : table) (touched cols : list string)
    (tr : table -> string + table) (s : SimpleImputerPicker.t) :
  h0 !! X_ = Some T0 -> agrees X_ h0 T0 touched h -> cols ⊆ touched ->
  exists r h',
    (sub ← df_select X_ cols; out ← sk (tr sub); df_setitem_frame X_ cols out) s h
      = (r, s, h') /\ agrees X_ h0 T0 touched h'.
Proof.
  intros Hx Hag Hsub.
  destruct (agrees_lookup h0 h T0 touched Hx Hag) as (Tc & Hc & Hcols & Hout).
  rewrite bind_run, (df_select_run X_ cols Tc) by done.
  destruct (missing_col cols Tc) eqn:Hm; [by eexists _, _|].
  rewrite bind_run. destruct (tr (select_cols cols Tc)) as [msg|out]; [by eexists _, _|].
  cbn [sk mret M_ret]. unfold df_setitem_frame.
  destruct (negb _); [by eexists _, _|].
  destruct (setitem_loop_frame_guarded X_ (fun c => repeated c cols)
              (ValueError "Columns must be same length as key")
              (zip cols (map snd out)) s h Tc Hc)
    as (r & T' & -> & Hcols' & Hout').
  { intros c Hc'. apply (proj1 (missing_col_None cols Tc) Hm).
    apply list_elem_of_fmap in Hc' as ([c' s'] & -> & Hp).
    apply list_elem_of_lookup in Hp as [i Hi].
    apply lookup_zip_with_Some in Hi as (a & b & [= <- <-] & Hi1 & _).
    by eapply list_elem_of_lookup_2. }
  eexists _, _. split; [done|].
  destruct Hag as (T1 & -> & _ & _). exists T'. split_and!.
  - by rewrite list_insert_insert_eq.
  - congruence.
  - intros c Hc'. rewrite <- Hout by done. apply Hout'.
    intros Hin. apply Hc', Hsub.
    apply list_elem_of_fmap in Hin as ([c' s'] & -> & Hp).
    apply list_elem_of_lookup in Hp as [i Hi].
    apply lookup_zip_with_Some in Hi as (a & b & [= <- <-] & Hi1 & _).
    by eapply list_elem_of_lookup_2.
Qed.

Lemma agrees_step_one (h0 h : heap) (T0 : table) (touched : list string) (col : string)
    (tr : table -> string + table) (s : SimpleImputerPicker.t) :
  h0 !! X_ = Some T0 -> agrees X_ h0 T0 touched h -> col ∈ touched ->
  exists r h',
    (sub ← df_select X_ [col]; out ← sk (tr sub);
     match out with
     | [(_, c)] => df_setitem X_ col c
     | _ => raise (ValueError "Cannot set a DataFrame with multiple columns to a single column")
     end) s h = (r, s, h') /\ agrees X_ h0 T0 touched h'.
Proof.
  intros Hx Hag Hin.
  destruct (agrees_lookup h0 h T0 touched Hx Hag) as (Tc & Hc & Hcols & Hout).
  rewrite bind_run, (df_select_run X_ [col] Tc) by done.
  destruct (missing_col [col] Tc) eqn:Hm; [by eexists _, _|].
  rewrite bind_run. destruct (tr (select_cols [col] Tc)) as [msg|out]; [by eexists _, _|].
  cbn [sk mret M_ret].
  destruct out as [|[n c] [|]]; [by eexists _, _| |by eexists _, _].
  rewrite (df_setitem_run X_ col c Tc) by done.
  eexists _, _. split; [done|].
  destruct Hag as (T1 & -> & _ & _). exists (set_col col c Tc). split_and!.
  - by rewrite list_insert_insert_eq.
  - rewrite <- Hcols. apply columns_set_col, lookup_col_is_Some.
    apply (proj1 (missing_col_None [col] Tc) Hm). left.
  - intros c' Hc'. rewrite <- Hout by done. apply lookup_col_set_col_ne.
    by intros ->.
Qed.

Lemma agrees_for {A} (h0 : heap) (T0 : table) (touched : list string)
    (l : list A) (body : A -> M SimpleImputerPicker.t unit) :
  (forall a, a ∈ l -> forall s h, agrees X_ h0 T0 touched h ->
     exists r h', body a s h = (r, s, h') /\ agrees X_ h0 T0 touched h') ->
  forall s h, agrees X_ h0 T0 touched h ->
    exists r h', for_ l body s h = (r, s, h') /\ agrees X_ h0 T0 touched h'.
Proof.
  induction l as [|a l IH]; intros Hbody s h Hag.
  - by eexists _, _.
  - cbn [for_]. rewrite bind_run.
    destruct (Hbody a (list_elem_of_here _ _) s h Hag) as ([e|[]] & h1 & -> & Hag1).
    + by eexists _, _.
    + apply IH; [|done]. intros b Hb. apply Hbody. by right.
Qed.
End Untouched.

(** X19. SimpleImputerPicker.transform with strategy "constant" or "max",
    whatever the fitted estimators do: when it returns, the result is a new
    frame with the columns of the input in the same order, and every
    column that is not named in a key of the dict of imputers is as it was
    in the input. *)
Theorem SimpleImputerPicker_transform_untouched `{Sklearn}
    (self : SimpleImputerPicker.t) (h : heap) (x : loc) (T : table) (l : loc) :
  h !! x = Some T ->
  SimpleImputerPicker.strategy self ∈ ["constant"; "max"] ->
  let r := run (SimpleImputerPicker.transform (PyDataFrame x)) self h in
  outcome r = inr l ->
  l = length h /\
  exists T', heap_after r = h ++ [T'] /\ columns T' = columns T /\
             forall c, c ∉ imputed_columns self -> lookup_col c T' = lookup_col c T.
Proof.
  intros Hx Hst r. unfold r, run, SimpleImputerPicker.transform.
  rewrite bind_run. cbn [get_self].
  rewrite bind_run.
  destruct (truthy (SimpleImputerPicker.imputer self)) eqn:Ht.
  2:{ unfold check_transform. rewrite bind_run. cbn [check_fill mret M_ret].
      by rewrite Ht. }
  rewrite check_transform_run by done.
  rewrite bind_run, (df_copy_run x T) by done.
  assert ((h ++ [T]) !! length h = Some T) as HX by apply df_alloc_lookup.
  assert (forall T', <[length h := T']> (h ++ [T]) = h ++ [T']) as Hins.
  { intros T'. by rewrite insert_app_r_alt, Nat.sub_diag. }
  assert (String.eqb (SimpleImputerPicker.strategy self) "constant" = false ->
          String.eqb (SimpleImputerPicker.strategy self) "max" = true) as Hmax.
  { apply list_elem_of_In in Hst. cbn in Hst.
    destruct Hst as [Hs|[Hs|[]]]; rewrite <- Hs; done. }
  unfold imputed_columns.
  destruct (String.eqb (SimpleImputerPicker.strategy self) "constant") eqn:Hc.
  - destruct (SimpleImputerPicker.imputer self) as [[d|imp]|] eqn:Himp; [|done..].
    rewrite bind_run.
    set (touched := concat _).
    edestruct (agrees_for (length h) (h ++ [T]) T touched d) with (s := self)
      as (r' & h' & Hrun & Hag); [|by apply agrees_refl|].
    { intros item Hitem s h1 Hag. apply agrees_step; [done..|].
      intros c Hc'. unfold touched. apply list_elem_of_In, in_concat.
      exists (SimpleImputerPicker.py_list (fst item)). split; [|by apply list_elem_of_In].
      apply (in_map (fun item => SimpleImputerPicker.py_list (fst item))).
      by apply list_elem_of_In. }
    rewrite Hrun. destruct r' as [e|[]]; [done|]. cbn.
    intros [= <-]. split; [done|].
    destruct Hag as (T' & -> & Hcols & Ho). exists T'. by rewrite Hins.
  - rewrite (Hmax eq_refl).
    destruct (SimpleImputerPicker.imputer self) as [[d|imp]|] eqn:Himp; [|done..].
    rewrite bind_run.
    set (touched := omap _ d).
    match goal with
    | |- context [for_ d ?body] =>
        destruct (agrees_for (length h) (h ++ [T]) T touched d body)
          with (s := self) (h := h ++ [T]) as (r' & h' & Hrun & Hag);
          [|by apply agrees_refl|]
    end.
    { intros [[cols|col] imp] Hitem s h1 Hag; cbn [fst snd].
      - by eexists _, _.
      - apply agrees_step_one; [done..|]. unfold touched.
        apply list_elem_of_omap. by exists (SimpleImputerPicker.KStr col, imp). }
    rewrite Hrun. destruct r' as [e|[]]; [done|]. cbn.
    intros [= <-]. split; [done|].
    destruct Hag as (T' & -> & Hcols & Ho). exists T'. by rewrite Hins.
Qed.

Lemma SimpleImputerPicker_transform_untouched_witness :
  let T := frame [("col_1", [VNum 1; VNull]); ("col_2", [VNull; VNum 2])] in
  let self := SimpleImputerPicker.mk (H:=Reference.sklearn)
                (Some (SimpleImputerPicker.OfDict [(["col_1"], VNum 0)])) "constant"
                (Some (SimpleImputerPicker.Imputers
                         [(SimpleImputerPicker.KTuple ["col_1"], [("col_1", VNum 0)])])) in
  let r := run (SimpleImputerPicker.transform (PyDataFrame 0)) self [T] in
  outcome r = inr 1%nat /\
  exists T', heap_after r = [T; T'] /\ columns T' = columns T /\
             lookup_col "col_2" T' = lookup_col "col_2" T.
Proof.
  intros T self r. split; [reflexivity|].
  destruct (SimpleImputerPicker_transform_untouched (H:=Reference.sklearn)
              self [T] 0%nat T 1%nat eq_refl) as (_ & T' & Hh & Hc & Ho).
  - apply list_elem_of_In. cbn. tauto.
  - reflexivity.
  - exists T'. split_and!; [exact Hh|exact Hc|]. apply Ho.
    intros Hin%list_elem_of_In. cbn in Hin. destruct Hin as [Hin|[]]. discriminate Hin.
Defined.

Lemma dict_set_fresh {K V} `{EqDecision K} (k : K) (v : V) (d : dict K V) :
  (k ∉ dict_keys d) -> dict_set k v d = d ++ [(k, v)].
Proof.
  induction d as [|[k' v'] d IH]; cbn; [done|].
  intros [Hk Hd]%not_elem_of_cons. rewrite bool_decide_false by done.
  by rewrite IH.
Qed.

Section MaxStrategy.
Context `{Sklearn}.

Lemma SimpleImputerPicker_max_fit_loop (T : table) (h : heap) (x : loc)
    (cfg : option SimpleImputerPicker.config) (st : string) :
  h !! x = Some T ->
  forall (cols : list string) (d : dict SimpleImputerPicker.key sk_imputer),
    Forall2 (learned_max T) cols d ->
    forall (d0 : dict SimpleImputerPicker.key sk_imputer),
      NoDup cols ->
      (forall col, col ∈ cols -> SimpleImputerPicker.KStr col ∉ dict_keys d0) ->
      for_ cols (fun col =>
        c ← df_getitem x col;
        fill_value ← lift (s_max c);
        sub ← df_select x [col];
        imp ← sk (sk_imputer_fit "constant" (Some fill_value) sub);
        SimpleImputerPicker.imputer_setitem (SimpleImputerPicker.KStr col) imp)
        (SimpleImputerPicker.mk cfg st (Some (SimpleImputerPicker.Imputers d0))) h
      = (inr tt, SimpleImputerPicker.mk cfg st
                   (Some (SimpleImputerPicker.Imputers (d0 ++ d))), h).
Proof.
  intros Hx cols d Hl. induction Hl as [|col [k imp] cols d Hitem Hl IH];
    intros d0 Hnd Hfresh.
  - by rewrite app_nil_r.
  - apply NoDup_cons in Hnd as [Hcol Hnd].
    destruct Hitem as (Hk & m & Hm & Hfit). cbn [fst snd] in Hk, Hfit. subst k.
    pose proof Hm as Hm'. unfold column_max in Hm'.
    destruct (lookup_col col T) as [c|] eqn:Hc; [|done].
    destruct (numbers (cells c)) as [e|qs] eqn:Hqs; [done|].
    assert (missing_col [col] T = None) as Hmiss.
    { apply missing_col_None. intros c' ->%list_elem_of_singleton.
      apply has_col_elem_of, lookup_col_has_col. by rewrite Hc. }
    cbn [for_]. rewrite bind_run.
    rewrite bind_run, (df_getitem_run x col T) by done. rewrite Hc.
    rewrite bind_run. unfold s_max at 1. rewrite Hqs, Hm'. cbn [lift of_opt].
    rewrite bind_run, (df_select_run x [col] T) by done. rewrite Hmiss.
    rewrite bind_run, Hfit. cbn [sk mret M_ret].
    unfold SimpleImputerPicker.imputer_setitem at 1.
    rewrite bind_run. cbn [get_self SimpleImputerPicker.imputer set_self
                           SimpleImputerPicker.set_imputer SimpleImputerPicker.cols_to_impute
                           SimpleImputerPicker.strategy].
    rewrite dict_set_fresh by (apply Hfresh; left).
    unfold SimpleImputerPicker.set_imputer.
    cbn [SimpleImputerPicker.cols_to_impute SimpleImputerPicker.strategy].
    rewrite (IH (d0 ++ [(SimpleImputerPicker.KStr col, imp)])); [by rewrite <- app_assoc|done|].
    intros c' Hc'. unfold dict_keys. rewrite map_app. cbn.
    rewrite elem_of_app, list_elem_of_singleton.
    intros [Hin|[= ->]]; [|done]. revert Hin. apply Hfresh. by right.
Qed.

Lemma SimpleImputerPicker_max_transform_loop (T T' : table) (X_ : loc)
    (s : SimpleImputerPicker.t) :
  NoDup (columns T') ->
  forall (cols : list string) (d : dict SimpleImputerPicker.key sk_imputer),
    Forall2 (learned_max T) cols d ->
    forall (outs : table),
      Forall2 (imputed_column T') d outs ->
      NoDup cols ->
      forall (h : heap) (Tcur : table),
        h !! X_ = Some Tcur ->
        columns Tcur = columns T' ->
        (forall col, col ∈ cols -> col ∈ columns T' /\
                                   lookup_col col Tcur = lookup_col col T') ->
        exists T'',
          for_ d (fun item =>
            match fst item with
            | SimpleImputerPicker.KStr col =>
                sub ← df_select X_ [col];
                out ← sk (sk_imputer_transform (snd item) sub);
                match out with
                | [(_, c)] => df_setitem X_ col c
                | _ => raise (ValueError "Cannot set a DataFrame with multiple columns to a single column")
                end
            | SimpleImputerPicker.KTuple _ => raise (KeyError "tuple")
            end) s h = (inr tt, s, <[X_ := T'']> h) /\
          columns T'' = columns T' /\
          (forall (i : nat) col o, cols !! i = Some col -> outs !! i = Some o ->
                                   lookup_col col T'' = Some (snd o)) /\
          (forall col, col ∉ cols -> lookup_col col T'' = lookup_col col Tcur).
Proof.
  intros HndT' cols d Hl. induction Hl as [|col [k imp] cols d Hitem Hl IH];
    intros outs Houts Hnd h Tcur Hx Hcur Hsame.
  - exists Tcur. split_and!; [|done| |done].
    + cbn. by rewrite list_insert_id.
    + by intros i col o [=].
  - apply NoDup_cons in Hnd as [Hcol Hnd].
    destruct Hitem as (Hk & _). cbn [fst] in Hk. subst k.
    apply Forall2_cons_inv_l in Houts as ([n c'] & outs' & Hout & Houts & ->).
    unfold imputed_column in Hout. cbn [fst snd] in Hout.
    destruct (Hsame col) as [Hin Heq]; [left|].
    assert (missing_col [col] Tcur = None) as Hmiss.
    { apply missing_col_None. intros c0 ->%list_elem_of_singleton. by rewrite Hcur. }
    assert (select_cols [col] Tcur = select_cols [col] T') as Hsel.
    { apply select_cols_ext; [by rewrite Hcur|done|].
      by intros c0 ->%list_elem_of_singleton. }
    cbn [for_ fst snd]. rewrite bind_run.
    rewrite bind_run, (df_select_run X_ [col] Tcur) by done. rewrite Hmiss, Hsel.
    rewrite bind_run, Hout. cbn [sk mret M_ret].
    rewrite (df_setitem_run X_ col c' Tcur) by done.
    set (T1 := set_col col c' Tcur).
    assert (columns T1 = columns T') as Hcols1.
    { rewrite <- Hcur. apply columns_set_col, lookup_col_is_Some. by rewrite Hcur. }
    destruct (IH outs' Houts Hnd (<[X_ := T1]> h) T1)
      as (T'' & Hrun & Hcols'' & Hfilled & Hothers); [|done| |].
    { apply list_lookup_insert_eq. by eapply lookup_lt_Some. }
    { intros c1 Hc1. destruct (Hsame c1) as [? Hs1]; [by right|]. split; [done|].
      unfold T1. rewrite lookup_col_set_col_ne; [done|]. by intros ->. }
    exists T''. split_and!.
    + rewrite Hrun. by rewrite list_insert_insert_eq.
    + done.
    + intros [|i] c1 o Hc1 Ho; cbn in Hc1, Ho.
      * injection Hc1 as <-. injection Ho as <-.
        rewrite Hothers by done. unfold T1. by rewrite lookup_col_set_col_eq.
      * by eapply Hfilled.
    + intros c1 [Hne Hc1]%not_elem_of_cons. rewrite Hothers by done.
      unfold T1. by rewrite lookup_col_set_col_ne.
Qed.
End MaxStrategy.

(** X20. SimpleImputerPicker with strategy "max" and a list of distinct
    names, on frames with distinct column names.  fit on a frame without an
    entirely null column fits, for each configured column that is present,
    in the configured order, sklearn's constant imputer with the maximum of
    that column as fill value on that column alone; when each of these fits
    returns, fit returns, with the dict of these estimators under the
    column names and the heap as it was.  A later transform of a frame that
    has these columns hands each estimator its own column of the input;
    when each of them returns one column, transform returns a new frame
    with the columns of the input, in which each such column is the one
    its estimator returned, and every other column is as it was. *)
Theorem SimpleImputerPicker_max_fills `{Sklearn} (cfg : list string)
    (self : SimpleImputerPicker.t) (h : heap) (x : loc) (T : table)
    (d : dict SimpleImputerPicker.key sk_imputer) :
  h !! x = Some T -> any_all_null T = false -> NoDup (columns T) ->
  SimpleImputerPicker.strategy self = "max" ->
  SimpleImputerPicker.cols_to_impute self = Some (SimpleImputerPicker.OfList cfg) ->
  NoDup cfg ->
  let kept := filter (fun col => mem col (columns T)) cfg in
  Forall2 (learned_max T) kept d ->
  let r := run (SimpleImputerPicker.fit (PyDataFrame x)) self h in
  r = (inr tt, SimpleImputerPicker.mk (Some (SimpleImputerPicker.OfList cfg)) "max"
                 (Some (SimpleImputerPicker.Imputers d)), h) /\
  forall (h' : heap) (x' : loc) (T' : table) (outs : table),
    h' !! x' = Some T' -> NoDup (columns T') ->
    kept <> [] ->
    (forall col, col ∈ kept -> col ∈ columns T') ->
    Forall2 (imputed_column T') d outs ->
    exists T'',
      run (SimpleImputerPicker.transform (PyDataFrame x')) (self_after r) h'
        = (inr (length h'), self_after r, h' ++ [T'']) /\
      columns T'' = columns T' /\
      (forall (i : nat) col o, kept !! i = Some col -> outs !! i = Some o ->
                               lookup_col col T'' = Some (snd o)) /\
      (forall col, col ∉ kept -> lookup_col col T'' = lookup_col col T').
Proof.
  intros Hx Hnull HndT Hst Hcfg Hnd kept Hl r.
  assert (NoDup kept) as Hndk by (by apply NoDup_filter).
  destruct self as [cfg0 st0 imp0]. cbn in Hst, Hcfg. subst cfg0 st0.
  pose proof (SimpleImputerPicker_max_fit_loop T h x
                (Some (SimpleImputerPicker.OfList cfg)) "max" Hx kept d Hl [] Hndk)
    as Hloop.
  assert (r = (inr tt, SimpleImputerPicker.mk (Some (SimpleImputerPicker.OfList cfg)) "max"
                         (Some (SimpleImputerPicker.Imputers d)), h)) as ->.
  { unfold r. rewrite (SimpleImputerPicker_fit_run _ h x T Hx Hnull).
    unfold SimpleImputerPicker.fit_strategy, SimpleImputerPicker.set_cols_to_impute.
    cbn [SimpleImputerPicker.strategy SimpleImputerPicker.imputer
         SimpleImputerPicker.cols_to_impute default from_option id].
    rewrite bind_run, (df_columns_run x T) by done.
    rewrite bind_run. cbn [get_self SimpleImputerPicker.strategy String.eqb Ascii.eqb
                           Bool.eqb orb SimpleImputerPicker.cols_to_impute
                           SimpleImputerPicker.present_cols].
    rewrite bind_run. cbn [mret M_ret]. fold kept.
    rewrite bind_run. cbn [get_self].
    rewrite bind_run. cbn [set_self SimpleImputerPicker.set_imputer
                           SimpleImputerPicker.cols_to_impute SimpleImputerPicker.strategy].
    apply Hloop. by intros col _ ?%elem_of_nil. }
  split; [done|].
  intros h' x' T' outs Hx' HndT' Hne Hall Houts. cbn [self_after fst snd].
  assert (d <> []) as Hd.
  { intros ->. apply Forall2_nil_inv_r in Hl. done. }
  destruct (SimpleImputerPicker_max_transform_loop T T' (length h')
              (SimpleImputerPicker.mk (Some (SimpleImputerPicker.OfList cfg)) "max"
                 (Some (SimpleImputerPicker.Imputers d)))
              HndT' kept d Hl outs Houts Hndk (h' ++ [T']) T')
    as (T'' & Hrun & Hcols & Hfilled & Hothers).
  { apply df_alloc_lookup. }
  { done. }
  { intros col Hcol. split; [by apply Hall|done]. }
  exists T''. split_and!; [|done..].
  unfold run, SimpleImputerPicker.transform.
  rewrite bind_run. cbn [get_self].
  rewrite bind_run, check_transform_run by (by destruct d).
  rewrite bind_run, (df_copy_run x' T') by done.
  cbn [SimpleImputerPicker.strategy SimpleImputerPicker.imputer String.eqb Ascii.eqb
       Bool.eqb].
  rewrite bind_run, Hrun. cbn [mret M_ret].
  by rewrite insert_app_r_alt, Nat.sub_diag.
Qed.

Lemma SimpleImputerPicker_max_fills_witness :
  let T := frame [("col_1", [VNum 1; VNull; VNum 3]); ("col_2", [VNull; VNum 2; VNum 4])] in
  let T' := frame [("col_1", [VNull; VNum 2; VNull]); ("col_2", [VNull; VNull; VNum 5])] in
  let self := SimpleImputerPicker.mk (H:=Reference.sklearn)
                (Some (SimpleImputerPicker.OfList ["col_1"; "col_9"])) "max" None in
  let r := run (SimpleImputerPicker.fit (PyDataFrame 0)) self [T; T'] in
  outcome r = inr tt /\
  SimpleImputerPicker.imputer (self_after r)
    = Some (SimpleImputerPicker.Imputers
              [(SimpleImputerPicker.KStr "col_1", [("col_1", VNum 3)])]) /\
  exists T'',
    run (SimpleImputerPicker.transform (PyDataFrame 1)) (self_after r) [T; T']
      = (inr 2%nat, self_after r, [T; T'; T'']) /\
    lookup_col "col_1" T'' = Some (mkSeries Plain [VNum 3; VNum 2; VNum 3]) /\
    lookup_col "col_2" T'' = lookup_col "col_2" T'.
Proof.
  intros T T' self r.
  destruct (SimpleImputerPicker_max_fills (H:=Reference.sklearn) ["col_1"; "col_9"]
              self [T; T'] 0%nat T
              [(SimpleImputerPicker.KStr "col_1", [("col_1", VNum 3)])]
              eq_refl eq_refl) as [Hfit Htr].
  - cbn. distinct_names.
  - reflexivity.
  - reflexivity.
  - distinct_names.
  - constructor; [|constructor]. split; [reflexivity|]. exists 3%Q. split; reflexivity.
  - fold T T' self r in Hfit, Htr. rewrite Hfit. split; [reflexivity|]. split; [reflexivity|].
    destruct (Htr [T; T'] 1%nat T'
                [("col_1", mkSeries Plain [VNum 3; VNum 2; VNum 3])] eq_refl)
      as (T'' & Hrun & _ & Hfilled & Hothers).
    + cbn. distinct_names.
    + discriminate.
    + intros col Hcol. change (col ∈ ["col_1"]) in Hcol.
      apply list_elem_of_singleton in Hcol as ->. apply list_elem_of_In. cbn. tauto.
    + constructor; [reflexivity|constructor].
    + exists T''. split_and!.
      * exact Hrun.
      * exact (Hfilled 0%nat "col_1" _ eq_refl eq_refl).
      * apply Hothers. intros Hin. change ("col_2" ∈ ["col_1"]) in Hin.
        apply list_elem_of_singleton in Hin. discriminate Hin.
Defined.

Lemma constant_work_cons (T : table) (key : list string) (v : value)
    (d : dict (list string) value) :
  constant_work T ((key, v) :: d)
  = match filter (fun col => mem col (columns T)) key with
    | [] => constant_work T d
    | p => (p, v) :: constant_work T d
    end.
Proof.
  unfold constant_work. cbn [map fst snd].
  destruct (filter (fun col => mem col (columns T)) key) as [|c p] eqn:Hp.
  - rewrite filter_cons_False; [done|]. cbn. by intros [].
  - rewrite filter_cons_True; [done|]. cbn. exact I.
Qed.

Lemma constant_work_elem (T : table) (d : dict (list string) value)
    (p : list string) (v : value) :
  (p, v) ∈ constant_work T d <->
  p <> [] /\ exists key, (key, v) ∈ d /\ p = filter (fun col => mem col (columns T)) key.
Proof.
  induction d as [|[key v'] d IH].
  - split; [by intros ?%elem_of_nil|]. by intros (_ & key & ?%elem_of_nil & _).
  - rewrite constant_work_cons.
    destruct (filter (fun col => mem col (columns T)) key) as [|c q] eqn:Hq.
    + rewrite IH. split.
      * intros (Hp & k & Hk & ->). split; [done|]. exists k. split; [by right|done].
      * intros (Hp & k & [[= -> ->]|Hk]%elem_of_cons & ->); [by rewrite Hq in Hp|].
        split; [done|]. by exists k.
    + rewrite elem_of_cons, IH. split.
      * intros [[= -> ->]|(Hp & k & Hk & ->)].
        -- split; [done|]. exists key. split; [left|done].
        -- split; [done|]. exists k. split; [by right|done].
      * intros (Hp & k & [[= -> ->]|Hk]%elem_of_cons & ->).
        -- left. by rewrite Hq.
        -- right. split; [done|]. by exists k.
Qed.

Lemma constant_work_found (T : table) (d : dict (list string) value)
    (key : list string) (v : value) (col : string) :
  (key, v) ∈ d -> col ∈ key -> col ∈ columns T ->
  (filter (fun c => mem c (columns T)) key, v) ∈ constant_work T d.
Proof.
  intros Hk Hcol HT. apply constant_work_elem. split; [|by exists key].
  intros Hnil.
  assert (col ∈ filter (fun c => mem c (columns T)) key) as Hin
    by (by apply elem_of_filter_mem).
  rewrite Hnil in Hin. by apply elem_of_nil in Hin.
Qed.

Lemma constant_work_NoDup (T : table) (d : dict (list string) value) :
  NoDup (concat (map fst d)) -> NoDup (concat (map fst (constant_work T d))).
Proof.
  induction d as [|[key v] d IH]; intros Hnd.
  - constructor.
  - cbn [map fst concat] in Hnd. apply NoDup_app in Hnd as (Hk & Hdisj & Hd).
    rewrite constant_work_cons.
    destruct (filter (fun col => mem col (columns T)) key) as [|c q] eqn:Hq; [by apply IH|].
    cbn [map fst concat]. apply NoDup_app. split_and!.
    + rewrite <- Hq. by apply NoDup_filter.
    + intros a Ha Hin. rewrite <- Hq in Ha.
      apply elem_of_filter_mem in Ha as [Ha _]. apply (Hdisj a Ha).
      apply list_elem_of_In, in_concat in Hin as (p & Hp & Hap).
      apply in_map_iff in Hp as ([p' v'] & <- & Hw). cbn in Hap.
      apply list_elem_of_In, constant_work_elem in Hw as (_ & k & Hk' & ->).
      apply list_elem_of_In, elem_of_filter_mem in Hap as [Hak _].
      apply list_elem_of_In, in_concat. exists k. split; [|by apply list_elem_of_In].
      apply list_elem_of_In in Hk'. exact (in_map fst d (k, v') Hk').
    + by apply IH.
Qed.

Section ConstantStrategy.
Context `{Sklearn}.

Lemma SimpleImputerPicker_constant_fit_loop (T : table) (h : heap) (x : loc)
    (cfg : option SimpleImputerPicker.config) (st : string) :
  h !! x = Some T ->
  forall (d : dict (list string) value) (imps : dict SimpleImputerPicker.key sk_imputer),
    Forall2 (learned_constant T) (constant_work T d) imps ->
    forall (d0 : dict SimpleImputerPicker.key sk_imputer),
      NoDup (concat (map fst (constant_work T d))) ->
      (forall w, w ∈ constant_work T d ->
                 SimpleImputerPicker.KTuple (fst w) ∉ dict_keys d0) ->
      for_ d (fun item =>
        let cols_to_impute := filter (fun col => mem col (columns T)) (fst item) in
        if negb (length cols_to_impute =? 0)%nat then
          sub ← df_select x cols_to_impute;
          imp ← sk (sk_imputer_fit "constant" (Some (snd item)) sub);
          SimpleImputerPicker.imputer_setitem
            (SimpleImputerPicker.KTuple cols_to_impute) imp
        else mret tt)
        (SimpleImputerPicker.mk cfg st (Some (SimpleImputerPicker.Imputers d0))) h
      = (inr tt, SimpleImputerPicker.mk cfg st
                   (Some (SimpleImputerPicker.Imputers (d0 ++ imps))), h).
Proof.
  intros Hx d. induction d as [|[key v] d IH]; intros imps Hl d0 Hnd Hfresh.
  - apply Forall2_nil_inv_l in Hl as ->. by rewrite app_nil_r.
  - rewrite constant_work_cons in Hl, Hnd, Hfresh.
    cbn [for_ fst snd]. rewrite bind_run.
    destruct (filter (fun col => mem col (columns T)) key) as [|c p] eqn:Hp.
    + cbn [length Nat.eqb negb mret M_ret]. by apply IH.
    + cbn [length Nat.eqb negb]. rewrite <- Hp in *.
      set (q := filter (fun col => mem col (columns T)) key) in *.
      assert (missing_col q T = None) as Hmiss.
      { apply missing_col_None. by intros c' [_ ?]%elem_of_filter_mem. }
      apply Forall2_cons_inv_l in Hl as ([k imp] & imps' & [Hk Hfit] & Hl & ->).
      cbn [fst snd] in Hk, Hfit. subst k.
      rewrite bind_run, (df_select_run x q T) by done. rewrite Hmiss.
      rewrite bind_run, Hfit. cbn [sk mret M_ret].
      unfold SimpleImputerPicker.imputer_setitem at 1.
      rewrite bind_run. cbn [get_self SimpleImputerPicker.imputer set_self].
      rewrite dict_set_fresh by (apply (Hfresh (q, v)); left).
      unfold SimpleImputerPicker.set_imputer.
      cbn [SimpleImputerPicker.cols_to_impute SimpleImputerPicker.strategy].
      cbn [map fst concat] in Hnd. apply NoDup_app in Hnd as (Hq & Hdisj & Hrest).
      pose proof (IH imps' Hl (d0 ++ [(SimpleImputerPicker.KTuple q, imp)]) Hrest) as Hrun.
      rewrite <- app_assoc in Hrun. apply Hrun.
      intros [p' v'] Hw. unfold dict_keys. rewrite map_app. cbn.
      rewrite elem_of_app, list_elem_of_singleton.
      intros [Hin|[= Heq]].
      * revert Hin. apply (Hfresh (p', v')). by right.
      * apply (Hdisj c); [rewrite Hp; left|].
        apply list_elem_of_In, in_concat. exists p'. split.
        -- apply list_elem_of_In in Hw. exact (in_map fst _ (p', v') Hw).
        -- apply list_elem_of_In. rewrite Heq, Hp. left.
Qed.

Lemma SimpleImputerPicker_constant_transform_loop (T T' : table) (X_ : loc)
    (s : SimpleImputerPicker.t) :
  NoDup (columns T') ->
  forall (work : list (list string * value))
         (d : dict SimpleImputerPicker.key sk_imputer),
    Forall2 (learned_constant T) work d ->
    forall (outs : list table),
      Forall2 (imputed_frame T') d outs ->
      NoDup (concat (map fst work)) ->
      forall (h : heap) (Tcur : table),
        h !! X_ = Some Tcur ->
        columns Tcur = columns T' ->
        (forall col, col ∈ concat (map fst work) ->
                     col ∈ columns T' /\ lookup_col col Tcur = lookup_col col T') ->
        exists T'',
          for_ d (fun item =>
            let cols := SimpleImputerPicker.py_list (fst item) in
            sub ← df_select X_ cols;
            out ← sk (sk_imputer_transform (snd item) sub);
            df_setitem_frame X_ cols out) s h = (inr tt, s, <[X_ := T'']> h) /\
          columns T'' = columns T' /\
          (forall (i j : nat) w out col o,
             work !! i = Some w -> outs !! i = Some out ->
             fst w !! j = Some col -> out !! j = Some o ->
             lookup_col col T'' = Some (snd o)) /\
          (forall col, col ∉ concat (map fst work) ->
                       lookup_col col T'' = lookup_col col Tcur).
Proof.
  intros HndT' work d Hl. induction Hl as [|[p v] [k imp] work d Hitem Hl IH];
    intros outs Houts Hnd h Tcur Hx Hcur Hsame.
  - exists Tcur. split_and!; [|done| |done].
    + cbn. by rewrite list_insert_id.
    + by intros i j w out col o [=].
  - cbn [map fst concat] in Hnd, Hsame |- *.
    apply NoDup_app in Hnd as (Hp & Hdisj & Hrest).
    destruct Hitem as [Hk _]. cbn [fst snd] in Hk. subst k.
    apply Forall2_cons_inv_l in Houts as (out & outs' & [Hout Hlen] & Houts & ->).
    cbn [fst snd SimpleImputerPicker.py_list] in Hout, Hlen.
    assert (forall c, c ∈ p -> c ∈ columns T' /\
                      lookup_col c Tcur = lookup_col c T') as Hsp.
    { intros c Hc. apply Hsame, elem_of_app. by left. }
    assert (forall c, c ∈ p -> c ∈ columns Tcur) as HpT.
    { intros c Hc. rewrite Hcur. by apply Hsp. }
    assert (select_cols p Tcur = select_cols p T') as Hsel.
    { apply select_cols_ext; [by rewrite Hcur|done|]. intros c Hc. by apply Hsp. }
    cbn [for_ fst snd SimpleImputerPicker.py_list]. rewrite bind_run.
    rewrite bind_run, (df_select_run X_ p Tcur) by done.
    rewrite (proj2 (missing_col_None p Tcur) HpT), Hsel.
    rewrite bind_run, Hout. cbn [sk mret M_ret].
    rewrite df_setitem_frame_run by done.
    destruct (setitem_loop X_ (zip p (map snd out)) s) with (h := h) (Tcur := Tcur)
      as (T1 & -> & Hin1 & Hothers1 & Hcols1); [|done|].
    { intros c s1 s2. by apply zip_NoDup_functional. }
    assert ((zip p (map snd out)).*1 = p) as Hkeys.
    { apply fst_zip. rewrite length_map. lia. }
    rewrite Hkeys in Hothers1, Hcols1. specialize (Hcols1 HpT).
    destruct (IH outs' Houts Hrest (<[X_ := T1]> h) T1)
      as (T'' & Hrun & Hcols'' & Hfilled & Hothers); [|congruence| |].
    { apply list_lookup_insert_eq. by eapply lookup_lt_Some. }
    { intros c Hc. destruct (Hsame c) as (? & Heq); [apply elem_of_app; by right|].
      split; [done|]. rewrite Hothers1; [done|].
      intros Hcp. by apply (Hdisj c). }
    exists T''. split_and!.
    + rewrite list_insert_insert_eq in Hrun. exact Hrun.
    + done.
    + intros [|i] j w out1 col o Hw Ho Hcol Hoj; cbn in Hw, Ho.
      * injection Hw as <-. injection Ho as <-. cbn [fst] in Hcol.
        rewrite Hothers.
        -- apply Hin1. apply list_elem_of_lookup. exists j.
           apply lookup_zip_with_Some. exists col, (snd o). split_and!; [done..|].
           rewrite lookup_map. unfold table in Hoj. by rewrite Hoj.
        -- apply Hdisj. by eapply list_elem_of_lookup_2.
      * by eapply Hfilled.
    + intros c [Hcp Hcw]%not_elem_of_app. rewrite Hothers by done. by apply Hothers1.
Qed.
End ConstantStrategy.

(** X21. SimpleImputerPicker with strategy "constant" and a dict whose
    keys are tuples without a repeated or shared column, on frames with
    distinct column names.  fit on a frame without an entirely null column
    fits, for each key with a column in the frame, in the order of the
    dict, sklearn's constant imputer with the fill value of the key on the
    columns of the key that are present; when each of these fits returns,
    fit returns, with the dict of these estimators under the tuples of
    present columns and the heap as it was.  A later transform of a frame
    that has the columns fit found hands each estimator its own columns of
    the input; when each of them returns as many columns as it was given,
    transform returns a new frame with the columns of the input, in which
    the j-th column of each tuple is the j-th column its estimator
    returned, and every other column is as it was. *)
Theorem SimpleImputerPicker_constant_fills `{Sklearn} (d : dict (list string) value)
    (self : SimpleImputerPicker.t) (h : heap) (x : loc) (T : table)
    (imps : dict SimpleImputerPicker.key sk_imputer) :
  h !! x = Some T -> any_all_null T = false -> NoDup (columns T) ->
  SimpleImputerPicker.strategy self = "constant" ->
  SimpleImputerPicker.cols_to_impute self = Some (SimpleImputerPicker.OfDict d) ->
  NoDup (concat (map fst d)) ->
  let work := constant_work T d in
  Forall2 (learned_constant T) work imps ->
  let r := run (SimpleImputerPicker.fit (PyDataFrame x)) self h in
  r = (inr tt, SimpleImputerPicker.mk (Some (SimpleImputerPicker.OfDict d)) "constant"
                 (Some (SimpleImputerPicker.Imputers imps)), h) /\
  forall (h' : heap) (x' : loc) (T' : table) (outs : list table),
    h' !! x' = Some T' -> NoDup (columns T') ->
    work <> [] ->
    (forall col, col ∈ concat (map fst work) -> col ∈ columns T') ->
    Forall2 (imputed_frame T') imps outs ->
    exists T'',
      run (SimpleImputerPicker.transform (PyDataFrame x')) (self_after r) h'
        = (inr (length h'), self_after r, h' ++ [T'']) /\
      columns T'' = columns T' /\
      (forall (i j : nat) w out col o,
         work !! i = Some w -> outs !! i = Some out ->
         fst w !! j = Some col -> out !! j = Some o ->
         lookup_col col T'' = Some (snd o)) /\
      (forall col, col ∉ concat (map fst work) -> lookup_col col T'' = lookup_col col T').
Proof.
  intros Hx Hnull HndT Hst Hcfg Hnd work Hl r.
  pose proof (constant_work_NoDup T d Hnd) as Hndw.
  destruct self as [cfg0 st0 imp0]. cbn in Hst, Hcfg. subst cfg0 st0.
  pose proof (SimpleImputerPicker_constant_fit_loop T h x
                (Some (SimpleImputerPicker.OfDict d)) "constant" Hx d imps Hl [] Hndw)
    as Hloop.
  assert (r = (inr tt, SimpleImputerPicker.mk (Some (SimpleImputerPicker.OfDict d))
                         "constant" (Some (SimpleImputerPicker.Imputers imps)), h)) as ->.
  { unfold r. rewrite (SimpleImputerPicker_fit_run _ h x T Hx Hnull).
    unfold SimpleImputerPicker.fit_strategy, SimpleImputerPicker.set_cols_to_impute.
    cbn [SimpleImputerPicker.strategy SimpleImputerPicker.imputer
         SimpleImputerPicker.cols_to_impute default from_option id].
    rewrite bind_run, (df_columns_run x T) by done.
    rewrite bind_run. cbn [get_self SimpleImputerPicker.strategy String.eqb Ascii.eqb
                           Bool.eqb].
    rewrite bind_run. cbn [set_self SimpleImputerPicker.set_imputer
                           SimpleImputerPicker.cols_to_impute SimpleImputerPicker.strategy].
    apply Hloop. by intros w _ ?%elem_of_nil. }
  split; [done|].
  intros h' x' T' outs Hx' HndT' Hne Hall Houts. cbn [self_after fst snd].
  assert (imps <> []) as Hd.
  { intros ->. apply Forall2_nil_inv_r in Hl. done. }
  destruct (SimpleImputerPicker_constant_transform_loop T T' (length h')
              (SimpleImputerPicker.mk (Some (SimpleImputerPicker.OfDict d)) "constant"
                 (Some (SimpleImputerPicker.Imputers imps)))
              HndT' work imps Hl outs Houts Hndw (h' ++ [T']) T')
    as (T'' & Hrun & Hcols & Hfilled & Hothers).
  { apply df_alloc_lookup. }
  { done. }
  { intros col Hcol. split; [by apply Hall|done]. }
  exists T''. split_and!; [|done..].
  unfold run, SimpleImputerPicker.transform.
  rewrite bind_run. cbn [get_self].
  rewrite bind_run, check_transform_run by (by destruct imps).
  rewrite bind_run, (df_copy_run x' T') by done.
  cbn [SimpleImputerPicker.strategy SimpleImputerPicker.imputer String.eqb Ascii.eqb
       Bool.eqb].
  cbv zeta in Hrun. rewrite bind_run, Hrun. cbn [mret M_ret].
  by rewrite insert_app_r_alt, Nat.sub_diag.
Qed.

Lemma SimpleImputerPicker_constant_fills_witness :
  let T := frame [("col_1", [VNum 1; VNull]); ("col_2", [VNull; VNum 2]);
                  ("col_3", [VNum 5; VNum 6])] in
  let d := [(["col_1"; "col_9"], VNum 0); (["col_2"], VNum 7)] in
  let self := SimpleImputerPicker.mk (H:=Reference.sklearn)
                (Some (SimpleImputerPicker.OfDict d)) "constant" None in
  let r := run (SimpleImputerPicker.fit (PyDataFrame 0)) self [T] in
  outcome r = inr tt /\
  SimpleImputerPicker.imputer (self_after r)
    = Some (SimpleImputerPicker.Imputers
              [(SimpleImputerPicker.KTuple ["col_1"], [("col_1", VNum 0)]);
               (SimpleImputerPicker.KTuple ["col_2"], [("col_2", VNum 7)])]) /\
  exists T'',
    run (SimpleImputerPicker.transform (PyDataFrame 0)) (self_after r) [T]
      = (inr 1%nat, self_after r, [T; T'']) /\
    lookup_col "col_1" T'' = Some (mkSeries Plain [VNum 1; VNum 0]) /\
    lookup_col "col_2" T'' = Some (mkSeries Plain [VNum 7; VNum 2]) /\
    lookup_col "col_3" T'' = lookup_col "col_3" T.
Proof.
  intros T d self r.
  destruct (SimpleImputerPicker_constant_fills (H:=Reference.sklearn) d
              self [T] 0%nat T
              [(SimpleImputerPicker.KTuple ["col_1"], [("col_1", VNum 0)]);
               (SimpleImputerPicker.KTuple ["col_2"], [("col_2", VNum 7)])]
              eq_refl eq_refl) as [Hfit Htr].
  - cbn. distinct_names.
  - reflexivity.
  - reflexivity.
  - cbn. distinct_names.
  - constructor; [by split|]. constructor; [by split|]. constructor.
  - fold T d self r in Hfit, Htr. rewrite Hfit. split; [reflexivity|]. split; [reflexivity|].
    destruct (Htr [T] 0%nat T
                [[("col_1", mkSeries Plain [VNum 1; VNum 0])];
                 [("col_2", mkSeries Plain [VNum 7; VNum 2])]] eq_refl)
      as (T'' & Hrun & _ & Hfilled & Hothers).
    + cbn. distinct_names.
    + discriminate.
    + intros col Hcol. change (col ∈ ["col_1"; "col_2"]) in Hcol.
      apply list_elem_of_In in Hcol. apply list_elem_of_In. cbn in *. tauto.
    + constructor; [by split|]. constructor; [by split|]. constructor.
    + exists T''. split_and!.
      * exact Hrun.
      * exact (Hfilled 0%nat 0%nat (["col_1"], VNum 0) _ "col_1" _
                 eq_refl eq_refl eq_refl eq_refl).
      * exact (Hfilled 1%nat 0%nat (["col_2"], VNum 7) _ "col_2" _
                 eq_refl eq_refl eq_refl eq_refl).
      * apply Hothers. intros Hcol. change ("col_3" ∈ ["col_1"; "col_2"]) in Hcol.
        apply list_elem_of_In in Hcol. cbn in Hcol.
        destruct Hcol as [Hcol|[Hcol|[]]]; discriminate Hcol.
Defined.

(* ===================================================================== *)
(** ** Further properties: CalendarExtractor with a calendar level *)
(* ===================================================================== *)

(** X22. With calendar_level set to k, transform of a frame with a
    parseable date column returns the original columns without the date
    column followed by the first n of year, month, day, dayofweek and
    dayofyear, where n is k for k from 0 on and 6 + k for a negative k (as
    the slice [[:k]] of the six field names has it).  So level 0 appends
    nothing and only removes the date column, level 1 appends the year
    alone, and level 5 and every level above give the five columns of the
    unset level. *)
Theorem CalendarExtractor_level_columns (self : CalendarExtractor.t)
    (h : heap) (x : loc) (T : table) (d d' : Series) (k : Z) :
  CalendarExtractor.calendar_level self = Some k ->
  h !! x = Some T ->
  lookup_col (CalendarExtractor.date_col self) T = Some d ->
  to_datetime d = inr d' ->
  run (CalendarExtractor.transform (PyDataFrame x)) self h
  = (inr (S (length h)), self,
     h ++ [drop_cols [CalendarExtractor.date_col self] T;
           drop_cols [CalendarExtractor.date_col self] T
           ++ take (fields_kept k) (calendar_columns d')]).
Proof.
  intros Hlevel Hx Hd Hd'. unfold run, CalendarExtractor.transform.
  rewrite bind_run, check_transform_off_run.
  rewrite bind_run. cbn [get_self].
  rewrite bind_run, (df_copy_run x T) by done.
  pose proof (df_alloc_lookup h T) as HX_.
  set (X_ := length h) in *. set (dc := CalendarExtractor.date_col self) in *.
  rewrite bind_run, (df_getitem_run X_ dc T), Hd by done.
  rewrite bind_run, Hd'. cbn [lift].
  rewrite bind_run, (df_setitem_run X_ dc d' T) by done.
  set (T1 := set_col dc d' T). set (h1 := <[X_ := T1]> (h ++ [T])).
  assert (h1 !! X_ = Some T1) as HX1.
  { apply list_lookup_insert_eq. by eapply lookup_lt_Some. }
  assert (lookup_col dc T1 = Some d') as Hd1 by apply lookup_col_set_col_eq.
  rewrite Hlevel.
  assert (forall f (name : string) (acc : list (string * Series)),
            (df_getitem X_ dc ≫= fun dd =>
               lift (dt_field f dd) ≫= fun col => mret (acc ++ [(name, col)]))
              self h1
            = (inr (acc ++ [(name, calendar_column f d')]), self, h1)) as Hstep.
  { intros f name acc. rewrite bind_run, (df_getitem_run X_ dc T1), Hd1 by done.
    rewrite bind_run, (dt_field_to_datetime f d d') by done. done. }
  assert (forall (acc : list (string * Series)),
            (df_getitem X_ dc ≫= fun dd =>
               lift (dt_field Calendar.weekofyear dd) ≫= fun _ => mret acc) self h1
            = (inr acc, self, h1)) as Hweek.
  { intros acc. rewrite bind_run, (df_getitem_run X_ dc T1), Hd1 by done.
    rewrite bind_run, (dt_field_to_datetime _ d d') by done. done. }
  assert (slice_to k ["year"; "month"; "day"; "dayofweek"; "dayofyear"; "weekofyear"]
          = take (fields_kept k)
                 ["year"; "month"; "day"; "dayofweek"; "dayofyear"; "weekofyear"]) as ->.
  { unfold slice_to, fields_kept. cbn [length]. by destruct (0 <=? k). }
  pose (field := fun what : string =>
          filter (fun p : string * Series => String.eqb (fst p) what) (calendar_columns d')).
  assert (forall acc what,
            what ∈ ["year"; "month"; "day"; "dayofweek"; "dayofyear"; "weekofyear"] ->
            CalendarExtractor.generate X_ dc acc what self h1
            = (inr (acc ++ field what), self, h1)) as Hgen.
  { intros acc what Hin. apply list_elem_of_In in Hin. cbn in Hin.
    unfold CalendarExtractor.generate.
    destruct Hin as [<-|[<-|[<-|[<-|[<-|[<-|[]]]]]]];
      cbn [String.eqb Ascii.eqb Bool.eqb]; rewrite ?Hstep, ?Hweek; try reflexivity.
    by rewrite app_nil_r. }
  assert (forall ws acc,
            ws ⊆ ["year"; "month"; "day"; "dayofweek"; "dayofyear"; "weekofyear"] ->
            for_acc ws acc (CalendarExtractor.generate X_ dc) self h1
            = (inr (acc ++ flat_map field ws), self, h1)) as Hfor.
  { induction ws as [|w ws IH]; intros acc Hws.
    - cbn. by rewrite app_nil_r.
    - cbn [for_acc flat_map]. rewrite bind_run, Hgen by (apply Hws; left).
      rewrite IH by (intros w' Hw'; apply Hws; by right). by rewrite app_assoc. }
  assert (for_acc (take (fields_kept k)
                     ["year"; "month"; "day"; "dayofweek"; "dayofyear"; "weekofyear"])
                  [] (CalendarExtractor.generate X_ dc) self h1
          = (inr (take (fields_kept k) (calendar_columns d')), self, h1)) as Hloop.
  { rewrite Hfor by apply subseteq_take. cbn [app]. do 2 f_equal.
    destruct (fields_kept k) as [|[|[|[|[|[|n]]]]]]; try reflexivity.
    by destruct n. }
  rewrite bind_run, Hloop.
  rewrite bind_run, (df_drop_inplace_run X_ dc T1) by (by rewrite ?Hd1).
  set (h2 := <[X_ := _]> h1).
  assert (h2 = h ++ [drop_cols [dc] T]) as ->.
  { unfold h2, h1, T1. rewrite drop_cols_set_col by (by rewrite Hd).
    rewrite list_insert_insert_eq. unfold X_.
    by rewrite insert_app_r_alt, Nat.sub_diag. }
  rewrite bind_run, (pd_concat_run X_ _ (drop_cols [dc] T)).
  2:{ unfold X_. apply df_alloc_lookup. }
  cbn [mret M_ret]. unfold X_.
  rewrite length_app, <- app_assoc. cbn [length app]. by rewrite Nat.add_1_r.
Qed.

Lemma CalendarExtractor_level_columns_witness :
  let T := frame [("date", [VStr "2022-01-01"; VStr "2023-02-28"])] in
  let transform_at k := run (CalendarExtractor.transform (PyDataFrame 0))
                            (CalendarExtractor.__init__ "date" (Some k)) [T] in
  transform_at 0 = (inr 2%nat, CalendarExtractor.__init__ "date" (Some 0), [T; []; []]) /\
  transform_at 2
  = (inr 2%nat, CalendarExtractor.__init__ "date" (Some 2),
     [T; []; frame [("year", ints [2022; 2023]); ("month", ints [1; 2])]]).
Proof.
  intros T transform_at.
  pose proof (fun k =>
                CalendarExtractor_level_columns
                  (CalendarExtractor.__init__ "date" (Some k)) [T] 0%nat T
                  (mkSeries Plain [VStr "2022-01-01"; VStr "2023-02-28"])
                  (mkSeries Plain [VDate 2022 1 1; VDate 2023 2 28]) k
                  eq_refl eq_refl eq_refl eq_refl) as Hk.
  split; [exact (Hk 0)|exact (Hk 2)].
Defined.

(* ===================================================================== *)
(** ** Further properties: a learned column that the frame lacks *)
(* ===================================================================== *)

Lemma lookup_col_absent (c : string) (T : table) :
  (c ∉ columns T) -> lookup_col c T = None.
Proof.
  intros Hc. destruct (lookup_col c T) as [col|] eqn:Hl; [|done].
  destruct Hc. apply has_col_elem_of, lookup_col_has_col. by rewrite Hl.
Qed.

Lemma OutlierRemover_transform_loop_missing (self : OutlierRemover.t) (X_ : loc) :
  forall (l : list string) (h : heap) (T : table),
    h !! X_ = Some T ->
    (exists c, c ∈ l /\ (c ∉ columns T)) ->
    exists e s' h',
      for_ l (fun col =>
          c ← df_getitem X_ col;
          match OutlierRemover.col_thresholds self ≫= dict_get col with
          | Some th => c' ← lift (s_clip th c); df_setitem X_ col c'
          | None => raise (KeyError col)
          end) self h = (inl e, s', h').
Proof.
  induction l as [|a l IH]; intros h T Hx (c & Hc & Hmiss).
  - by apply elem_of_nil in Hc.
  - cbn [for_]. rewrite bind_run, bind_run, (df_getitem_run X_ a T) by done.
    destruct (lookup_col a T) as [col|] eqn:Ha; [|by eexists _, _, _].
    destruct (OutlierRemover.col_thresholds self ≫= dict_get a) as [th|];
      [|by eexists _, _, _].
    rewrite bind_run. destruct (s_clip th col) as [e|col']; [by eexists _, _, _|].
    cbn [lift]. rewrite (df_setitem_run X_ a col' T) by done.
    apply (IH _ (set_col a col' T)).
    + apply list_lookup_insert_eq. by eapply lookup_lt_Some.
    + exists c. rewrite columns_set_col by (by rewrite Ha). split; [|done].
      apply elem_of_cons in Hc as [->|Hc]; [|done].
      by rewrite lookup_col_absent in Ha.
Qed.

(** X23. transform of a frame that lacks a column the instance works on
    does not return a frame.  CalendarExtractor raises KeyError for its date
    column, whatever the calendar level.  A fitted OutlierRemover raises
    when one of its columns is absent.  ScalerPicker with a fitted
    estimator raises KeyError for the first of its columns that is absent.
    In each case the input frame is still in place. *)
Theorem transform_missing_column `{Sklearn} (h : heap) (x : loc) (T : table) :
  h !! x = Some T ->
  (forall self,
     (CalendarExtractor.date_col self ∉ columns T) ->
     run (CalendarExtractor.transform (PyDataFrame x)) self h
     = (inl (KeyError (CalendarExtractor.date_col self)), self, h ++ [T])) /\
  (forall self c,
     truthy (OutlierRemover.col_thresholds self) = true ->
     c ∈ OutlierRemover.cols_to_transform self -> (c ∉ columns T) ->
     let r := run (OutlierRemover.transform (PyDataFrame x)) self h in
     (exists e, outcome r = inl e) /\ heap_after r !! x = Some T) /\
  (forall self sc c,
     ScalerPicker.scaler self = Some (ScalerPicker.Fitted sc) ->
     missing_col (ScalerPicker.cols_to_scale self) T = Some c ->
     run (ScalerPicker.transform (PyDataFrame x)) self h
     = (inl (KeyError c), self, h ++ [T])).
Proof.
  intros Hx. split_and!.
  - intros self Hmiss. unfold run, CalendarExtractor.transform.
    rewrite bind_run, check_transform_off_run.
    rewrite bind_run. cbn [get_self].
    rewrite bind_run, (df_copy_run x T) by done.
    rewrite bind_run, (df_getitem_run (length h) _ T) by apply df_alloc_lookup.
    by rewrite lookup_col_absent.
  - intros self c Htr Hc Hmiss r. split.
    + unfold r, run, OutlierRemover.transform.
      rewrite bind_run. cbn [get_self].
      rewrite bind_run, check_transform_run by done.
      rewrite bind_run, (df_copy_run x T) by done.
      destruct (OutlierRemover_transform_loop_missing self (length h)
                  (OutlierRemover.cols_to_transform self) (h ++ [T]) T)
        as (e & s' & h' & Hrun); [apply df_alloc_lookup|by exists c|].
      rewrite bind_run, Hrun. by exists e.
    + apply (frames_input_kept (OutlierRemover.transform (PyDataFrame x)) self h x T);
        [by apply OutlierRemover_transform_frames|done].
  - intros self sc c Hsc Hmiss. unfold run, ScalerPicker.transform.
    rewrite bind_run. cbn [get_self].
    rewrite bind_run, check_transform_run by (by rewrite Hsc).
    rewrite bind_run, (df_copy_run x T) by done. rewrite Hsc.
    rewrite bind_run, (df_select_run (length h) _ T) by apply df_alloc_lookup.
    by rewrite Hmiss.
Qed.

Lemma transform_missing_column_witness :
  let T := frame [("col_1", ints [1; 2; 3])] in
  run (CalendarExtractor.transform (PyDataFrame 0)) (CalendarExtractor.__init__ "date" None) [T]
  = (inl (KeyError "date"), CalendarExtractor.__init__ "date" None, [T; T]) /\
  exists e,
    outcome (run (OutlierRemover.transform (PyDataFrame 0))
                 (OutlierRemover.mk ["col_1"; "col_2"] "iqr"
                    (Some [("col_1", (VNum 1, VNum 3)); ("col_2", (VNum 0, VNum 1))])) [T])
    = inl e.
Proof.
  intros T.
  destruct (transform_missing_column (H:=Reference.sklearn) [T] 0%nat T eq_refl)
    as (Hc & Ho & _).
  split.
  - apply (Hc (CalendarExtractor.__init__ "date" None)).
    intros Hin%list_elem_of_singleton. discriminate Hin.
  - apply (Ho (OutlierRemover.mk ["col_1"; "col_2"] "iqr"
                 (Some [("col_1", (VNum 1, VNum 3)); ("col_2", (VNum 0, VNum 1))]))
              "col_2").
    + reflexivity.
    + apply list_elem_of_In. cbn. tauto.
    + intros Hin%list_elem_of_singleton. discriminate Hin.
Defined.

(* ===================================================================== *)
(** ** Further properties: ts_utils.py *)
(* ===================================================================== *)

Lemma days_from_civil_next_year (y m d : Z) :
  Calendar.days_from_civil (y + 1) m d
  = Calendar.days_from_civil y m d + 365 + leap_day (if m <=? 2 then y else y + 1).
Proof.
  unfold Calendar.days_from_civil, leap_day, Calendar.is_leap. cbv zeta.
  destruct (m <=? 2).
  - replace (y + 1 - 1) with y by lia.
    destruct (Z.eqb_spec (y mod 4) 0), (Z.eqb_spec (y mod 100) 0),
      (Z.eqb_spec (y mod 400) 0); cbn [andb orb negb]; Z.div_mod_to_equations; lia.
  - destruct (Z.eqb_spec ((y + 1) mod 4) 0), (Z.eqb_spec ((y + 1) mod 100) 0),
      (Z.eqb_spec ((y + 1) mod 400) 0); cbn [andb orb negb]; Z.div_mod_to_equations; lia.
Qed.

Lemma valid_inv (d : TsUtils.date) :
  TsUtils.valid d = true ->
  1 <= TsUtils.year d <= 9999 /\ 1 <= TsUtils.month d <= 12 /\
  1 <= TsUtils.day d <= Calendar.days_in_month (TsUtils.year d) (TsUtils.month d).
Proof. unfold TsUtils.valid. rewrite !andb_true_iff, !Z.leb_le. lia. Qed.

Lemma valid_intro (y m d : Z) :
  1 <= y <= 9999 -> 1 <= m <= 12 -> 1 <= d <= Calendar.days_in_month y m ->
  TsUtils.valid (TsUtils.mkdate y m d) = true.
Proof. unfold TsUtils.valid. cbn. rewrite !andb_true_iff, !Z.leb_le. lia. Qed.

Lemma month_cases (m : Z) :
  1 <= m <= 12 ->
  m = 1 \/ m = 2 \/ m = 3 \/ m = 4 \/ m = 5 \/ m = 6 \/ m = 7 \/ m = 8 \/ m = 9 \/
  m = 10 \/ m = 11 \/ m = 12.
Proof. lia. Qed.

Lemma days_in_month_bounds (y m : Z) : 28 <= Calendar.days_in_month y m <= 31.
Proof. unfold Calendar.days_in_month. repeat case_match; lia. Qed.

Ltac closed_arith :=
  repeat match goal with
    | |- context [Z.pos ?a + Z.pos ?b] =>
        let v := eval vm_compute in (Z.pos a + Z.pos b) in
        change (Z.pos a + Z.pos b) with v
    | |- context [Z.pos ?a - Z.pos ?b] =>
        let v := eval vm_compute in (Z.pos a - Z.pos b) in
        change (Z.pos a - Z.pos b) with v
    | |- context [Z.pos ?a <=? Z.pos ?b] =>
        let v := eval vm_compute in (Z.pos a <=? Z.pos b) in
        change (Z.pos a <=? Z.pos b) with v
    | |- context [Z.pos ?a <? Z.pos ?b] =>
        let v := eval vm_compute in (Z.pos a <? Z.pos b) in
        change (Z.pos a <? Z.pos b) with v
    | |- context [Z.pos ?a =? Z.pos ?b] =>
        let v := eval vm_compute in (Z.pos a =? Z.pos b) in
        change (Z.pos a =? Z.pos b) with v
    end;
  cbv beta iota zeta; cbn [orb andb negb]; cbv beta iota zeta.

Ltac civil :=
  unfold Calendar.days_from_civil, Calendar.days_in_month, Calendar.is_leap;
  closed_arith;
  repeat match goal with
    | |- context [?a mod ?b =? 0] => destruct (Z.eqb_spec (a mod b) 0)
    end;
  cbn [andb orb negb]; cbv beta iota zeta;
  Z.div_mod_to_equations; lia.

Lemma tomorrow_spec (d : TsUtils.date) :
  TsUtils.valid d = true ->
  TsUtils.toordinal d < TsUtils.toordinal (TsUtils.mkdate 9999 12 31) ->
  exists d', TsUtils.tomorrow d = inr d' /\ TsUtils.valid d' = true /\
             TsUtils.toordinal d' = TsUtils.toordinal d + 1.
Proof.
  destruct d as [y m dd]. intros Hv%valid_inv Hlt.
  cbn [TsUtils.year TsUtils.month TsUtils.day] in Hv. destruct Hv as (Hy & Hm & Hd).
  unfold TsUtils.tomorrow, TsUtils.toordinal in *. cbn [TsUtils.year TsUtils.month TsUtils.day] in *.
  destruct (Z.ltb_spec dd (Calendar.days_in_month y m)) as [Hlt'|Hge].
  { eexists. split; [done|]. split; [apply valid_intro; lia|].
    cbn [TsUtils.year TsUtils.month TsUtils.day].
    unfold Calendar.days_from_civil. cbv zeta. lia. }
  assert (dd = Calendar.days_in_month y m) as -> by lia.
  destruct (Z.ltb_spec m 12) as [Hm12|Hm12].
  { eexists. split; [done|]. split.
    - apply valid_intro; [lia..|]. pose proof (days_in_month_bounds y (m + 1)). lia.
    - cbn [TsUtils.year TsUtils.month TsUtils.day].
      assert (m = 1 \/ m = 2 \/ m = 3 \/ m = 4 \/ m = 5 \/ m = 6 \/ m = 7 \/ m = 8 \/
              m = 9 \/ m = 10 \/ m = 11) as Hcases by lia.
      destruct Hcases as [->|[->|[->|[->|[->|[->|[->|[->|[->|[->| ->]]]]]]]]]]; civil. }
  assert (m = 12) as -> by lia.
  destruct (Z.ltb_spec y 9999) as [Hy9|Hy9].
  - eexists. split; [done|].
    split; [apply valid_intro; [lia|lia|unfold Calendar.days_in_month; closed_arith; lia]|].
    cbn [TsUtils.year TsUtils.month TsUtils.day].
    civil.
  - assert (y = 9999) as -> by lia. cbn in Hlt. lia.
Qed.

Lemma add_days_spec (k : nat) :
  forall d : TsUtils.date,
    TsUtils.valid d = true ->
    TsUtils.toordinal d + Z.of_nat k <= TsUtils.toordinal (TsUtils.mkdate 9999 12 31) ->
    exists d', TsUtils.add_days k d = inr d' /\ TsUtils.valid d' = true /\
               TsUtils.toordinal d' = TsUtils.toordinal d + Z.of_nat k.
Proof.
  induction k as [|k IH]; intros d Hv Hle.
  - exists d. split_and!; [done..|]. cbn. lia.
  - destruct (tomorrow_spec d Hv) as (d1 & Ht & Hv1 & Ho1); [lia|].
    destruct (IH d1 Hv1) as (d' & Ha & Hv' & Ho'); [lia|].
    exists d'. cbn [TsUtils.add_days]. rewrite Ht. split_and!; [done..|]. lia.
Qed.

Lemma weekday_toordinal (d : TsUtils.date) :
  TsUtils.weekday d = (TsUtils.toordinal d + 6) mod 7.
Proof.
  unfold TsUtils.weekday, TsUtils.toordinal, Calendar.dayofweek.
  Z.div_mod_to_equations. lia.
Qed.

Lemma days_from_civil_day (y m d : Z) :
  Calendar.days_from_civil y m d = Calendar.days_from_civil y m 0 + d.
Proof. unfold Calendar.days_from_civil. cbv zeta. lia. Qed.

Lemma is_leap_next (y : Z) :
  Calendar.is_leap y = true -> Calendar.is_leap (y + 1) = false.
Proof.
  unfold Calendar.is_leap.
  destruct (Z.eqb_spec (y mod 4) 0), (Z.eqb_spec ((y + 1) mod 4) 0),
    (Z.eqb_spec (y mod 400) 0), (Z.eqb_spec ((y + 1) mod 400) 0);
    cbn [andb orb negb]; try done; try (Z.div_mod_to_equations; lia).
  all: destruct (_ =? _); try done; destruct (_ =? _); done.
Qed.

Lemma add_one_year_spec (d : TsUtils.date) :
  TsUtils.valid d = true -> TsUtils.year d < 9999 ->
  exists s, TsUtils.add_one_year d = inr s /\ TsUtils.valid s = true /\
            (TsUtils.toordinal s = TsUtils.toordinal d + 365 \/
             TsUtils.toordinal s = TsUtils.toordinal d + 366).
Proof.
  destruct d as [y m dd]. intros Hv%valid_inv Hy9.
  cbn [TsUtils.year TsUtils.month TsUtils.day] in *. destruct Hv as (Hy & Hm & Hd).
  unfold TsUtils.add_one_year. cbn [TsUtils.year TsUtils.month TsUtils.day].
  destruct (Z.ltb_spec 9999 (y + 1)); [lia|].
  eexists. split; [done|].
  pose proof (days_in_month_bounds (y + 1) m) as Hb.
  split; [apply valid_intro; lia|].
  unfold TsUtils.toordinal. cbn [TsUtils.year TsUtils.month TsUtils.day].
  rewrite days_from_civil_next_year.
  assert (m = 2 \/ m <> 2) as [->|Hm2] by lia.
  - rewrite (days_from_civil_day y 2 (Z.min _ _)), (days_from_civil_day y 2 dd).
    revert Hd. unfold Calendar.days_in_month, leap_day. closed_arith.
    pose proof (is_leap_next y).
    destruct (Calendar.is_leap y), (Calendar.is_leap (y + 1)); try done; lia.
  - assert (Calendar.days_in_month (y + 1) m = Calendar.days_in_month y m) as ->.
    { unfold Calendar.days_in_month. destruct (Z.eqb_spec m 2); [done|reflexivity]. }
    rewrite Z.min_l by lia. unfold leap_day.
    destruct (Calendar.is_leap _); lia.
Qed.

(** X24. get_closest_same_day_of_week of a date up to 9998-12-25 returns
    a date with the same day of the week that lies exactly 371 days, that is
    53 weeks, after the given date: it is the first such day from the same
    month and day of the next year on (February 28 for a February 29),
    never the nearer one 52 weeks after the given date. *)
Theorem get_closest_same_day_of_week_53_weeks (d : TsUtils.date) :
  TsUtils.valid d = true ->
  TsUtils.toordinal d + 371 <= TsUtils.toordinal (TsUtils.mkdate 9999 12 31) ->
  exists r, TsUtils.get_closest_same_day_of_week d = inr r /\
            TsUtils.valid r = true /\
            TsUtils.weekday r = TsUtils.weekday d /\
            TsUtils.toordinal r = TsUtils.toordinal d + 371.
Proof.
  intros Hv Hle.
  assert (TsUtils.year d < 9999) as Hy.
  { destruct (Z.ltb_spec (TsUtils.year d) 9999) as [|Hge]; [done|]. exfalso.
    destruct d as [y m dd]. apply valid_inv in Hv.
    cbn [TsUtils.year TsUtils.month TsUtils.day] in *.
    assert (y = 9999) as -> by lia.
    revert Hle. unfold TsUtils.toordinal. cbn [TsUtils.year TsUtils.month TsUtils.day].
    destruct Hv as (_ & Hm & Hd).
    pose proof (days_in_month_bounds 9999 m).
    unfold Calendar.days_from_civil. cbv zeta.
    destruct (Z.leb_spec m 2), (Z.ltb_spec 2 m); closed_arith;
      Z.div_mod_to_equations; lia. }
  destruct (add_one_year_spec d Hv Hy) as (s & Hs & Hvs & Hos).
  unfold TsUtils.get_closest_same_day_of_week. rewrite Hs.
  rewrite !weekday_toordinal.
  set (k := ((TsUtils.toordinal d + 6) mod 7 - (TsUtils.toordinal s + 6) mod 7) mod 7).
  assert (TsUtils.toordinal s + k = TsUtils.toordinal d + 371 /\ 0 <= k) as [Hk Hk0].
  { unfold k. destruct Hos as [-> | ->]; Z.div_mod_to_equations; lia. }
  destruct (add_days_spec (Z.to_nat k) s Hvs) as (r & Hr & Hvr & Hor); [lia|].
  exists r. split_and!; [done..| |lia].
  rewrite weekday_toordinal, Hor. Z.div_mod_to_equations. lia.
Qed.

Lemma get_closest_same_day_of_week_53_weeks_witness :
  let d := TsUtils.mkdate 2024 2 29 in
  TsUtils.get_closest_same_day_of_week d = inr (TsUtils.mkdate 2025 3 6) /\
  exists r, TsUtils.get_closest_same_day_of_week d = inr r /\
            TsUtils.valid r = true /\
            TsUtils.weekday r = TsUtils.weekday d /\
            TsUtils.toordinal r = TsUtils.toordinal d + 371.
Proof.
  intros d. split; [reflexivity|].
  apply (get_closest_same_day_of_week_53_weeks d); [reflexivity|].
  vm_compute. discriminate.
Defined.
